(** * e-queo-pdf: the course scraper, embedded and checked against its specification

    The script [e-queo-pdf.py] reads a token and a module id from [config.ini],
    pages through the learning programs of the module, asks which materials of
    each program are longreads, downloads the longread pages, and assembles one
    Markdown document per program, which it then renders to HTML and PDF.

    Python values are modelled as follows: [int] as [Z], [str] as [string],
    the dictionaries that mirror the JSON of the API as records, a [dict] that
    is iterated (the programs) as an association list in insertion order, and
    an exception as a constructor of the result of a call. *)

From Stdlib Require Import List ZArith String Ascii Bool Lia Permutation Sorted.
Import ListNotations.

Local Open Scope string_scope.
Local Open Scope list_scope.
Local Open Scope Z_scope.

(* ================================================================= *)
(** ** Strings *)

Module Str.

(** ['\n'] and ['#']. *)
Definition newline : ascii := "010"%char.
Definition hash : ascii := "#"%char.

(** [c * n] for a one-character string [c]. *)
Fixpoint replicate (n : nat) (c : ascii) : string :=
  match n with
  | O => EmptyString
  | S n' => String c (replicate n' c)
  end.

(** [''.join(parts)]. *)
Fixpoint concat_all (parts : list string) : string :=
  match parts with
  | [] => EmptyString
  | p :: ps => (p ++ concat_all ps)%string
  end.

(** [s.split('\n')]: never empty, the last piece is what follows the last
    newline. *)
Fixpoint split_lines (s : string) : list string :=
  match s with
  | EmptyString => [EmptyString]
  | String c s' =>
      if (c =? newline)%char then EmptyString :: split_lines s'
      else match split_lines s' with
           | l :: ls => String c l :: ls
           | [] => [String c EmptyString]
           end
  end.

(** ['\n'.join(lines)]. *)
Fixpoint join_lines (lines : list string) : string :=
  match lines with
  | [] => EmptyString
  | [l] => l
  | l :: ls => (l ++ String newline (join_lines ls))%string
  end.

(** Splits a string into its leading run of ['#'] and the rest. *)
Fixpoint span_hashes (s : string) : string * string :=
  match s with
  | String c s' =>
      if (c =? hash)%char
      then let (run, rest) := span_hashes s' in (String c run, rest)
      else (EmptyString, s)
  | EmptyString => (EmptyString, EmptyString)
  end.

(** Number of ['#'] a line starts with: its heading level, 0 for a line that
    is no heading. *)
Definition heading_level (line : string) : nat :=
  String.length (fst (span_hashes line)).

(** The last character of [s], or [prev] when [s] is empty. *)
Fixpoint last_char (prev : option ascii) (s : string) : option ascii :=
  match s with
  | EmptyString => prev
  | String c s' => last_char (Some c) s'
  end.

(** [c in s]. *)
Fixpoint contains (c : ascii) (s : string) : bool :=
  match s with
  | EmptyString => false
  | String d s' => (d =? c)%char || contains c s'
  end.

End Str.

(* ================================================================= *)
(** ** Exceptions and results *)

(** What the interpolation of a value of [config.ini] can raise. *)
Inductive interpolation_error : Type :=
| InterpolationDepthError
| InterpolationSyntaxError
| InterpolationMissingOptionError (var : string).

(** The exceptions the script can end with, apart from [SystemExit]. *)
Inductive exn : Type :=
| Exception (msg : string)   (* raise Exception(msg) *)
| KeyError (key : string)    (* a missing dictionary key *)
| TypeError                  (* re.sub on None *)
| InterpolationError (e : interpolation_error).

(** The result of a call of a function without effects. *)
Inductive result (A : Type) : Type :=
| Ok (a : A)
| Err (e : exn).
Arguments Ok {A} a.
Arguments Err {A} e.

Definition result_bind {A B} (r : result A) (k : A -> result B) : result B :=
  match r with
  | Ok a => k a
  | Err e => Err e
  end.

(** A [for] loop whose body updates the loop state and may raise. *)
Fixpoint for_in {A S} (xs : list A) (body : S -> A -> result S) (st : S)
  : result S :=
  match xs with
  | [] => Ok st
  | x :: xs' => result_bind (body st x) (for_in xs' body)
  end.

(* ================================================================= *)
(** ** [re.sub(r'^(#+)', r'\1' + shift, md, flags=re.MULTILINE)] *)

Module Re.
Import Str.

(** [^] under [re.MULTILINE]: the position is the start of the string or
    follows a newline. [prev] is the character before the position. *)
Definition at_line_start (prev : option ascii) : bool :=
  match prev with
  | None => true
  | Some c => (c =? newline)%char
  end.

(** A match of [^(#+)] at a position: group 1 (greedy, not empty) and what
    follows the match. *)
Definition match_heading (prev : option ascii) (s : string)
  : option (string * string) :=
  if at_line_start prev then
    match span_hashes s with
    | (EmptyString, _) => None
    | (run, rest) => Some (run, rest)
    end
  else None.

(** The scan of [re.sub]: at each position from left to right, a match is
    replaced by [repl group] and the scan goes on after it; otherwise the
    character is copied. Each step consumes at least one character, so
    [fuel] above the length of [s] is never used up. *)
Fixpoint sub_scan (fuel : nat) (repl : string -> string)
         (prev : option ascii) (s : string) : string :=
  match fuel with
  | O => s
  | S fuel' =>
      match match_heading prev s with
      | Some (run, rest) =>
          (repl run ++ sub_scan fuel' repl (last_char prev run) rest)%string
      | None =>
          match s with
          | EmptyString => EmptyString
          | String c s' => String c (sub_scan fuel' repl (Some c) s')
          end
      end
  end.

Definition sub_heading (repl : string -> string) (s : string) : string :=
  sub_scan (S (String.length s)) repl None s.

End Re.

(** [shift_headings(md, level)], for [md] a string. *)
Definition shift_headings (md : string) (level : Z) : string :=
  let shift := Str.replicate (Z.to_nat level) Str.hash in
  let replaced := Re.sub_heading (fun group1 => (group1 ++ shift)%string) md in
  replaced.

(** [shift_headings(text, level)] as [create_program_content_md] calls it:
    [text] is [None] when no content was found, and [re.sub] raises
    [TypeError] on it. *)
Definition shift_headings_opt (text : option string) (level : Z)
  : result string :=
  match text with
  | Some md => Ok (shift_headings md level)
  | None => Err TypeError
  end.

(* ================================================================= *)
(** ** The data of a program *)

(** [{'id': .., 'name': .., 'order': ..}] *)
Record material : Type := mk_material {
  mat_id : Z;
  mat_name : string;
  mat_order : Z
}.

(** [{'id': .., 'name': .., 'order': .., 'materials': [..]}] *)
Record section : Type := mk_section {
  sec_id : Z;
  sec_name : string;
  sec_order : Z;
  sec_materials : list material
}.

(** [{'name': .., 'sections': [..], 'order': ..}] *)
Record program : Type := mk_program {
  prog_name : string;
  prog_sections : list section;
  prog_order : Z
}.

(** [{'id': .., 'content': ..}], an element of [longreads_content]. *)
Record longread_content : Type := mk_content {
  lc_id : Z;
  lc_content : string
}.

(* ================================================================= *)
(** ** [sorted(xs, key=...)] *)

Section Sorted.
Context {A : Type} (key : A -> Z).

(** [sorted] is stable: an element goes before the first element whose key
    is not smaller, so before every later element with the same key. *)
Fixpoint insert_by (x : A) (l : list A) : list A :=
  match l with
  | [] => [x]
  | y :: l' => if key x <=? key y then x :: y :: l' else y :: insert_by x l'
  end.

Fixpoint sorted (l : list A) : list A :=
  match l with
  | [] => []
  | x :: l' => insert_by x (sorted l')
  end.
End Sorted.

(* ================================================================= *)
(** ** Assembling the Markdown *)

(** [next((x['content'] for x in longreads_content if x['id'] == id), None)] *)
Fixpoint next_content (longreads_content : list longread_content) (id : Z)
  : option string :=
  match longreads_content with
  | [] => None
  | x :: rest => if lc_id x =? id then Some (lc_content x)
                 else next_content rest id
  end.

(** [f'# {heading}\n\n\n{text}\n'] *)
Definition material_block (heading text : string) : string :=
  ("# " ++ heading ++ String Str.newline (String Str.newline
     (String Str.newline (text ++ String Str.newline EmptyString))))%string.

Definition create_program_content_md (sections : list section)
           (longreads_content : list longread_content) : result string :=
  for_in sections (fun program_content_md section =>
    let materials := sorted mat_order (sec_materials section) in
    for_in materials (fun program_content_md material =>
      let text := next_content longreads_content (mat_id material) in
      result_bind (shift_headings_opt text 1) (fun text =>
      let heading := mat_name material in
      Ok (program_content_md ++ material_block heading text)%string))
    program_content_md)
  EmptyString.

(** [filter_longreads(program, longreads_ids)]: every section keeps the
    materials whose id is in [longreads_ids]. *)
Definition id_in (longreads_ids : list Z) (id : Z) : bool :=
  existsb (fun y => id =? y) longreads_ids.

Definition filter_longreads (p : program) (longreads_ids : list Z) : program :=
  let sections :=
    map (fun s =>
           mk_section (sec_id s) (sec_name s) (sec_order s)
             (filter (fun x => id_in longreads_ids (mat_id x))
                     (sec_materials s)))
        (prog_sections p) in
  mk_program (prog_name p) sections (prog_order p).

(* ================================================================= *)
(** ** [config.ini] *)

(** The options of a section as [ConfigParser] keeps them: the names in the
    form [optionxform] gives them, the values as they are written. *)
Definition options : Type := list (string * string).

(** What [ConfigParser.read] leaves in the parser: the options of the
    [[DEFAULT]] section, and the other sections of the file with theirs. A
    file that does not exist gives neither. A file that does not parse makes
    [read] raise, which is left out. *)
Record config : Type := mk_config {
  cfg_defaults : options;
  cfg_sections : list (string * options)
}.

Fixpoint assoc {V} (k : string) (l : list (string * V)) : option V :=
  match l with
  | [] => None
  | (k', v) :: l' => if (k' =? k)%string then Some v else assoc k l'
  end.

(** [ConfigParser.has_section]: [section in self._sections], where the
    [DEFAULT] section never is. *)
Definition has_section (c : config) (section : string) : bool :=
  negb (section =? "DEFAULT")%string
  && match assoc section (cfg_sections c) with
     | Some _ => true
     | None => false
     end.

(** The scan of [BasicInterpolation._interpolate_some] is after text, after
    a ['%'], inside the name of ['%(name)s'], or after its [')']. *)
Inductive scan_mode : Type :=
| InText
| AfterPercent
| InName (name : string)
| AfterName (name : string).

Section Parser.

(** [ConfigParser.optionxform], which is [str.lower]. *)
Variable optionxform : string -> string.

(** [_ChainMap({}, sectiondict, self._defaults)[key]] *)
Definition chain_lookup (c : config) (section key : string)
  : option string :=
  let sectiondict := match assoc section (cfg_sections c) with
                     | Some o => o
                     | None => []
                     end in
  match assoc key sectiondict with
  | Some value => Some value
  | None => assoc key (cfg_defaults c)
  end.

(** The [while rest:] loop of [BasicInterpolation._interpolate_some]:
    ['%%'] stands for ['%'], ['%(name)s'] for the value of [name], which
    [deeper] interpolates when it holds a ['%']; any other ['%'] is an
    error. *)
Fixpoint interpolate_loop (deeper : string -> result string)
         (map : string -> option string) (mode : scan_mode) (rest : string)
  : result string :=
  match rest with
  | EmptyString =>
      match mode with
      | InText => Ok EmptyString
      | _ => Err (InterpolationError InterpolationSyntaxError)
      end
  | String c rest' =>
      match mode with
      | InText =>
          if (c =? "%")%char then interpolate_loop deeper map AfterPercent rest'
          else result_bind (interpolate_loop deeper map InText rest')
                           (fun out => Ok (String c out))
      | AfterPercent =>
          if (c =? "%")%char
          then result_bind (interpolate_loop deeper map InText rest')
                           (fun out => Ok (String "%" out))
          else if (c =? "(")%char
          then interpolate_loop deeper map (InName EmptyString) rest'
          else Err (InterpolationError InterpolationSyntaxError)
      | InName name =>
          if (c =? ")")%char then
            match name with
            | EmptyString => Err (InterpolationError InterpolationSyntaxError)
            | _ => interpolate_loop deeper map (AfterName name) rest'
            end
          else interpolate_loop deeper map
                                (InName (name ++ String c EmptyString)) rest'
      | AfterName name =>
          if (c =? "s")%char then
            let var := optionxform name in
            match map var with
            | None =>
                Err (InterpolationError (InterpolationMissingOptionError var))
            | Some v =>
                result_bind (if Str.contains "%" v then deeper v else Ok v)
                  (fun out =>
                     result_bind (interpolate_loop deeper map InText rest')
                                 (fun out' => Ok (out ++ out')%string))
            end
          else Err (InterpolationError InterpolationSyntaxError)
      end
  end.

(** [BasicInterpolation._interpolate_some], with [budget] the depths left up
    to [MAX_INTERPOLATION_DEPTH]. *)
Fixpoint interpolate_some (budget : nat) (map : string -> option string)
         (rest : string) : result string :=
  match budget with
  | O => Err (InterpolationError InterpolationDepthError)
  | S budget' =>
      interpolate_loop (interpolate_some budget' map) map InText rest
  end.

Definition MAX_INTERPOLATION_DEPTH : nat := 10.

(** [config[section][name]]: [KeyError] for a section or an option that is
    not there, the option looked up under [optionxform name] in the section
    and then in the defaults, and its value interpolated. *)
Definition config_getitem (c : config) (section name : string)
  : result string :=
  if negb (section =? "DEFAULT")%string && negb (has_section c section)
  then Err (KeyError section)
  else
    let key := optionxform name in
    match chain_lookup c section key with
    | None => Err (KeyError name)
    | Some value =>
        interpolate_some MAX_INTERPOLATION_DEPTH (chain_lookup c section) value
    end.

Definition section_not_found (section filename : string) : string :=
  ("Section " ++ section ++ " not found in the " ++ filename ++ " file")%string.

(** [get_config_data(filename, section, name)]; [read] is the content of the
    disk as [config.read] sees it. *)
Definition get_config_data (read : string -> config)
           (filename section name : string) : result string :=
  let config := read filename in
  if has_section config section then
    result_bind (config_getitem config section name) (fun data => Ok data)
  else
    Err (Exception (section_not_found section filename)).

End Parser.

(* ================================================================= *)
(** ** The API: requests, replies and the world the script runs in *)

Inductive http_method : Type := GET | POST.

Inductive query_value : Type :=
| QInt (n : Z)
| QStr (s : string).

(** The JSON body of a request, before [json.dumps]. *)
Inductive request_body : Type :=
| NoBody
| BodyMaterials (materials : list Z)             (* {'materials': [..]} *)
| BodyLongreads (longreads : list Z)             (* {'longreads': [..]} *)
| BodyPage (longread : Z) (page : string).       (* {'longread': .., 'page': ..} *)

(** A request: the URL up to [?], the query parameters after it, the body.
    The headers are the same for every request and are left out. *)
Record request : Type := mk_request {
  req_method : http_method;
  req_url : string;
  req_query : list (string * query_value);
  req_body : request_body
}.

(** The page number a request carries in its URL. *)
Definition page_of (r : request) : option Z :=
  match assoc "page" (req_query r) with
  | Some (QInt n) => Some n
  | _ => None
  end.

(** The dictionaries of the API, with the fields the script reads and
    [*_more] for the fields it does not. *)
Record api_material : Type := mk_api_material {
  am_id : Z; am_name : string; am_order : Z;
  am_more : list (string * string)
}.

Record api_section : Type := mk_api_section {
  as_id : Z; as_name : string; as_order : Z;
  as_materials : list api_material;
  as_more : list (string * string)
}.

Record api_program : Type := mk_api_program {
  ap_id : Z; ap_name : string; ap_order : Z;
  ap_sections : list api_section;
  ap_more : list (string * string)
}.

(** An element of [response['success']['materials']]. *)
Record typed_material : Type := mk_typed_material {
  tm_id : Z;
  tm_type : string
}.

(** An element of [response['success']['page_titles']]. *)
Record page_title : Type := mk_page_title {
  pt_longread_id : Z;
  pt_uuid : string
}.

(** [{'id': .., 'uuid': ..}] *)
Record longread : Type := mk_longread {
  lr_id : Z;
  lr_uuid : string
}.

(** [response.json()['success']], one shape per endpoint; [pages_count] is
    [['meta']['pagination']['pages_count']]. *)
Inductive payload : Type :=
| LearningPrograms (learning_programs : list api_program) (pages_count : Z)
| Materials (materials : list typed_material) (pages_count : Z)
| PageTitles (page_titles : list page_title) (pages_count : Z)
| Page (body : string).

(** A [requests.exceptions.RequestException]. *)
Inductive request_exception : Type :=
| ConnectionError (detail : string)   (* raised by requests.get / post *)
| HTTPError (status : Z).             (* raised by raise_for_status *)

(** What the network does with a request. *)
Inductive reply : Type :=
| Fails (detail : string)
| Response (status : Z) (success : payload).

(** [raise_for_status] raises on the 4xx and 5xx codes. *)
Definition error_status (status : Z) : bool :=
  (400 <=? status) && (status <? 600).

Definition failed (r : reply) : bool :=
  match r with
  | Fails _ => true
  | Response status _ => error_status status
  end.

(** The remote host: its reply to a request may depend on every request
    before it. *)
Definition server : Type := list request -> request -> reply.

Inductive fs_event : Type :=
| Mkdir (path : string)
| WriteFile (path content : string).

(** The world: the requests issued so far with their replies, and what was
    done to the disk, both oldest first. *)
Record world : Type := mk_world {
  trace : list (request * reply);
  disk : list fs_event
}.

Definition initial_world : world := mk_world [] [].

(** How a call ends. [Running] is the model's own: the budget of loop
    iterations is used up and the loop of the script is still going. *)
Inductive outcome (A : Type) : Type :=
| Returns (a : A)
| SystemExit (msg : string) (e : request_exception)
| Raises (e : exn)
| Running.
Arguments Returns {A} a.
Arguments SystemExit {A} msg e.
Arguments Raises {A} e.
Arguments Running {A}.

Definition M (A : Type) : Type := world -> outcome A * world.

Definition ret {A} (a : A) : M A := fun w => (Returns a, w).

Definition bind {A B} (m : M A) (k : A -> M B) : M B :=
  fun w =>
    match m w with
    | (Returns a, w') => k a w'
    | (SystemExit msg e, w') => (SystemExit msg e, w')
    | (Raises e, w') => (Raises e, w')
    | (Running, w') => (Running, w')
    end.

Definition raise {A} (e : exn) : M A := fun w => (Raises e, w).

Definition lift {A} (r : result A) : M A :=
  match r with
  | Ok a => ret a
  | Err e => raise e
  end.

Declare Scope script_scope.
Delimit Scope script_scope with script.
Notation "x <- m ;; k" := (bind m (fun x => k))
  (at level 61, m at next level, right associativity) : script_scope.
Notation "m ;;; k" := (bind m (fun _ => k))
  (at level 61, right associativity) : script_scope.

(** A [for] loop with effects. *)
Fixpoint for_each {A S} (xs : list A) (body : S -> A -> M S) (st : S) : M S :=
  match xs with
  | [] => ret st
  | x :: xs' => bind (body st x) (for_each xs' body)
  end.

(** [while has_next: ...]: [body page_num st] is one iteration up to the
    reading of [pages_count]; then [has_next = page_num < pages_count] and
    [page_num += 1]. *)
Fixpoint while_has_next {S} (fuel : nat) (body : Z -> S -> M (S * Z))
         (page_num : Z) (st : S) : M S :=
  match fuel with
  | O => fun w => (Running, w)
  | S fuel' =>
      bind (body page_num st) (fun '(st', pages_count) =>
        let has_next := page_num <? pages_count in
        if has_next then while_has_next fuel' body (page_num + 1) st'
        else ret st')
  end.

(** A dictionary that is iterated: keys in insertion order. *)
Definition dict (V : Type) : Type := list (Z * V).

(** [d[k] = v]: a key that is there keeps its place. *)
Fixpoint dict_set {V} (k : Z) (v : V) (d : dict V) : dict V :=
  match d with
  | [] => [(k, v)]
  | (k', v') :: d' =>
      if k' =? k then (k, v) :: d' else (k', v') :: dict_set k v d'
  end.

Fixpoint dict_get {V} (k : Z) (d : dict V) : option V :=
  match d with
  | [] => None
  | (k', v) :: d' => if k' =? k then Some v else dict_get k d'
  end.

Definition dict_keys {V} (d : dict V) : list Z := map fst d.

(* ================================================================= *)
(** ** The four fetch operations *)

Section Script.
Local Open Scope script_scope.

(** The remote host, and [MODULE_ID] as read from [config.ini]. *)
Variable srv : server.
Variable MODULE_ID : string.

(** The collaborators whose code is not the script's: [sanitize_filename],
    [markdown.markdown] with the table of contents extension, and the
    renderer behind [pdfkit.from_file]. *)
Variable sanitize_filename : string -> string.
Variable markdown_markdown : string -> string.
Variable pdfkit_render : string -> string.

(** [try: response = requests.get/post(..); response.raise_for_status()
     except RequestException as e: raise SystemExit(msg + str(e))]
    followed by [response.json()['success']]. *)
Definition fetch (req : request) (msg : string) : M payload :=
  fun w =>
    let r := srv (map fst (trace w)) req in
    let w' := mk_world (trace w ++ [(req, r)]) (disk w) in
    match r with
    | Fails detail => (SystemExit msg (ConnectionError detail), w')
    | Response status success =>
        if error_status status
        then (SystemExit msg (HTTPError status), w')
        else (Returns success, w')
    end.

Definition lambda_extract_materials (m : api_material) : material :=
  mk_material (am_id m) (am_name m) (am_order m).

Definition lambda_extract_sections (s : api_section) : section :=
  mk_section (as_id s) (as_name s) (as_order s)
             (map lambda_extract_materials (as_materials s)).

Definition extract_program (p : api_program) : program :=
  mk_program (ap_name p) (map lambda_extract_sections (ap_sections p))
             (ap_order p).

(** [for program in response['success']['learning_programs']:
       programs[program['id']] = {..}] *)
Definition store_programs (programs : dict program)
           (learning_programs : list api_program) : dict program :=
  fold_left (fun programs p => dict_set (ap_id p) (extract_program p) programs)
            learning_programs programs.

Definition learning_programs_request (page_num : Z) : request :=
  mk_request GET "https://api.e-queo.online/v40/learning-programs"
             [("page"%string, QInt page_num);
              ("module_id"%string, QStr MODULE_ID)]
             NoBody.

Definition get_learning_programs (fuel : nat) : M (dict program) :=
  while_has_next fuel
    (fun page_num programs =>
       response <- fetch (learning_programs_request page_num)
                         "Error while getting learning programs. " ;;
       match response with
       | LearningPrograms learning_programs pages_count =>
           ret (store_programs programs learning_programs, pages_count)
       | _ => raise (KeyError "learning_programs")
       end)
    1 [].

(** The ids of the materials of all sections, in order. *)
Definition material_ids (p : program) : list Z :=
  flat_map (fun s => map mat_id (sec_materials s)) (prog_sections p).

Definition is_longread (x : typed_material) : bool :=
  (tm_type x =? "longread")%string.

Definition materials_request (materials : list Z) (page_num : Z) : request :=
  mk_request POST "https://api.e-queo.online/v40/materials-cr"
             [("page"%string, QInt page_num)]
             (BodyMaterials materials).

Definition get_longread_ids (p : program) (fuel : nat) : M (list Z) :=
  let materials := material_ids p in
  while_has_next fuel
    (fun page_num longreads_ids =>
       response <- fetch (materials_request materials page_num)
                         "Error while getting longread ids. " ;;
       match response with
       | Materials materials pages_count =>
           ret (longreads_ids ++ map tm_id (filter is_longread materials),
                pages_count)
       | _ => raise (KeyError "materials")
       end)
    1 [].

Definition titles_request (longreads_ids : list Z) (page_num : Z) : request :=
  mk_request POST
             "https://api.e-queo.online/v40/materials/longreads/pages/titles"
             [("page"%string, QInt page_num)]
             (BodyLongreads longreads_ids).

Definition longread_of_title (x : page_title) : longread :=
  mk_longread (pt_longread_id x) (pt_uuid x).

Definition get_longreads_uuids (longreads_ids : list Z) (fuel : nat)
  : M (list longread) :=
  while_has_next fuel
    (fun page_num longreads =>
       response <- fetch (titles_request longreads_ids page_num)
                         "Error while getting longread uuids. " ;;
       match response with
       | PageTitles page_titles pages_count =>
           ret (longreads ++ map longread_of_title page_titles, pages_count)
       | _ => raise (KeyError "page_titles")
       end)
    1 [].

Definition page_request (l : longread) : request :=
  mk_request POST "https://api.e-queo.online/v40/materials/longreads/page"
             []
             (BodyPage (lr_id l) (lr_uuid l)).

Definition get_longread_content (l : longread) : M string :=
  response <- fetch (page_request l)
                    "Error while getting longread content. " ;;
  match response with
  | Page body => ret body
  | _ => raise (KeyError "page")
  end.

(* =============================================================== *)
(** ** [main] *)

Definition mkdir (path : string) : M unit :=
  fun w => (Returns tt, mk_world (trace w) (disk w ++ [Mkdir path])).

(** [with open(path, 'w') as f: f.write(content)] *)
Definition write_file (path content : string) : M unit :=
  fun w => (Returns tt, mk_world (trace w) (disk w ++ [WriteFile path content])).

(** The content of a file: what was written to it last. *)
Fixpoint last_written (path : string) (events : list fs_event)
  : option string :=
  match events with
  | [] => None
  | WriteFile p c :: rest =>
      match last_written path rest with
      | Some c' => Some c'
      | None => if (p =? path)%string then Some c else None
      end
  | Mkdir _ :: rest => last_written path rest
  end.

(** [pdfkit.from_file(input, output, options)] *)
Definition pdfkit_from_file (input output : string) : M unit :=
  fun w =>
    match last_written input (disk w) with
    | Some html => write_file output (pdfkit_render html) w
    | None => (Raises (Exception "No such file"), w)
    end.

Definition md_path (file_name : string) : string :=
  ("output/md/" ++ file_name ++ ".md")%string.
Definition html_path (file_name : string) : string :=
  ("output/html/" ++ file_name ++ ".htm")%string.
Definition pdf_path (file_name : string) : string :=
  ("output/pdf/" ++ file_name ++ ".pdf")%string.

(** The body of [for program_id in programs:]. Logging is left out. *)
Definition process_program (fuel : nat) (programs : dict program)
           (program_id : Z) : M (dict program) :=
  match dict_get program_id programs with
  | None => raise (KeyError "program_id")
  | Some p =>
      longreads_ids <- get_longread_ids p fuel ;;
      longreads <- get_longreads_uuids longreads_ids fuel ;;
      longreads_content <-
        for_each longreads
          (fun longreads_content l =>
             content <- get_longread_content l ;;
             ret (longreads_content ++ [mk_content (lr_id l) content]))
          [] ;;
      let p := filter_longreads p longreads_ids in
      let programs := dict_set program_id p programs in
      let sections := sorted sec_order (prog_sections p) in
      let file_name := sanitize_filename (prog_name p) in
      program_content_md <-
        lift (create_program_content_md sections longreads_content) ;;
      let program_content_md :=
        ("[TOC] " ++ String Str.newline (String Str.newline
           program_content_md))%string in
      mkdir "output/md" ;;;
      write_file (md_path file_name) program_content_md ;;;
      let html := markdown_markdown program_content_md in
      mkdir "output/html" ;;;
      write_file (html_path file_name) html ;;;
      mkdir "output/pdf" ;;;
      pdfkit_from_file (html_path file_name) (pdf_path file_name) ;;;
      ret programs
  end.

Definition main (fuel : nat) : M unit :=
  programs <- get_learning_programs fuel ;;
  for_each (dict_keys programs) (process_program fuel) programs ;;;
  ret tt.

End Script.

(* ================================================================= *)
(** ** The specification's reading of the assembly *)

(** A line with its leading run of ['#'] extended by [shift]; a line that
    starts with no ['#'] has no such run and stays as it is. *)
Definition extend_heading_run (shift : string) (line : string) : string :=
  match Str.span_hashes line with
  | (EmptyString, _) => line
  | (run, rest) => (run ++ shift ++ rest)%string
  end.

(** A text with the leading run of ['#'] of every line extended by [level]
    more ['#']. *)
Definition extend_heading_runs (md : string) (level : nat) : string :=
  Str.join_lines
    (map (extend_heading_run (Str.replicate level Str.hash))
         (Str.split_lines md)).

(** The text after a position of the scan, line by line: its first line is
    extended only if the position starts a line. *)
Definition lines_after (shift : string) (bol : bool) (s : string) : string :=
  let extend := extend_heading_run shift in
  match Str.split_lines s with
  | l :: ls => Str.join_lines ((if bol then extend l else l) :: map extend ls)
  | [] => EmptyString
  end.

(** The materials of a document in their order: sections by ['order'], the
    materials of a section by ['order']. *)
Definition materials_in_order (sections : list section) : list material :=
  flat_map (fun s => sorted mat_order (sec_materials s)) sections.

Definition ordered_materials (sections : list section) : list material :=
  materials_in_order (sorted sec_order sections).

(** The longread body of a material: the content filed under its id. *)
Definition body_of (longreads_content : list longread_content) (m : material)
  : string :=
  match next_content longreads_content (mat_id m) with
  | Some body => body
  | None => EmptyString
  end.

Definition spec_block (longreads_content : list longread_content)
           (m : material) : string :=
  ("# " ++ mat_name m ++ String Str.newline (String Str.newline
     (String Str.newline
        (extend_heading_runs (body_of longreads_content m) 1
         ++ String Str.newline EmptyString))))%string.

Definition spec_document (sections : list section)
           (longreads_content : list longread_content) : string :=
  Str.concat_all (map (spec_block longreads_content)
                      (ordered_materials sections)).

(** Every material id of the sections has an entry in [longreads_content]. *)
Definition has_content (longreads_content : list longread_content) (id : Z)
  : bool :=
  existsb (fun x => lc_id x =? id) longreads_content.

Definition all_have_content (sections : list section)
           (longreads_content : list longread_content) : bool :=
  forallb (fun s => forallb (fun m => has_content longreads_content (mat_id m))
                            (sec_materials s))
          sections.

(** Ascending order of keys. *)
Definition key_le {A : Type} (key : A -> Z) (a b : A) : Prop := key a <= key b.

(** The body of the loop over the materials of a section in
    [create_program_content_md]. *)
Definition materials_loop (lcs : list longread_content)
  : string -> material -> result string :=
  fun program_content_md material =>
    let text := next_content lcs (mat_id material) in
    result_bind (shift_headings_opt text 1) (fun text =>
    let heading := mat_name material in
    Ok (program_content_md ++ material_block heading text)%string).

(** Every material of the sections has an entry in [longreads_content]. *)
Definition covered (sections : list section)
           (longreads_content : list longread_content) : Prop :=
  forall s m, In s sections -> In m (sec_materials s) ->
  exists x, In x longreads_content /\ lc_id x = mat_id m.

(** The lines of a document that are headings of level 1: they start with
    exactly one ['#']. *)
Definition is_level1 (line : string) : bool :=
  (Str.heading_level line =? 1)%nat.

Definition level1_headings (doc : string) : list string :=
  filter is_level1 (Str.split_lines doc).

(** The heading the assembler puts before a material. *)
Definition inserted_heading (m : material) : string :=
  ("# " ++ mat_name m)%string.

(** The lines a material contributes when its name is a single line: the
    heading, two empty lines, and the lines of the shifted body. *)
Definition material_lines (longreads_content : list longread_content)
           (m : material) : list string :=
  inserted_heading m :: EmptyString :: EmptyString
  :: Str.split_lines (shift_headings (body_of longreads_content m) 1).

Definition single_line (s : string) : Prop := Str.contains Str.newline s = false.

(** No name of the materials holds a newline. *)
Definition names_single_line (ms : list material) : bool :=
  forallb (fun m => negb (Str.contains Str.newline (mat_name m))) ms.

(* ================================================================= *)
(** ** Reading a run off the trace *)

(** A request that went through: no exception, no 4xx or 5xx status. *)
Definition went_through (ev : request * reply) : Prop := failed (snd ev) = false.

(** How the requests of a call may end, given what the call ends with: a
    failed request is the last one of the call and the call ends with
    [SystemExit]; every other request went through. *)
Definition fail_stop {A} (out : outcome A) (evs : list (request * reply))
  : Prop :=
  match out with
  | SystemExit _ _ =>
      exists pre ev, evs = pre ++ [ev] /\ Forall went_through pre
                     /\ failed (snd ev) = true
  | _ => Forall went_through evs
  end.

(** The exception [fetch] turns a failed reply into. *)
Definition exception_of (r : reply) : request_exception :=
  match r with
  | Fails detail => ConnectionError detail
  | Response status _ => HTTPError status
  end.

(** The same, read from a failed request: nothing is requested after it, a
    second try included, and the call ends with [SystemExit], [msg] and the
    exception of the failure. *)
Definition stops_at_failure {A} (msg : string) (out : outcome A)
           (evs : list (request * reply)) : Prop :=
  forall pre req r post,
    evs = pre ++ (req, r) :: post -> failed r = true ->
    post = [] /\ out = SystemExit msg (exception_of r).

(** The page count a reply reports, and what each endpoint's reply holds. *)
Definition pages_count_of (r : reply) : option Z :=
  match r with
  | Response _ (LearningPrograms _ n) => Some n
  | Response _ (Materials _ n) => Some n
  | Response _ (PageTitles _ n) => Some n
  | _ => None
  end.

Definition extract_programs (p : payload) : option (list api_program * Z) :=
  match p with
  | LearningPrograms items n => Some (items, n)
  | _ => None
  end.

Definition extract_materials (p : payload) : option (list typed_material * Z) :=
  match p with
  | Materials items n => Some (items, n)
  | _ => None
  end.

Definition extract_titles (p : payload) : option (list page_title * Z) :=
  match p with
  | PageTitles items n => Some (items, n)
  | _ => None
  end.

(** The items of a reply, none for a reply of another shape. *)
Definition items_of {Items} (extract : payload -> option (list Items * Z))
           (r : reply) : list Items :=
  match r with
  | Response _ p => match extract p with
                    | Some (items, _) => items
                    | None => []
                    end
  | Fails _ => []
  end.

(** The loop state after the items of a reply are merged into it. *)
Definition merge_reply {S Items} (extract : payload -> option (list Items * Z))
           (merge : S -> list Items -> S) (st : S) (r : reply) : S :=
  merge st (items_of extract r).

(** The requests for [count] pages from [page] on, each with the reply of
    the host, which has seen [hist] before. *)
Fixpoint paged_events (srv : server) (mk_req : Z -> request)
         (hist : list request) (page : Z) (count : nat)
  : list (request * reply) :=
  match count with
  | O => []
  | S count' =>
      let req := mk_req page in
      (req, srv hist req)
      :: paged_events srv mk_req (hist ++ [req]) (page + 1) count'
  end.

(** The page numbers [page, page + 1, ..], [count] of them. *)
Fixpoint pages_from (page : Z) (count : nat) : list Z :=
  match count with
  | O => []
  | S count' => page :: pages_from (page + 1) count'
  end.

(** A paginated run from [page] on: every request asks for the next page
    and went through, every reply but the last reports more pages than were
    asked for so far, and the last one does not. *)
Inductive paged_run (mk_req : Z -> request)
  : Z -> list (request * reply) -> Prop :=
| paged_last page r n :
    failed r = false -> pages_count_of r = Some n -> ~ page < n ->
    paged_run mk_req page [(mk_req page, r)]
| paged_more page r n evs :
    failed r = false -> pages_count_of r = Some n -> page < n ->
    paged_run mk_req (page + 1) evs ->
    paged_run mk_req page ((mk_req page, r) :: evs).

(** One iteration of a paginated loop, in the shape the three loops share. *)
Definition page_body {S Items} (srv : server) (mk_req : Z -> request)
           (msg : string) (extract : payload -> option (Items * Z))
           (key : string) (merge : S -> Items -> S) (page_num : Z) (st : S)
  : M (S * Z) :=
  bind (fetch srv (mk_req page_num) msg) (fun response =>
    match extract response with
    | Some (items, pages_count) => ret (merge st items, pages_count)
    | None => raise (KeyError key)
    end).

(** The messages of the four operations, and what the loops of
    [get_longread_ids] and [get_longreads_uuids] add per page. *)
Definition programs_msg : string := "Error while getting learning programs. ".
Definition ids_msg : string := "Error while getting longread ids. ".
Definition uuids_msg : string := "Error while getting longread uuids. ".
Definition content_msg : string := "Error while getting longread content. ".

Definition add_ids (longreads_ids : list Z) (materials : list typed_material)
  : list Z :=
  longreads_ids ++ map tm_id (filter is_longread materials).

Definition add_longreads (longreads : list longread)
           (page_titles : list page_title) : list longread :=
  longreads ++ map longread_of_title page_titles.

(** Every reply of the host to the requests [mk_req] of a loop goes through
    and reports [n] pages. *)
Definition always_reports {Items} (srv : server) (mk_req : Z -> request)
           (extract : payload -> option (list Items * Z)) (n : Z) : Prop :=
  forall hist page, exists status p items,
    srv hist (mk_req page) = Response status p
    /\ error_status status = false /\ extract p = Some (items, n).

(** All materials of a program, section by section. *)
Definition all_materials (p : program) : list material :=
  flat_map sec_materials (prog_sections p).

(** The pages a host serves to a paginated loop that starts at [page] after
    the requests [hist]: [Some pages] when the host answers [count] requests
    in a row, each reply goes through and holds the items of a page, every
    reply but the last reports more pages than were asked for so far and the
    last one does not; [None] otherwise. *)
Fixpoint served_pages {Items} (srv : server) (mk_req : Z -> request)
         (extract : payload -> option (list Items * Z))
         (hist : list request) (page : Z) (count : nat)
  : option (list (list Items)) :=
  match count with
  | O => None
  | S count' =>
      match srv hist (mk_req page) with
      | Fails _ => None
      | Response status p =>
          if error_status status then None
          else
            match extract p with
            | None => None
            | Some (items, n) =>
                if page <? n then
                  option_map (cons items)
                    (served_pages srv mk_req extract (hist ++ [mk_req page])
                                  (page + 1) count')
                else
                  match count' with
                  | O => Some [items]
                  | S _ => None
                  end
            end
      end
  end.

(** The paths of the files written, oldest first. *)
Definition written_paths (events : list fs_event) : list string :=
  flat_map (fun e => match e with
                     | WriteFile path _ => [path]
                     | Mkdir _ => []
                     end) events.

(** The three files of a program. *)
Definition output_paths (file_name : string) : list string :=
  [md_path file_name; html_path file_name; pdf_path file_name].

Definition program_name_of (programs : dict program) (program_id : Z)
  : string :=
  match dict_get program_id programs with
  | Some p => prog_name p
  | None => EmptyString
  end.

Definition has_id (id : Z) (p : api_program) : bool := ap_id p =? id.

(** The files [main] writes for the programs with the given ids, in order. *)
Definition files_of (sanitize_filename : string -> string)
           (programs : dict program) (ids : list Z) : list string :=
  flat_map (fun id => output_paths
                        (sanitize_filename (program_name_of programs id)))
           ids.

(** The entry of the programs dictionary made from a program of the API. *)
Definition program_entry (p : api_program) : Z * program :=
  (ap_id p, extract_program p).

(* ================================================================= *)
(** ** Fixtures *)

Module Fixtures.

Definition nl : string := String Str.newline EmptyString.

(** A program whose sections and materials come out of order; material 12
    is filed under two content entries. *)
Definition course : program :=
  mk_program "Course"
    [ mk_section 2 "Second" 20 [ mk_material 21 "Deploy" 1 ];
      mk_section 1 "First" 10
        [ mk_material 12 "Usage" 2; mk_material 11 "Setup" 1 ] ]
    1.

Definition course_content : list longread_content :=
  [ mk_content 21 ("## Steps" ++ nl ++ "go #1");
    mk_content 12 ("# Use" ++ nl ++ "text" ++ nl ++ "###### deep");
    mk_content 11 "plain";
    mk_content 12 "second page" ].

Definition course_md : string :=
  ("# Setup" ++ nl ++ nl ++ nl ++ "plain" ++ nl
   ++ "# Usage" ++ nl ++ nl ++ nl
   ++ "## Use" ++ nl ++ "text" ++ nl ++ "####### deep" ++ nl
   ++ "# Deploy" ++ nl ++ nl ++ nl ++ "### Steps" ++ nl ++ "go #1" ++ nl)%string.

(** A material whose name runs over two lines, the second starting with
    ['#']. *)
Definition two_line_sections : list section :=
  [ mk_section 1 "S" 1 [ mk_material 10 ("A" ++ nl ++ "# B") 1 ] ].

Definition two_line_content : list longread_content :=
  [ mk_content 10 "text" ].

Definition two_line_md : string :=
  ("# A" ++ nl ++ "# B" ++ nl ++ nl ++ nl ++ "text" ++ nl)%string.

(** Two programs of the module, one on each page of the listing. *)
Definition alpha : api_program :=
  mk_api_program 1 "Alpha" 1
    [ mk_api_section 10 "Intro" 1
        [ mk_api_material 100 "Welcome" 1 [("kind", "text")];
          mk_api_material 101 "Quiz" 2 [] ]
        [("status", "open")] ]
    [("status", "open")].

Definition beta : api_program :=
  mk_api_program 2 "Beta" 2
    [ mk_api_section 20 "Start" 1 [ mk_api_material 200 "Hello" 1 [] ] [] ]
    [].

Definition listing_url : string :=
  "https://api.e-queo.online/v40/learning-programs".

(** A host that lists [alpha] on page 1 and [beta] on page 2, knows every
    material with an even id as a longread of one page, and answers a
    request about a material in [broken] with status 500. *)
Definition host (broken : list Z) : server :=
  fun _ req =>
    if (req_url req =? listing_url)%string then
      match page_of req with
      | Some 1 => Response 200 (LearningPrograms [alpha] 2)
      | _ => Response 200 (LearningPrograms [beta] 2)
      end
    else
      match req_body req with
      | BodyMaterials ids =>
          if existsb (id_in broken) ids then Response 500 (Page "")
          else Response 200
                 (Materials
                    (map (fun id => mk_typed_material id
                                      (if Z.even id then "longread"
                                       else "test")) ids) 1)
      | BodyLongreads ids =>
          Response 200
            (PageTitles (map (fun id => mk_page_title id "p1") ids) 1)
      | BodyPage id uuid => Response 200 (Page ("## Part" ++ nl ++ "body"))
      | NoBody => Fails "no route"
      end.

(** A host whose two listing pages both hold a program with id 7. *)
Definition old_seven : api_program := mk_api_program 7 "Old" 1 [] [].
Definition new_seven : api_program := mk_api_program 7 "New" 1 [] [].

Definition repeating_host : server :=
  fun _ req =>
    match page_of req with
    | Some 1 => Response 200 (LearningPrograms [old_seven] 2)
    | _ => Response 200 (LearningPrograms [new_seven] 2)
    end.

(** Stand-ins for the collaborators of [main]. *)
Definition plain_name (s : string) : string := s.
Definition to_html (md : string) : string := ("<html>" ++ md)%string.
Definition to_pdf (html : string) : string := ("%PDF" ++ html)%string.

Definition run_main (srv : server) : outcome unit * world :=
  main srv "42" plain_name to_html to_pdf 5 initial_world.

End Fixtures.

(* ================================================================= *)
(** ** The document, as the specification words it *)

Module Spec.

(** A newline, as a text. *)
Definition nl : string := String "010" EmptyString.

(** The lines of a text: the pieces between its newlines. *)
Fixpoint lines (s : string) : list string :=
  match s with
  | EmptyString => [EmptyString]
  | String c s' =>
      if (c =? "010")%char then EmptyString :: lines s'
      else match lines s' with
           | l :: ls => String c l :: ls
           | [] => [String c EmptyString]
           end
  end.

(** The lines put together again, a newline between two of them. *)
Fixpoint unlines (ls : list string) : string :=
  match ls with
  | [] => EmptyString
  | [l] => l
  | l :: ls' => (l ++ String "010" (unlines ls'))%string
  end.

(** The rest of a line inside its leading run of ['#']: the run goes on as
    long as there is a ['#'], and one ['#'] is put after it. *)
Fixpoint after_run (rest : string) : string :=
  match rest with
  | String c rest' =>
      if (c =? "#")%char then String c (after_run rest') else String "#" rest
  | EmptyString => "#"
  end.

(** A line with its leading run of ['#'] extended by exactly one ['#']; a
    line that does not start with ['#'] has no such run. *)
Definition extend_line (line : string) : string :=
  match line with
  | String c rest => if (c =? "#")%char then String c (after_run rest) else line
  | EmptyString => EmptyString
  end.

(** The longread body of a material: the content of the first entry of
    [longreads_content] that has the id of the material (of a longread with
    several pages, the first page). *)
Definition body (longreads_content : list longread_content) (m : material)
  : string :=
  match find (fun x => lc_id x =? mat_id m) longreads_content with
  | Some x => lc_content x
  | None => EmptyString
  end.

(** ['# ' + name + '\n\n\n' + body with its headings one level down + '\n'] *)
Definition block (longreads_content : list longread_content) (m : material)
  : string :=
  ("# " ++ mat_name m ++ nl ++ nl ++ nl
   ++ unlines (map extend_line (lines (body longreads_content m)))
   ++ nl)%string.

(** The blocks of the materials, sections by ['order'] and the materials of
    a section by ['order'], one after the other. *)
Definition document (sections : list section)
           (longreads_content : list longread_content) : string :=
  String.concat EmptyString
                (map (block longreads_content) (ordered_materials sections)).

End Spec.

(* ================================================================= *)
(** ** Further readings of the script *)

(** No line of a text starts with ['#']. *)
Definition no_heading_lines (md : string) : bool :=
  forallb (fun l => (Str.heading_level l =? 0)%nat) (Str.split_lines md).

(** The level of a heading after [level] more ['#']: a line that is no
    heading stays none. *)
Definition shifted_level (level : nat) (k : nat) : nat :=
  match k with
  | O => O
  | S k' => (S k' + level)%nat
  end.

(** The loop of [main] over the longreads:
    [for longread in longreads: content = get_longread_content(longread);
     longreads_content.append({'id': .., 'content': content})]. *)
Definition fetch_contents (srv : server) (longreads : list longread)
  : M (list longread_content) :=
  for_each longreads
    (fun longreads_content l =>
       bind (get_longread_content srv l) (fun content =>
         ret (longreads_content ++ [mk_content (lr_id l) content])))
    [].

(** The Markdown [main] writes for a document: [f'[TOC] \n\n{..}']. *)
Definition with_toc (program_content_md : string) : string :=
  ("[TOC] " ++ String Str.newline (String Str.newline
     program_content_md))%string.

(** What [main] does to the disk for one program, given its file name and
    its Markdown, with the two renderers. *)
Definition program_files (markdown_markdown pdfkit_render : string -> string)
           (file_name md : string) : list fs_event :=
  [ Mkdir "output/md"; WriteFile (md_path file_name) md;
    Mkdir "output/html";
    WriteFile (html_path file_name) (markdown_markdown md);
    Mkdir "output/pdf";
    WriteFile (pdf_path file_name) (pdfkit_render (markdown_markdown md)) ].

(** Every reply of the host to the requests [mk_req] goes through and reports
    more pages than the page asked for. *)
Definition always_more {Items} (srv : server) (mk_req : Z -> request)
           (extract : payload -> option (list Items * Z)) : Prop :=
  forall hist page, exists status p items n,
    srv hist (mk_req page) = Response status p
    /\ error_status status = false /\ extract p = Some (items, n)
    /\ page < n.

(** The reply of the host to the first request of a loop goes through and
    reports [n] pages with [items]. *)
Definition first_reply {Items} (srv : server) (mk_req : Z -> request)
           (extract : payload -> option (list Items * Z)) (w : world)
           (items : list Items) (n : Z) : Prop :=
  exists status p,
    srv (map fst (trace w)) (mk_req 1) = Response status p
    /\ error_status status = false /\ extract p = Some (items, n).

(** How the requests of a computation end, with the exception it exits
    with: a failed request is the last one, and [SystemExit] carries its
    exception; all other requests went through. *)
Definition aborts_at_failure {A} (out : outcome A)
           (evs : list (request * reply)) : Prop :=
  match out with
  | SystemExit _ e =>
      exists pre ev, evs = pre ++ [ev] /\ Forall went_through pre
                     /\ failed (snd ev) = true /\ e = exception_of (snd ev)
  | _ => Forall went_through evs
  end.

(** A computation all of whose runs end in that way. *)
Definition fail_stopping {A} (m : M A) : Prop :=
  forall w out w', m w = (out, w') ->
  exists evs, trace w' = trace w ++ evs /\ aborts_at_failure out evs.

(** The text of a longread page in a reply. *)
Definition body_of_reply (r : reply) : option string :=
  match r with
  | Response _ (Page body) => Some body
  | _ => None
  end.

(** A text without ['%']. *)
Definition percent_free (s : string) : Prop :=
  ~ In "%"%char (list_ascii_of_string s).

(** The names of a list are all different, as the keys of a Python [dict]
    are. *)
Fixpoint distinct (names : list string) : bool :=
  match names with
  | [] => true
  | x :: rest => negb (existsb (String.eqb x) rest) && distinct rest
  end.

(** The defaults, the sections and the options of every section are
    dictionaries. *)
Definition config_of_dicts (c : config) : bool :=
  distinct (map fst (cfg_defaults c))
  && distinct (map fst (cfg_sections c))
  && forallb (fun s => distinct (map fst (snd s))) (cfg_sections c).

(** The option [key] is stored with [raw]: in the section, or else in the
    defaults. *)
Definition stored (key raw : string) (section_options defaults : options)
  : Prop :=
  In (key, raw) section_options
  \/ (~ In key (map fst section_options) /\ In (key, raw) defaults).

(** A result that is a value or an [InterpolationError]. *)
Definition from_interpolation (r : result string) : Prop :=
  (exists v, r = Ok v) \/ (exists e, r = Err (InterpolationError e)).

Module ConfigFixtures.

(** [str.lower] on the letters A to Z. *)
Definition lower_char (c : ascii) : ascii :=
  let n := N_of_ascii c in
  if ((65 <=? n) && (n <=? 90))%N then ascii_of_N (n + 32) else c.

Fixpoint lower (s : string) : string :=
  match s with
  | EmptyString => EmptyString
  | String c s' => String (lower_char c) (lower s')
  end.

(** [[e-queo]] with both options. *)
Definition plain : config :=
  mk_config [] [ ("e-queo", [ ("auth_token", "tok"); ("module_id", "42") ]) ].

(** The token under [[DEFAULT]], the module id under [[e-queo]]. *)
Definition inherited : config :=
  mk_config [ ("auth_token", "tok") ] [ ("e-queo", [ ("module_id", "42") ]) ].

(** Values with ['%']. *)
Definition percents : config :=
  mk_config [ ("base", "dir") ]
    [ ("e-queo",
       [ ("auth_token", "ab%cd"); ("rate", "100%%");
         ("path", "%(BASE)s/x%%y"); ("self", "%(self)s");
         ("lost", "%(zz)s and %"); ("bare", "%x %(zz)s");
         ("empty", "%()s"); ("open", "%(base"); ("kind", "%(base)x") ]) ].

(** A chain of references, [a3] to [a12], ten values deep, and [a2] one
    deeper. *)
Definition chain : config :=
  mk_config []
    [ ("s",
       [ ("a2", "%(a3)s"); ("a3", "%(a4)s"); ("a4", "%(a5)s");
         ("a5", "%(a6)s"); ("a6", "%(a7)s"); ("a7", "%(a8)s");
         ("a8", "%(a9)s"); ("a9", "%(a10)s"); ("a10", "%(a11)s");
         ("a11", "%(a12)s"); ("a12", "end%%") ]) ].

Definition get (c : config) (section name : string) : result string :=
  get_config_data lower (fun _ => c) "config.ini" section name.

End ConfigFixtures.

Module MoreFixtures.

(** A host whose listing always reports one page more than the page asked
    for. *)
Definition endless_host : server :=
  fun _ req =>
    match page_of req with
    | Some page => Response 200 (LearningPrograms [] (page + 1))
    | None => Fails "no page"
    end.

(** A host that reports no page at all, with one program on the page that is
    asked for all the same. *)
Definition zero_pages_host : server :=
  fun _ _ => Response 200 (LearningPrograms [Fixtures.alpha] 0).

(** A host like [Fixtures.host []] that knows no page of any longread. *)
Definition pageless_host : server :=
  fun hist req =>
    match req_body req with
    | BodyLongreads _ => Response 200 (PageTitles [] 1)
    | _ => Fixtures.host [] hist req
    end.

(** A host like [Fixtures.host []] whose longread pages cannot be read. *)
Definition unreadable_host : server :=
  fun hist req =>
    match req_body req with
    | BodyPage _ _ => Response 503 (Page "")
    | _ => Fixtures.host [] hist req
    end.

(** A program listed out of order, with a longread of two pages (id 12) and
    headings of several levels in the bodies. *)
Definition handbook : program :=
  mk_program "Handbook"
    [ mk_section 2 "Second" 20 [ mk_material 21 "Deploy" 1 ];
      mk_section 1 "First" 10
        [ mk_material 12 "Usage" 2; mk_material 11 "Setup" 1 ] ]
    1.

Definition handbook_content : list longread_content :=
  [ mk_content 21 ("## Steps" ++ Spec.nl ++ "go #1");
    mk_content 12 ("# Use" ++ Spec.nl ++ "text" ++ Spec.nl ++ "###### deep");
    mk_content 11 "plain";
    mk_content 12 "# second page" ].

Definition handbook_md : string :=
  ("# Setup" ++ Spec.nl ++ Spec.nl ++ Spec.nl ++ "plain" ++ Spec.nl
   ++ "# Usage" ++ Spec.nl ++ Spec.nl ++ Spec.nl
   ++ "## Use" ++ Spec.nl ++ "text" ++ Spec.nl ++ "####### deep" ++ Spec.nl
   ++ "# Deploy" ++ Spec.nl ++ Spec.nl ++ Spec.nl
   ++ "### Steps" ++ Spec.nl ++ "go #1" ++ Spec.nl)%string.

End MoreFixtures.

(* ================================================================= *)
(** * Proofs *)

(** ** Strings *)

Module StrFacts.
Import Str.

Lemma app_assoc (a b c : string) : ((a ++ b) ++ c = a ++ (b ++ c))%string.
Proof. induction a as [|x a IH]; simpl; [reflexivity | now rewrite IH]. Qed.

Lemma app_empty_r (a : string) : (a ++ "" = a)%string.
Proof. induction a as [|x a IH]; simpl; [reflexivity | now rewrite IH]. Qed.

Lemma append_cons c (a b : string) :
  (String c a ++ b)%string = String c (a ++ b).
Proof. reflexivity. Qed.

Lemma length_app (a b : string) :
  String.length (a ++ b)%string = (String.length a + String.length b)%nat.
Proof. induction a as [|x a IH]; simpl; [reflexivity | now rewrite IH]. Qed.

Lemma split_lines_not_nil s : split_lines s <> [].
Proof.
  destruct s as [|c s]; simpl; [discriminate|].
  destruct (c =? newline)%char; [discriminate|].
  destruct (split_lines s); discriminate.
Qed.

Lemma split_lines_cons s : exists l ls, split_lines s = l :: ls.
Proof.
  destruct (split_lines s) as [|l ls] eqn:E; [|eauto].
  now apply split_lines_not_nil in E.
Qed.

Lemma join_lines_cons_char c l ls :
  join_lines (String c l :: ls) = String c (join_lines (l :: ls)).
Proof. destruct ls; reflexivity. Qed.

Lemma join_lines_app_head a l ls :
  join_lines ((a ++ l)%string :: ls) = (a ++ join_lines (l :: ls))%string.
Proof.
  induction a as [|x a IH]; [reflexivity|].
  simpl append. rewrite join_lines_cons_char, IH. reflexivity.
Qed.

Lemma join_lines_empty_head l ls :
  join_lines (EmptyString :: l :: ls) = String newline (join_lines (l :: ls)).
Proof. reflexivity. Qed.

(** [split] and [join] are inverse to each other on a text. *)
Lemma join_split s : join_lines (split_lines s) = s.
Proof.
  induction s as [|c s IH]; [reflexivity|].
  simpl. destruct (c =? newline)%char eqn:E.
  - apply Ascii.eqb_eq in E. subst c.
    destruct (split_lines_cons s) as (l & ls & Hs). rewrite Hs in *.
    rewrite join_lines_empty_head. now rewrite IH.
  - destruct (split_lines_cons s) as (l & ls & Hs). rewrite Hs in *.
    rewrite join_lines_cons_char. now rewrite IH.
Qed.

Lemma span_hashes_app s :
  (fst (span_hashes s) ++ snd (span_hashes s))%string = s.
Proof.
  induction s as [|c s IH]; [reflexivity|].
  simpl. destruct (c =? hash)%char; [|reflexivity].
  destruct (span_hashes s) as [run rest]. simpl in *. now rewrite IH.
Qed.

(** What follows the run does not start with ['#']. *)
Lemma span_hashes_rest s : fst (span_hashes (snd (span_hashes s))) = EmptyString.
Proof.
  induction s as [|c s IH]; [reflexivity|].
  simpl. destruct (c =? hash)%char eqn:E.
  - destruct (span_hashes s) as [run rest]. exact IH.
  - simpl. now rewrite E.
Qed.

Lemma hash_not_newline : (hash =? newline)%char = false.
Proof. reflexivity. Qed.

(** A run of ['#'] ends in ['#']: the position after it starts no line. *)
Lemma last_char_run s prev c run rest :
  span_hashes s = (String c run, rest) ->
  last_char prev (String c run) = Some hash.
Proof.
  revert prev c run rest.
  induction s as [|d s IH]; intros prev c run rest H; simpl in H.
  - discriminate.
  - destruct (d =? hash)%char eqn:E; [|discriminate].
    apply Ascii.eqb_eq in E. subst d.
    destruct (span_hashes s) as [run' rest'] eqn:Es.
    injection H as <- <- <-.
    destruct run' as [|c' run'']; [reflexivity|].
    simpl. exact (IH (Some hash) c' run'' rest' eq_refl).
Qed.

(** The run stays on the first line. *)
Lemma split_lines_run s :
  forall l ls, split_lines (snd (span_hashes s)) = l :: ls ->
  split_lines s = (fst (span_hashes s) ++ l)%string :: ls.
Proof.
  induction s as [|c s IH]; intros l ls H.
  - simpl in *. exact H.
  - simpl in *. destruct (c =? hash)%char eqn:E.
    + apply Ascii.eqb_eq in E. subst c. rewrite hash_not_newline.
      destruct (span_hashes s) as [run rest]. simpl in *.
      now rewrite (IH l ls H).
    + simpl in H. exact H.
Qed.

Lemma span_hashes_first_line s :
  forall l ls, split_lines s = l :: ls ->
  fst (span_hashes s) = EmptyString -> fst (span_hashes l) = EmptyString.
Proof.
  destruct s as [|c s]; intros l ls H Hs; simpl in *.
  - now injection H as <- <-.
  - destruct (c =? hash)%char eqn:E.
    + destruct (span_hashes s). discriminate.
    + destruct (c =? newline)%char.
      * now injection H as <- <-.
      * destruct (split_lines s); injection H as <- <-; simpl; now rewrite E.
Qed.

Lemma span_hashes_run_app s l :
  fst (span_hashes l) = EmptyString ->
  span_hashes (fst (span_hashes s) ++ l)%string = (fst (span_hashes s), l).
Proof.
  intros Hl. induction s as [|c s IH]; simpl.
  - destruct l as [|d l]; [reflexivity|]. simpl in *.
    destruct (d =? hash)%char; [|reflexivity].
    destruct (span_hashes l); discriminate.
  - destruct (c =? hash)%char eqn:E.
    + destruct (span_hashes s) as [run rest]. simpl in *. rewrite E, IH.
      reflexivity.
    + simpl. destruct l as [|d l]; [reflexivity|]. simpl in *.
      destruct (d =? hash)%char; [|reflexivity].
      destruct (span_hashes l); discriminate.
Qed.

End StrFacts.

(* ================================================================= *)
(** ** [shift_headings] works line by line *)

Module ShiftFacts.
Import Str StrFacts Re.

Section Scan.
Variable shift : string.

Let repl := fun group1 : string => (group1 ++ shift)%string.
Local Abbreviation extend := (extend_heading_run shift).
Let lines_from := lines_after shift.

Lemma extend_no_run l :
  fst (span_hashes l) = EmptyString -> extend l = l.
Proof.
  unfold extend_heading_run. intros H.
  destruct (span_hashes l) as [run rest]. simpl in H. now subst run.
Qed.

Lemma lines_from_newline bol s :
  lines_from bol (String newline s) = String newline (lines_from true s).
Proof.
  unfold lines_from, lines_after; cbv zeta. simpl.
  destruct (split_lines_cons s) as (l & ls & Hs). rewrite Hs.
  assert (He : (if bol then extend EmptyString else EmptyString)
               = EmptyString) by (destruct bol; reflexivity).
  rewrite He. reflexivity.
Qed.

Lemma lines_from_char bol c s :
  (c =? newline)%char = false ->
  (bol = true -> (c =? hash)%char = false) ->
  lines_from bol (String c s) = String c (lines_from false s).
Proof.
  intros Hn Hh. unfold lines_from, lines_after; cbv zeta. simpl. rewrite Hn.
  destruct (split_lines_cons s) as (l & ls & Hs). rewrite Hs.
  assert (He : (if bol then extend (String c l) else String c l)
               = String c l).
  { destruct bol; [|reflexivity]. apply extend_no_run.
    simpl. now rewrite (Hh eq_refl). }
  rewrite He. apply join_lines_cons_char.
Qed.

Lemma lines_from_run s c run rest :
  span_hashes s = (String c run, rest) ->
  lines_from true s = (repl (String c run) ++ lines_from false rest)%string.
Proof.
  intros H. unfold lines_from, lines_after; cbv zeta.
  destruct (split_lines_cons rest) as (l & ls & Hr). rewrite Hr.
  assert (Hrest : snd (span_hashes s) = rest) by now rewrite H.
  assert (Hrun : fst (span_hashes s) = String c run) by now rewrite H.
  assert (Hl : fst (span_hashes l) = EmptyString).
  { apply (span_hashes_first_line rest l ls Hr).
    rewrite <- Hrest. apply span_hashes_rest. }
  rewrite (split_lines_run s l ls) by now rewrite Hrest.
  unfold extend_heading_run at 1.
  rewrite (span_hashes_run_app s l Hl), Hrun.
  unfold repl. rewrite <- app_assoc.
  apply (join_lines_app_head (String c run ++ shift)%string l (map extend ls)).
Qed.

Lemma sub_scan_lines fuel :
  forall prev s, (String.length s < fuel)%nat ->
  sub_scan fuel repl prev s = lines_from (at_line_start prev) s.
Proof.
  induction fuel as [|fuel IH]; intros prev s Hlen; [lia|].
  simpl. unfold match_heading.
  destruct (at_line_start prev) eqn:Hbol.
  - destruct (span_hashes s) as [run rest] eqn:Hspan.
    destruct run as [|c run].
    + destruct s as [|d s]; [reflexivity|].
      simpl in Hlen. rewrite IH by lia. simpl.
      assert (Hd : (d =? hash)%char = false).
      { simpl in Hspan. destruct (d =? hash)%char; [|reflexivity].
        destruct (span_hashes s); discriminate. }
      destruct (d =? newline)%char eqn:Hn.
      * apply Ascii.eqb_eq in Hn. subst d. now rewrite lines_from_newline.
      * now rewrite lines_from_char.
    + rewrite (last_char_run s prev c run rest Hspan).
      assert (Hs : ((String c run) ++ rest)%string = s).
      { pose proof (span_hashes_app s) as Ha. now rewrite Hspan in Ha. }
      assert (Hr : (String.length rest < fuel)%nat).
      { rewrite <- Hs in Hlen. simpl in Hlen.
        rewrite length_app in Hlen. lia. }
      rewrite IH by exact Hr.
      change (at_line_start (Some hash)) with false.
      symmetry. now apply lines_from_run.
  - destruct s as [|d s]; [reflexivity|].
    simpl in Hlen. rewrite IH by lia. simpl.
    destruct (d =? newline)%char eqn:Hn.
    + apply Ascii.eqb_eq in Hn. subst d. now rewrite lines_from_newline.
    + rewrite lines_from_char; [reflexivity|exact Hn|discriminate].
Qed.

End Scan.

(** [shift_headings] extends the leading run of ['#'] of every line by
    [level] more ['#']. *)
Lemma shift_headings_lines md level :
  shift_headings md level = extend_heading_runs md (Z.to_nat level).
Proof.
  unfold shift_headings, sub_heading, extend_heading_runs.
  rewrite sub_scan_lines by lia. unfold lines_after; cbv zeta. simpl.
  destruct (split_lines_cons md) as (l & ls & Hs). now rewrite Hs.
Qed.

End ShiftFacts.

Example shift_headings_text :
  shift_headings ("# Title" ++ Fixtures.nl ++ "text # here" ++ Fixtures.nl
                  ++ "###sub" ++ Fixtures.nl ++ " # indented")%string 1
  = ("## Title" ++ Fixtures.nl ++ "text # here" ++ Fixtures.nl
     ++ "####sub" ++ Fixtures.nl ++ " # indented")%string.
Proof. reflexivity. Qed.

Example shift_headings_two_levels :
  shift_headings ("#" ++ Fixtures.nl ++ Fixtures.nl ++ "##")%string 2
  = ("###" ++ Fixtures.nl ++ Fixtures.nl ++ "####")%string.
Proof. reflexivity. Qed.

Example sorted_is_stable :
  map mat_name
      (sorted mat_order [ mk_material 1 "c" 2; mk_material 2 "a" 1;
                          mk_material 3 "d" 2; mk_material 4 "b" 1 ])
  = ["a"; "b"; "c"; "d"]%string.
Proof. reflexivity. Qed.

(* ================================================================= *)
(** ** [sorted] orders by key and keeps the elements *)

Section SortedFacts.
Context {A : Type} (key : A -> Z).

Local Abbreviation key_le := (key_le key).

Lemma insert_by_perm x l : Permutation (x :: l) (insert_by key x l).
Proof.
  induction l as [|y l IH]; simpl; [reflexivity|].
  destruct (key x <=? key y); [reflexivity|].
  rewrite perm_swap. now apply perm_skip.
Qed.

Lemma sorted_perm l : Permutation l (sorted key l).
Proof.
  induction l as [|x l IH]; simpl; [reflexivity|].
  rewrite <- insert_by_perm. now apply perm_skip.
Qed.

Lemma insert_by_sorted x l :
  StronglySorted key_le l -> StronglySorted key_le (insert_by key x l).
Proof.
  induction 1 as [|y l Hs IH Hall]; simpl.
  - repeat constructor.
  - destruct (key x <=? key y) eqn:E.
    + apply Z.leb_le in E. constructor; [now constructor|].
      constructor; [exact E|].
      eapply Forall_impl; [|exact Hall]. unfold key_le. intros; lia.
    + apply Z.leb_gt in E. constructor; [exact IH|].
      eapply Permutation_Forall; [apply insert_by_perm|].
      constructor; [unfold key_le; lia | exact Hall].
Qed.

Lemma sorted_sorted l : StronglySorted key_le (sorted key l).
Proof.
  induction l as [|x l IH]; simpl; [constructor|].
  now apply insert_by_sorted.
Qed.

(** Stability: elements with the same key keep their order. *)
Lemma insert_by_stable k x l :
  StronglySorted key_le l ->
  filter (fun a => key a =? k) (insert_by key x l)
  = filter (fun a => key a =? k) (x :: l).
Proof.
  induction 1 as [|y l Hs IH Hall]; [reflexivity|].
  simpl insert_by. destruct (key x <=? key y) eqn:E; [reflexivity|].
  apply Z.leb_gt in E. simpl in *. rewrite IH.
  destruct (key x =? k) eqn:Ex; [|reflexivity].
  destruct (key y =? k) eqn:Ey; [|reflexivity].
  apply Z.eqb_eq in Ex, Ey. lia.
Qed.

Lemma sorted_stable k l :
  filter (fun a => key a =? k) (sorted key l)
  = filter (fun a => key a =? k) l.
Proof.
  induction l as [|x l IH]; [reflexivity|].
  simpl sorted. rewrite insert_by_stable by apply sorted_sorted.
  simpl. now rewrite IH.
Qed.

Lemma forallb_insert_by (f : A -> bool) x l :
  forallb f (insert_by key x l) = forallb f (x :: l).
Proof.
  induction l as [|y l IH]; [reflexivity|].
  simpl in *. destruct (key x <=? key y); [reflexivity|].
  simpl. rewrite IH. destruct (f x), (f y); reflexivity.
Qed.

Lemma forallb_sorted (f : A -> bool) l :
  forallb f (sorted key l) = forallb f l.
Proof.
  induction l as [|x l IH]; [reflexivity|].
  simpl sorted. rewrite forallb_insert_by. simpl. now rewrite IH.
Qed.

End SortedFacts.

(* ================================================================= *)
(** ** The assembled document *)

Module AssemblyFacts.
Import Str StrFacts ShiftFacts.

Lemma next_content_has_content lcs id :
  has_content lcs id = true <-> exists body, next_content lcs id = Some body.
Proof.
  induction lcs as [|x lcs IH]; simpl.
  - split; [discriminate | intros [? ?]; discriminate].
  - destruct (lc_id x =? id); simpl; [|exact IH].
    split; eauto.
Qed.

Lemma next_content_none lcs id :
  has_content lcs id = false <-> next_content lcs id = None.
Proof.
  induction lcs as [|x lcs IH]; simpl.
  - split; reflexivity.
  - destruct (lc_id x =? id); simpl; [|exact IH].
    split; discriminate.
Qed.

(** The block of a material is the specification's block. *)
Lemma material_block_spec lcs m body :
  next_content lcs (mat_id m) = Some body ->
  material_block (mat_name m) (shift_headings body 1) = spec_block lcs m.
Proof.
  intros H. unfold material_block, spec_block, body_of.
  rewrite H, shift_headings_lines. reflexivity.
Qed.

Lemma concat_all_app a b :
  concat_all (a ++ b) = (concat_all a ++ concat_all b)%string.
Proof.
  induction a as [|x a IH]; simpl; [reflexivity|].
  now rewrite IH, app_assoc.
Qed.

Lemma materials_loop_spec lcs ms :
  forall acc,
  for_in ms (materials_loop lcs) acc
  = if forallb (fun m => has_content lcs (mat_id m)) ms
    then Ok (acc ++ concat_all (map (spec_block lcs) ms))%string
    else Err TypeError.
Proof.
  induction ms as [|m ms IH]; intros acc; simpl.
  - now rewrite app_empty_r.
  - unfold materials_loop at 1. cbv zeta.
    destruct (has_content lcs (mat_id m)) eqn:E; simpl.
    + apply next_content_has_content in E. destruct E as [body E].
      rewrite E. simpl. rewrite IH.
      destruct (forallb _ ms); [|reflexivity].
      now rewrite (material_block_spec lcs m body E), app_assoc.
    + apply next_content_none in E. rewrite E. reflexivity.
Qed.

Lemma sections_loop_spec lcs ss :
  forall acc,
  for_in ss (fun program_content_md section =>
               for_in (sorted mat_order (sec_materials section))
                      (materials_loop lcs) program_content_md) acc
  = if all_have_content ss lcs
    then Ok (acc ++ concat_all
               (map (spec_block lcs) (materials_in_order ss)))%string
    else Err TypeError.
Proof.
  induction ss as [|s ss IH]; intros acc; simpl.
  - now rewrite app_empty_r.
  - rewrite materials_loop_spec, forallb_sorted.
    destruct (forallb _ (sec_materials s)); simpl; [|reflexivity].
    rewrite IH. unfold all_have_content.
    destruct (forallb _ ss); [|reflexivity].
    now rewrite map_app, concat_all_app, app_assoc.
Qed.

Lemma all_have_content_sorted ss lcs :
  all_have_content (sorted sec_order ss) lcs = all_have_content ss lcs.
Proof. unfold all_have_content. apply forallb_sorted. Qed.

(** What [create_program_content_md] returns on any sections. *)
Lemma create_program_content_md_spec ss lcs :
  create_program_content_md ss lcs
  = if all_have_content ss lcs
    then Ok (concat_all (map (spec_block lcs) (materials_in_order ss)))
    else Err TypeError.
Proof.
  unfold create_program_content_md.
  exact (sections_loop_spec lcs ss EmptyString).
Qed.

End AssemblyFacts.

(* ================================================================= *)
(** ** When the assembly raises *)

Module CoverFacts.
Import AssemblyFacts.

Lemma has_content_In lcs id :
  has_content lcs id = true <-> exists x, In x lcs /\ lc_id x = id.
Proof.
  unfold has_content. rewrite existsb_exists.
  split; intros (x & Hx & E); exists x; split; auto;
    [now apply Z.eqb_eq | now apply Z.eqb_eq].
Qed.

Lemma all_have_content_covered ss lcs :
  all_have_content ss lcs = true <-> covered ss lcs.
Proof.
  unfold all_have_content, covered. rewrite forallb_forall. split.
  - intros H s m Hs Hm. apply has_content_In.
    specialize (H s Hs). rewrite forallb_forall in H. now apply H.
  - intros H s Hs. apply forallb_forall. intros m Hm.
    apply has_content_In. now apply (H s m).
Qed.

End CoverFacts.

(** C8: [create_program_content_md] returns a document exactly when every
    material id of the sections has an entry in [longreads_content]. With
    such entries every lookup finds a text, so [None] never reaches
    [shift_headings]; without them the lookup gives [None], [shift_headings]
    raises [TypeError] on it, and so does [create_program_content_md]. *)
Theorem C8_total_iff_covered (sections : list section)
        (longreads_content : list longread_content) :
  (covered sections longreads_content
   <-> exists doc,
         create_program_content_md sections longreads_content = Ok doc)
  /\ (covered sections longreads_content ->
      forall s m, In s sections -> In m (sec_materials s) ->
      exists text, next_content longreads_content (mat_id m) = Some text)
  /\ ((exists s m, In s sections /\ In m (sec_materials s)
                   /\ next_content longreads_content (mat_id m) = None) ->
      create_program_content_md sections longreads_content = Err TypeError)
  /\ (forall level, shift_headings_opt None level = Err TypeError).
Proof.
  rewrite <- CoverFacts.all_have_content_covered.
  rewrite AssemblyFacts.create_program_content_md_spec.
  split; [|split; [|split]].
  - destruct (all_have_content sections longreads_content).
    + split; eauto.
    + split; [discriminate | intros [doc H]; discriminate].
  - intros H s m Hs Hm. apply AssemblyFacts.next_content_has_content.
    apply CoverFacts.all_have_content_covered in H.
    apply CoverFacts.has_content_In. now apply (H s m).
  - intros (s & m & Hs & Hm & Hnone).
    destruct (all_have_content sections longreads_content) eqn:E;
      [|reflexivity].
    apply CoverFacts.all_have_content_covered in E.
    destruct (E s m Hs Hm) as (x & Hx & Hid).
    assert (Hc : has_content longreads_content (mat_id m) = true)
      by (apply CoverFacts.has_content_In; eauto).
    apply AssemblyFacts.next_content_has_content in Hc.
    destruct Hc as [body Hc]. congruence.
  - reflexivity.
Qed.

(* ================================================================= *)
(** ** The headings of the document *)

Module HeadingFacts.
Import Str StrFacts ShiftFacts AssemblyFacts.

Lemma split_lines_app_newline a b :
  split_lines (a ++ String newline b)%string = split_lines a ++ split_lines b.
Proof.
  induction a as [|c a IH]; [reflexivity|].
  simpl. destruct (c =? newline)%char.
  - now rewrite IH.
  - rewrite IH. destruct (split_lines_cons a) as (l & ls & Ha).
    now rewrite Ha.
Qed.

Lemma split_lines_single s : single_line s -> split_lines s = [s].
Proof.
  unfold single_line. induction s as [|c s IH]; [reflexivity|].
  simpl. destruct (c =? newline)%char; [discriminate|].
  simpl. intros H. now rewrite (IH H).
Qed.

Lemma split_lines_are_single s : Forall single_line (split_lines s).
Proof.
  induction s as [|c s IH]; simpl.
  - repeat constructor.
  - destruct (c =? newline)%char eqn:E.
    + constructor; [reflexivity | exact IH].
    + destruct (split_lines_cons s) as (l & ls & Hs). rewrite Hs in *.
      inversion IH as [|? ? Hl Hls]; subst.
      constructor; [|exact Hls].
      unfold single_line in *. simpl. now rewrite E.
Qed.

Lemma split_join ls :
  ls <> [] -> Forall single_line ls -> split_lines (join_lines ls) = ls.
Proof.
  induction ls as [|l ls IH]; intros Hne H; [contradiction|].
  inversion H as [|? ? Hl Hls]; subst.
  destruct ls as [|l' ls].
  - simpl. now apply split_lines_single.
  - change (join_lines (l :: l' :: ls))
      with (l ++ String newline (join_lines (l' :: ls)))%string.
    rewrite split_lines_app_newline, IH by (discriminate || assumption).
    now rewrite split_lines_single.
Qed.

Lemma contains_app c a b :
  contains c (a ++ b)%string = contains c a || contains c b.
Proof.
  induction a as [|d a IH]; [reflexivity|].
  simpl. rewrite IH. now rewrite orb_assoc.
Qed.

Lemma replicate_hash_single n : single_line (replicate n hash).
Proof. unfold single_line. induction n; simpl; auto. Qed.

Lemma extend_single n l :
  single_line l -> single_line (extend_heading_run (replicate n hash) l).
Proof.
  unfold extend_heading_run. intros Hl.
  pose proof (span_hashes_app l) as Ha.
  destruct (span_hashes l) as [run rest]. simpl in Ha.
  destruct run as [|c run]; [exact Hl|].
  unfold single_line in *. rewrite <- Ha in Hl.
  rewrite contains_app in Hl. apply orb_false_iff in Hl. destruct Hl as [Hr Hs].
  rewrite !contains_app, Hr, Hs, replicate_hash_single. reflexivity.
Qed.

Lemma span_hashes_all_hashes n rest :
  fst (span_hashes rest) = EmptyString ->
  span_hashes (replicate n hash ++ rest)%string = (replicate n hash, rest).
Proof.
  intros H. induction n as [|n IH]; simpl.
  - destruct rest as [|d rest]; [reflexivity|]. simpl in *.
    destruct (d =? hash)%char; [|reflexivity].
    destruct (span_hashes rest); discriminate.
  - now rewrite IH.
Qed.

Lemma length_replicate n c : String.length (replicate n c) = n.
Proof. induction n; simpl; auto. Qed.

(** An extended line is no heading, or a heading one level further down. *)
Lemma heading_level_extend n l :
  heading_level (extend_heading_run (replicate n hash) l)
  = match heading_level l with
    | O => O
    | S k => (S k + n)%nat
    end.
Proof.
  unfold heading_level, extend_heading_run.
  pose proof (span_hashes_rest l) as Hr.
  pose proof (span_hashes_app l) as Ha.
  destruct (span_hashes l) as [run rest] eqn:Hs. simpl in *.
  destruct run as [|c run]; [now rewrite Hs|].
  pose proof (span_hashes_run_app l rest Hr) as Hrun.
  rewrite Hs in Hrun. simpl fst in Hrun.
  assert (H2 : span_hashes (String c run ++ replicate n hash ++ rest)%string
               = ((String c run ++ replicate n hash)%string, rest)).
  { clear Ha Hs. revert Hrun. generalize (String c run) as r.
    induction r as [|d r IH]; intros Hrun.
    - simpl. now apply span_hashes_all_hashes.
    - simpl in *. destruct (d =? hash)%char; [|discriminate].
      destruct (span_hashes (r ++ rest)%string) as [a b] eqn:E.
      injection Hrun as -> ->. now rewrite (IH eq_refl). }
  rewrite H2. cbn [fst]. rewrite length_app, length_replicate. reflexivity.
Qed.

Lemma split_lines_shift body level :
  split_lines (shift_headings body level)
  = map (extend_heading_run (replicate (Z.to_nat level) hash))
        (split_lines body).
Proof.
  rewrite shift_headings_lines. unfold extend_heading_runs.
  apply split_join.
  - destruct (split_lines_cons body) as (l & ls & H). now rewrite H.
  - apply Forall_map. eapply Forall_impl; [|apply split_lines_are_single].
    intros l. apply extend_single.
Qed.

Lemma shifted_lines_level body :
  Forall (fun l => heading_level l = O \/ (2 <= heading_level l)%nat)
         (split_lines (shift_headings body 1)).
Proof.
  rewrite split_lines_shift. apply Forall_map, Forall_forall.
  intros l _. rewrite heading_level_extend.
  destruct (heading_level l); [now left | right; lia].
Qed.

Lemma no_level1_in_shifted body :
  filter is_level1 (split_lines (shift_headings body 1)) = [].
Proof.
  pose proof (shifted_lines_level body) as H.
  induction H as [|l ls Hl _ IH]; [reflexivity|].
  simpl. rewrite IH. unfold is_level1.
  destruct Hl as [-> | Hl]; [reflexivity|].
  destruct (Nat.eqb_spec (heading_level l) 1); [lia | reflexivity].
Qed.

Lemma inserted_heading_level1 m : is_level1 (inserted_heading m) = true.
Proof. reflexivity. Qed.

Lemma level1_material_lines lcs m :
  filter is_level1 (material_lines lcs m) = [inserted_heading m].
Proof.
  unfold material_lines. simpl. now rewrite no_level1_in_shifted.
Qed.

Lemma split_lines_block lcs m rest :
  single_line (mat_name m) ->
  split_lines (spec_block lcs m ++ rest)%string
  = material_lines lcs m ++ split_lines rest.
Proof.
  intros Hm. unfold spec_block, material_lines.
  pose proof (shift_headings_lines (body_of lcs m) 1) as E.
  change (Z.to_nat 1) with 1%nat in E. rewrite <- E. clear E.
  change ("# " ++ mat_name m ++ ?x)%string
    with (inserted_heading m ++ x)%string.
  rewrite app_assoc, !append_cons, split_lines_app_newline.
  rewrite split_lines_single by exact Hm.
  rewrite app_assoc, append_cons.
  change (split_lines (String newline ?x)) with (EmptyString :: split_lines x).
  change (split_lines (String newline ?x)) with (EmptyString :: split_lines x).
  now rewrite split_lines_app_newline.
Qed.

End HeadingFacts.

(** C9 (as amended): every line of a shifted longread body is no heading or
    starts with at least two ['#']; and when no material name holds a newline,
    the lines of the document are, material by material, the inserted heading
    ['# ' + name], two empty lines and the lines of the shifted body, so the
    lines starting with exactly one ['#'] are exactly the inserted headings,
    one per material and in the order of the materials. *)
Theorem C9_level1_headings_are_the_materials (sections : list section)
        (longreads_content : list longread_content) (doc : string) :
  create_program_content_md sections longreads_content = Ok doc ->
  names_single_line (materials_in_order sections) = true ->
  (forall body,
     Forall (fun l => Str.heading_level l = O \/ (2 <= Str.heading_level l)%nat)
            (Str.split_lines (shift_headings body 1)))
  /\ Str.split_lines doc
     = flat_map (material_lines longreads_content)
                (materials_in_order sections) ++ [EmptyString]
  /\ level1_headings doc
     = map inserted_heading (materials_in_order sections).
Proof.
  intros Hdoc Hnames.
  rewrite AssemblyFacts.create_program_content_md_spec in Hdoc.
  destruct (all_have_content sections longreads_content); [|discriminate].
  injection Hdoc as <-.
  assert (Hlines :
    Str.split_lines
      (Str.concat_all (map (spec_block longreads_content)
                           (materials_in_order sections)))
    = flat_map (material_lines longreads_content)
               (materials_in_order sections) ++ [EmptyString]).
  { revert Hnames. generalize (materials_in_order sections) as ms.
    induction ms as [|m ms IH]; intros Hnames; [reflexivity|].
    simpl in Hnames. apply andb_true_iff in Hnames. destruct Hnames as [Hm Hms].
    apply negb_true_iff in Hm.
    cbn [map Str.concat_all].
    rewrite HeadingFacts.split_lines_block by exact Hm.
    rewrite (IH Hms). cbn [flat_map]. now rewrite <- List.app_assoc. }
  split; [apply HeadingFacts.shifted_lines_level|].
  split; [exact Hlines|].
  unfold level1_headings. rewrite Hlines. clear Hlines Hnames.
  rewrite filter_app.
  change (filter is_level1 [EmptyString]) with (@nil string).
  rewrite app_nil_r.
  induction (materials_in_order sections) as [|m ms IH]; [reflexivity|].
  cbn [flat_map map]. rewrite filter_app, IH.
  now rewrite HeadingFacts.level1_material_lines.
Qed.

(** The document of the fixture course and its three headings. *)
Lemma C9_witness :
  create_program_content_md (sorted sec_order (prog_sections Fixtures.course))
                            Fixtures.course_content
  = Ok Fixtures.course_md
  /\ level1_headings Fixtures.course_md
     = ["# Setup"; "# Usage"; "# Deploy"]%string.
Proof.
  split; [reflexivity|].
  apply (C9_level1_headings_are_the_materials
           (sorted sec_order (prog_sections Fixtures.course))
           Fixtures.course_content Fixtures.course_md);
    reflexivity.
Defined.

(** C9 as it is stated fails on a material whose name holds a newline: the
    one material below gives two lines of level 1, and neither is
    ['# ' + name]. *)
Lemma C9_counterexample :
  create_program_content_md Fixtures.two_line_sections Fixtures.two_line_content
  = Ok Fixtures.two_line_md
  /\ level1_headings Fixtures.two_line_md = ["# A"; "# B"]%string
  /\ level1_headings Fixtures.two_line_md
     <> map inserted_heading (materials_in_order Fixtures.two_line_sections).
Proof.
  split; [reflexivity|]. split; [reflexivity|]. discriminate.
Qed.

(* ================================================================= *)
(** ** The paginated loops *)

Module RunFacts.

Lemma fail_stop_cons {A} (out : outcome A) ev evs :
  went_through ev -> fail_stop out evs -> fail_stop out (ev :: evs).
Proof.
  intros Hev. destruct out; simpl; try (intros H; now constructor).
  intros (pre & last & -> & Hpre & Hlast).
  exists (ev :: pre), last. repeat split; auto.
Qed.

Lemma fail_stop_stops {A} msg (out : outcome A) evs :
  fail_stop out evs ->
  (forall m e, out = SystemExit m e ->
               m = msg /\ forall ev, In ev evs -> failed (snd ev) = true ->
                                      e = exception_of (snd ev)) ->
  stops_at_failure msg out evs.
Proof.
  intros Hfs Hmsg pre req r post -> Hfail.
  assert (Hno : forall l, Forall went_through l -> ~ In (req, r) l).
  { intros l Hl Hin. rewrite Forall_forall in Hl.
    specialize (Hl _ Hin). unfold went_through in Hl. simpl in Hl. congruence. }
  destruct out as [a|m e|e|]; simpl in Hfs;
    try (exfalso; apply (Hno _ Hfs), in_elt).
  destruct Hfs as (pre' & last & Heq & Hpre & Hlast).
  destruct post as [|x post].
  - destruct (Hmsg m e eq_refl) as [-> He]. split; [reflexivity|].
    now rewrite (He (req, r) (in_elt _ _ _) Hfail).
  - exfalso. apply (Hno pre' Hpre).
    assert (Hin : In (req, r) (removelast (pre ++ (req, r) :: x :: post))).
    { rewrite removelast_app by discriminate. apply in_or_app. right.
      simpl. now left. }
    rewrite Heq, removelast_last in Hin. exact Hin.
Qed.

Section PagedLoop.
Context {S Items : Type}.
Variable srv : server.
Variable mk_req : Z -> request.
Variables msg key : string.
Variable extract : payload -> option (list Items * Z).
Variable merge : S -> list Items -> S.
Variable body : Z -> S -> M (S * Z).

Hypothesis body_shape : forall page st w,
  body page st w = page_body srv mk_req msg extract key merge page st w.
Hypothesis extract_count : forall status p items n,
  extract p = Some (items, n) -> pages_count_of (Response status p) = Some n.

Local Abbreviation merge_reply := (merge_reply extract merge).

Lemma merge_reply_good st status p items n :
  extract p = Some (items, n) ->
  merge_reply st (Response status p) = merge st items.
Proof. intros H. unfold merge_reply. simpl. now rewrite H. Qed.

(** One iteration, by the reply of the host. *)
Lemma body_run page st w :
  let req := mk_req page in
  let r := srv (map fst (trace w)) req in
  let w1 := mk_world (trace w ++ [(req, r)]) (disk w) in
  body page st w
  = match r with
    | Fails detail => (SystemExit msg (ConnectionError detail), w1)
    | Response status p =>
        if error_status status
        then (SystemExit msg (HTTPError status), w1)
        else match extract p with
             | Some (items, n) => (Returns (merge st items, n), w1)
             | None => (Raises (KeyError key), w1)
             end
    end.
Proof.
  cbv zeta. rewrite body_shape. unfold page_body, bind, fetch.
  destruct (srv (map fst (trace w)) (mk_req page)) as [d|status p];
    [reflexivity|].
  destruct (error_status status); [reflexivity|].
  destruct (extract p) as [[items n]|]; reflexivity.
Qed.

(** Every run of the loop: the disk is left alone, a failed request ends
    the run, and a run that returns is a paginated run whose result
    merges the replies in their order. *)
Lemma loop_run fuel :
  forall page st w out w',
  while_has_next fuel body page st w = (out, w') ->
  disk w' = disk w
  /\ exists evs,
      trace w' = trace w ++ evs
      /\ evs = paged_events srv mk_req (map fst (trace w)) page
                            (List.length evs)
      /\ fail_stop out evs
      /\ (forall m e, out = SystemExit m e ->
           m = msg /\ forall ev, In ev evs -> failed (snd ev) = true ->
                                  e = exception_of (snd ev))
      /\ (forall st', out = Returns st' ->
           paged_run mk_req page evs
           /\ st' = fold_left merge_reply (map snd evs) st).
Proof.
  induction fuel as [|fuel IH]; intros page st w out w' Hrun.
  - simpl in Hrun. injection Hrun as <- <-.
    split; [reflexivity|]. exists [].
    split; [now rewrite app_nil_r|]. split; [reflexivity|].
    split; [constructor|].
    split; intros; discriminate.
  - simpl in Hrun. unfold bind in Hrun. rewrite body_run in Hrun.
    destruct (srv (map fst (trace w)) (mk_req page)) as [d|status p] eqn:Er.
    { injection Hrun as <- <-. split; [reflexivity|].
      exists [(mk_req page, Fails d)].
      split; [reflexivity|]. split; [simpl; now rewrite Er|].
      split; [exists [], (mk_req page, Fails d); repeat split; constructor|].
      split; [|intros; discriminate].
      intros m e H. injection H as <- <-. split; [reflexivity|].
      intros ev [<-|[]] _. reflexivity. }
    destruct (error_status status) eqn:Es.
    { injection Hrun as <- <-. split; [reflexivity|].
      exists [(mk_req page, Response status p)].
      split; [reflexivity|]. split; [simpl; now rewrite Er|].
      split; [exists [], (mk_req page, Response status p);
              split; [reflexivity | split; [constructor | exact Es]]|].
      split; [|intros; discriminate].
      intros m e H. injection H as <- <-. split; [reflexivity|].
      intros ev [<-|[]] _. reflexivity. }
    assert (Hok : went_through (mk_req page, Response status p))
      by exact Es.
    destruct (extract p) as [[items n]|] eqn:Ex.
    2:{ injection Hrun as <- <-. split; [reflexivity|].
        exists [(mk_req page, Response status p)].
        split; [reflexivity|]. split; [simpl; now rewrite Er|].
        split; [now repeat constructor|].
        split; intros; discriminate. }
    destruct (page <? n) eqn:Hn.
    + apply IH in Hrun. simpl in Hrun.
      destruct Hrun as (Hdisk & evs & Htr & Hev & Hfs & Hmsg & Hret).
      split; [exact Hdisk|].
      exists ((mk_req page, Response status p) :: evs).
      split; [now rewrite Htr, <- List.app_assoc|].
      split; [simpl; rewrite Er; f_equal; rewrite map_app in Hev; exact Hev|].
      split; [now apply fail_stop_cons|].
      split.
      * intros m e Hout. destruct (Hmsg m e Hout) as [Hm He].
        split; [exact Hm|]. intros ev [<-|Hin] Hf.
        -- unfold went_through in Hok. congruence.
        -- now apply He.
      * intros st' Hout. destruct (Hret st' Hout) as [Hpr Hst].
        split.
        -- eapply paged_more; eauto. now apply Z.ltb_lt.
        -- simpl. unfold merge_reply at 2. simpl. rewrite Ex. exact Hst.
    + injection Hrun as <- <-. split; [reflexivity|].
      exists [(mk_req page, Response status p)].
      split; [reflexivity|]. split; [simpl; now rewrite Er|].
      split; [now repeat constructor|].
      split; [intros; discriminate|].
      intros st' H. injection H as <-. split.
      * eapply paged_last; eauto. apply Z.ltb_ge in Hn. lia.
      * simpl. unfold merge_reply. simpl. now rewrite Ex.
Qed.

Lemma loop_stops fuel page st w :
  let run := while_has_next fuel body page st w in
  disk (snd run) = disk w
  /\ exists evs, trace (snd run) = trace w ++ evs
                 /\ stops_at_failure msg (fst run) evs.
Proof.
  cbv zeta.
  destruct (while_has_next fuel body page st w) as [out w'] eqn:Hrun.
  destruct (loop_run fuel page st w out w' Hrun)
    as (Hdisk & evs & Htr & _ & Hfs & Hmsg & _).
  split; [exact Hdisk|]. exists evs. split; [exact Htr|].
  now apply fail_stop_stops.
Qed.

(** With the same page count [n >= 1] in every reply the loop asks for
    the pages up to [n] and returns. *)
Lemma loop_constant n :
  (forall hist page, exists status p items,
      srv hist (mk_req page) = Response status p
      /\ error_status status = false /\ extract p = Some (items, n)) ->
  forall count fuel page st w,
  Z.of_nat (Datatypes.S count) = n - page + 1 ->
  (Datatypes.S count <= fuel)%nat ->
  let evs := paged_events srv mk_req (map fst (trace w)) page
                          (Datatypes.S count) in
  while_has_next fuel body page st w
  = (Returns (fold_left merge_reply (map snd evs) st),
     mk_world (trace w ++ evs) (disk w)).
Proof.
  intros Hsrv. induction count as [|count IH];
    intros fuel page st w Hcount Hfuel;
    (destruct fuel as [|fuel]; [lia|]);
    cbv zeta; cbn [while_has_next paged_events map fold_left snd];
    unfold bind; rewrite body_run;
    destruct (Hsrv (map fst (trace w)) page)
      as (status & p & items & Hr & Hs & Hex);
    rewrite Hr, Hs, Hex, (merge_reply_good st status p items n Hex).
  - assert (Hn : (page <? n) = false) by (apply Z.ltb_ge; lia).
    rewrite Hn. reflexivity.
  - assert (Hn : (page <? n) = true) by (apply Z.ltb_lt; lia).
    rewrite Hn. rewrite IH by (simpl trace; lia).
    cbn [trace disk]. rewrite map_app. cbn [map fst].
    now rewrite <- List.app_assoc.
Qed.

End PagedLoop.

Lemma paged_events_requests srv mk_req count :
  forall hist page,
  map fst (paged_events srv mk_req hist page count)
  = map mk_req (pages_from page count).
Proof.
  induction count as [|count IH]; intros hist page; simpl;
    [reflexivity | now rewrite IH].
Qed.

Lemma paged_events_length srv mk_req count :
  forall hist page,
  List.length (paged_events srv mk_req hist page count) = count.
Proof.
  induction count as [|count IH]; intros hist page; simpl;
    [reflexivity | now rewrite IH].
Qed.

End RunFacts.

(* ================================================================= *)
(** ** The four fetch operations, run *)

Module FetchFacts.
Import RunFacts.

Ltac shape :=
  intros; unfold page_body, bind, fetch;
  match goal with
  | |- context [?srv (map fst (trace ?w)) ?req] =>
      destruct (srv (map fst (trace w)) req) as [d|status [a n|a n|a n|b]];
      try reflexivity; destruct (error_status status); reflexivity
  end.

Lemma programs_shape srv mid page st w :
  (fun page_num programs =>
     bind (fetch srv (learning_programs_request mid page_num)
                 "Error while getting learning programs. ")
          (fun response =>
             match response with
             | LearningPrograms learning_programs pages_count =>
                 ret (store_programs programs learning_programs, pages_count)
             | _ => raise (KeyError "learning_programs")
             end)) page st w
  = page_body srv (learning_programs_request mid) programs_msg
              extract_programs "learning_programs" store_programs page st w.
Proof. shape. Qed.

Lemma ids_shape srv materials page st w :
  (fun page_num longreads_ids =>
     bind (fetch srv (materials_request materials page_num)
                 "Error while getting longread ids. ")
          (fun response =>
             match response with
             | Materials materials pages_count =>
                 ret (longreads_ids
                        ++ map tm_id (filter is_longread materials),
                      pages_count)
             | _ => raise (KeyError "materials")
             end)) page st w
  = page_body srv (materials_request materials) ids_msg
              extract_materials "materials" add_ids page st w.
Proof. shape. Qed.

Lemma uuids_shape srv longreads_ids page st w :
  (fun page_num longreads =>
     bind (fetch srv (titles_request longreads_ids page_num)
                 "Error while getting longread uuids. ")
          (fun response =>
             match response with
             | PageTitles page_titles pages_count =>
                 ret (longreads ++ map longread_of_title page_titles,
                      pages_count)
             | _ => raise (KeyError "page_titles")
             end)) page st w
  = page_body srv (titles_request longreads_ids) uuids_msg
              extract_titles "page_titles" add_longreads page st w.
Proof. shape. Qed.

Lemma programs_count status p (items : list api_program) n :
  extract_programs p = Some (items, n) ->
  pages_count_of (Response status p) = Some n.
Proof. destruct p; simpl; congruence. Qed.

Lemma materials_count status p (items : list typed_material) n :
  extract_materials p = Some (items, n) ->
  pages_count_of (Response status p) = Some n.
Proof. destruct p; simpl; congruence. Qed.

Lemma titles_count status p (items : list page_title) n :
  extract_titles p = Some (items, n) ->
  pages_count_of (Response status p) = Some n.
Proof. destruct p; simpl; congruence. Qed.

(** The one request of [get_longread_content]. *)
Lemma content_run srv l w :
  let r := srv (map fst (trace w)) (page_request l) in
  let run := get_longread_content srv l w in
  snd run = mk_world (trace w ++ [(page_request l, r)]) (disk w)
  /\ fst run
     = match r with
       | Fails detail => SystemExit content_msg (ConnectionError detail)
       | Response status p =>
           if error_status status
           then SystemExit content_msg (HTTPError status)
           else match p with
                | Page body => Returns body
                | _ => Raises (KeyError "page")
                end
       end.
Proof.
  cbv zeta. unfold get_longread_content, bind, fetch.
  destruct (srv (map fst (trace w)) (page_request l)) as [d|status p];
    [split; reflexivity|].
  destruct (error_status status); [split; reflexivity|].
  destruct p; split; reflexivity.
Qed.

Lemma content_stops srv l w :
  let run := get_longread_content srv l w in
  exists evs, trace (snd run) = trace w ++ evs
              /\ stops_at_failure content_msg (fst run) evs.
Proof.
  cbv zeta. destruct (content_run srv l w) as [Hw Hout].
  exists [(page_request l, srv (map fst (trace w)) (page_request l))].
  rewrite Hw. split; [reflexivity|].
  intros pre req r post Heq Hfail.
  destruct pre as [|x pre]; [|destruct pre; discriminate].
  injection Heq as Hreq Hr <-. split; [reflexivity|].
  rewrite Hout, Hr. destruct r as [d|status p]; [reflexivity|].
  simpl in Hfail. now rewrite Hfail.
Qed.

(** Merging reply after reply is merging all their items at once. *)
Lemma merge_programs replies :
  forall st,
  fold_left (merge_reply extract_programs store_programs) replies st
  = store_programs st (flat_map (items_of extract_programs) replies).
Proof.
  induction replies as [|r rs IH]; intros st; simpl; [reflexivity|].
  rewrite IH. unfold merge_reply, store_programs. now rewrite fold_left_app.
Qed.

Lemma merge_ids replies :
  forall st,
  fold_left (merge_reply extract_materials add_ids) replies st
  = st ++ map tm_id (filter is_longread
                            (flat_map (items_of extract_materials) replies)).
Proof.
  induction replies as [|r rs IH]; intros st; simpl.
  - now rewrite app_nil_r.
  - rewrite IH. unfold merge_reply, add_ids.
    now rewrite filter_app, map_app, List.app_assoc.
Qed.

Lemma merge_longreads replies :
  forall st,
  fold_left (merge_reply extract_titles add_longreads) replies st
  = st ++ map longread_of_title
              (flat_map (items_of extract_titles) replies).
Proof.
  induction replies as [|r rs IH]; intros st; simpl.
  - now rewrite app_nil_r.
  - rewrite IH. unfold merge_reply, add_longreads.
    now rewrite map_app, List.app_assoc.
Qed.

End FetchFacts.

(** C2: in each of the four fetch operations a request that raises a
    [RequestException] (the request itself, or [raise_for_status] on a 4xx or
    5xx reply) is the last request of the operation, which ends with
    [SystemExit], the message of the operation and that exception: nothing is
    requested afterwards, so the failed request is not tried again. *)
Theorem C2_failed_request_exits_at_once (srv : server) (MODULE_ID : string)
        (fuel : nat) (w : world) :
  (let run := get_learning_programs srv MODULE_ID fuel w in
   exists evs, trace (snd run) = trace w ++ evs
               /\ stops_at_failure programs_msg (fst run) evs)
  /\ (forall p,
        let run := get_longread_ids srv p fuel w in
        exists evs, trace (snd run) = trace w ++ evs
                    /\ stops_at_failure ids_msg (fst run) evs)
  /\ (forall longreads_ids,
        let run := get_longreads_uuids srv longreads_ids fuel w in
        exists evs, trace (snd run) = trace w ++ evs
                    /\ stops_at_failure uuids_msg (fst run) evs)
  /\ (forall l,
        let run := get_longread_content srv l w in
        exists evs, trace (snd run) = trace w ++ evs
                    /\ stops_at_failure content_msg (fst run) evs).
Proof.
  split; [|split; [|split]].
  - unfold get_learning_programs.
    eapply RunFacts.loop_stops.
    + apply FetchFacts.programs_shape.
    + apply FetchFacts.programs_count.
  - intros p. unfold get_longread_ids.
    eapply RunFacts.loop_stops.
    + apply FetchFacts.ids_shape.
    + apply FetchFacts.materials_count.
  - intros ids. unfold get_longreads_uuids.
    eapply RunFacts.loop_stops.
    + apply FetchFacts.uuids_shape.
    + apply FetchFacts.titles_count.
  - intros l. apply FetchFacts.content_stops.
Qed.

(** A run of [get_longread_ids] against a host that answers 500: one
    request, then [SystemExit]. *)
Lemma C2_witness :
  let run := get_longread_ids (Fixtures.host [200])
                              (extract_program Fixtures.beta) 5
                              initial_world in
  map fst (trace (snd run)) = [materials_request [200] 1]
  /\ fst run = SystemExit ids_msg (HTTPError 500).
Proof.
  cbv zeta. split; [reflexivity|].
  destruct (C2_failed_request_exits_at_once (Fixtures.host [200]) "42" 5
                                            initial_world)
    as (_ & Hids & _).
  destruct (Hids (extract_program Fixtures.beta)) as (evs & Htr & Hstop).
  destruct (Hstop [] (materials_request [200] 1) (Response 500 (Page "")) [])
    as [_ Hout].
  - change (trace initial_world ++ evs) with evs in Htr.
    rewrite <- Htr. reflexivity.
  - reflexivity.
  - exact Hout.
Defined.

(* ================================================================= *)
(** ** Pagination *)

Module PageFacts.
Import RunFacts FetchFacts.

Lemma pages_from_seq count :
  forall first,
  pages_from (Z.of_nat first) count = map Z.of_nat (seq first count).
Proof.
  induction count as [|count IH]; intros first; simpl; [reflexivity|].
  f_equal. rewrite <- IH. f_equal. lia.
Qed.

Lemma ids_per_page (replies : list reply) :
  map tm_id (filter is_longread
                    (flat_map (items_of extract_materials) replies))
  = flat_map (fun r => map tm_id (filter is_longread
                                         (items_of extract_materials r)))
             replies.
Proof.
  induction replies as [|r rs IH]; simpl; [reflexivity|].
  now rewrite filter_app, map_app, IH.
Qed.

Lemma longreads_per_page (replies : list reply) :
  map longread_of_title (flat_map (items_of extract_titles) replies)
  = flat_map (fun r => map longread_of_title (items_of extract_titles r))
             replies.
Proof.
  induction replies as [|r rs IH]; simpl; [reflexivity|].
  now rewrite map_app, IH.
Qed.

(** A loop of the script under a constant page count. *)
Lemma constant_run {S Items} srv mk_req msg key
      (extract : payload -> option (list Items * Z))
      (merge : S -> list Items -> S) body n fuel st w :
  (forall page st w,
      body page st w = page_body srv mk_req msg extract key merge page st w) ->
  1 <= n -> (Z.to_nat n <= fuel)%nat ->
  always_reports srv mk_req extract n ->
  let evs := paged_events srv mk_req (map fst (trace w)) 1 (Z.to_nat n) in
  while_has_next fuel body 1 st w
  = (Returns (fold_left (merge_reply extract merge) (map snd evs) st),
     mk_world (trace w ++ evs) (disk w)).
Proof.
  intros Hbody Hn Hfuel Hsrv.
  destruct (Z.to_nat n) as [|count] eqn:Ec; [lia|].
  apply (loop_constant srv mk_req msg key extract merge body Hbody n Hsrv);
    lia.
Qed.

End PageFacts.

(** C6: when every reply to a paginated fetch reports the same page count
    [n >= 1], the loop ends after exactly [n] requests, for the pages
    [1, .., n] in this order, and returns the items of the pages merged in
    page order: the programs stored page after page, the longread ids and the
    longreads of the pages concatenated. *)
Theorem C6_constant_page_count (srv : server) (MODULE_ID : string) (n : Z)
        (fuel : nat) (w : world) :
  1 <= n -> (Z.to_nat n <= fuel)%nat ->
  pages_from 1 (Z.to_nat n) = map Z.of_nat (seq 1 (Z.to_nat n))
  /\ (let mk_req := learning_programs_request MODULE_ID in
      always_reports srv mk_req extract_programs n ->
      let evs := paged_events srv mk_req (map fst (trace w)) 1 (Z.to_nat n) in
      get_learning_programs srv MODULE_ID fuel w
      = (Returns (store_programs
                    [] (flat_map (items_of extract_programs) (map snd evs))),
         mk_world (trace w ++ evs) (disk w))
      /\ map fst evs = map mk_req (pages_from 1 (Z.to_nat n))
      /\ List.length evs = Z.to_nat n)
  /\ (forall p,
      let mk_req := materials_request (material_ids p) in
      always_reports srv mk_req extract_materials n ->
      let evs := paged_events srv mk_req (map fst (trace w)) 1 (Z.to_nat n) in
      get_longread_ids srv p fuel w
      = (Returns (flat_map
                    (fun r => map tm_id
                                (filter is_longread
                                        (items_of extract_materials r)))
                    (map snd evs)),
         mk_world (trace w ++ evs) (disk w))
      /\ map fst evs = map mk_req (pages_from 1 (Z.to_nat n))
      /\ List.length evs = Z.to_nat n)
  /\ (forall longreads_ids,
      let mk_req := titles_request longreads_ids in
      always_reports srv mk_req extract_titles n ->
      let evs := paged_events srv mk_req (map fst (trace w)) 1 (Z.to_nat n) in
      get_longreads_uuids srv longreads_ids fuel w
      = (Returns (flat_map
                    (fun r => map longread_of_title
                                (items_of extract_titles r))
                    (map snd evs)),
         mk_world (trace w ++ evs) (disk w))
      /\ map fst evs = map mk_req (pages_from 1 (Z.to_nat n))
      /\ List.length evs = Z.to_nat n).
Proof.
  intros Hn Hfuel. split; [exact (PageFacts.pages_from_seq (Z.to_nat n) 1)|].
  split; [|split].
  - intros mk_req Hsrv evs. split; [|split].
    + unfold get_learning_programs.
      erewrite PageFacts.constant_run;
        [|apply FetchFacts.programs_shape|exact Hn|exact Hfuel|exact Hsrv].
      now rewrite FetchFacts.merge_programs.
    + apply RunFacts.paged_events_requests.
    + apply RunFacts.paged_events_length.
  - intros p mk_req Hsrv evs. split; [|split].
    + unfold get_longread_ids.
      erewrite PageFacts.constant_run;
        [|apply FetchFacts.ids_shape|exact Hn|exact Hfuel|exact Hsrv].
      now rewrite FetchFacts.merge_ids, PageFacts.ids_per_page.
    + apply RunFacts.paged_events_requests.
    + apply RunFacts.paged_events_length.
  - intros ids mk_req Hsrv evs. split; [|split].
    + unfold get_longreads_uuids.
      erewrite PageFacts.constant_run;
        [|apply FetchFacts.uuids_shape|exact Hn|exact Hfuel|exact Hsrv].
      now rewrite FetchFacts.merge_longreads, PageFacts.longreads_per_page.
    + apply RunFacts.paged_events_requests.
    + apply RunFacts.paged_events_length.
Qed.

(** The listing of the fixture host, which reports two pages throughout. *)
Lemma C6_witness :
  let run := get_learning_programs (Fixtures.host []) "42" 5 initial_world in
  fst run = Returns [ program_entry Fixtures.alpha;
                      program_entry Fixtures.beta ]
  /\ map (fun ev => page_of (fst ev)) (trace (snd run)) = [Some 1; Some 2].
Proof.
  assert (Hhost : always_reports (Fixtures.host [])
                                 (learning_programs_request "42")
                                 extract_programs 2).
  { intros hist page. unfold Fixtures.host. cbn.
    destruct page as [|[q|q|]|]; do 3 eexists; repeat split; reflexivity. }
  destruct (C6_constant_page_count (Fixtures.host []) "42" 2 5 initial_world)
    as (_ & Hprograms & _); [lia | simpl; lia |].
  destruct (Hprograms Hhost) as (Hrun & _). cbv zeta. rewrite Hrun.
  split; reflexivity.
Defined.

(** C4 (as amended): the three listing endpoints (learning-programs,
    materials-cr, longreads/pages/titles) are paginated: the requests of a
    fetch carry the page numbers 1, 2, 3, .. in this order, and a fetch that
    returns went on exactly as long as the page number was below the page
    count of the latest reply. The fourth endpoint, longreads/page, is asked
    once per longread page, with no page number in the request and no loop,
    whatever the reply. *)
Theorem C4_listing_endpoints_are_paginated (srv : server) (MODULE_ID : string)
        (fuel : nat) (w : world) :
  (forall page materials longreads_ids,
      page_of (learning_programs_request MODULE_ID page) = Some page
      /\ page_of (materials_request materials page) = Some page
      /\ page_of (titles_request longreads_ids page) = Some page)
  /\ (let run := get_learning_programs srv MODULE_ID fuel w in
      let mk_req := learning_programs_request MODULE_ID in
      exists evs, trace (snd run) = trace w ++ evs
        /\ map fst evs = map mk_req (pages_from 1 (List.length evs))
        /\ (forall programs, fst run = Returns programs ->
                             paged_run mk_req 1 evs))
  /\ (forall p,
      let run := get_longread_ids srv p fuel w in
      let mk_req := materials_request (material_ids p) in
      exists evs, trace (snd run) = trace w ++ evs
        /\ map fst evs = map mk_req (pages_from 1 (List.length evs))
        /\ (forall ids, fst run = Returns ids -> paged_run mk_req 1 evs))
  /\ (forall longreads_ids,
      let run := get_longreads_uuids srv longreads_ids fuel w in
      let mk_req := titles_request longreads_ids in
      exists evs, trace (snd run) = trace w ++ evs
        /\ map fst evs = map mk_req (pages_from 1 (List.length evs))
        /\ (forall longreads, fst run = Returns longreads ->
                              paged_run mk_req 1 evs))
  /\ (forall l,
      let run := get_longread_content srv l w in
      trace (snd run)
      = trace w ++ [(page_request l, srv (map fst (trace w)) (page_request l))]
      /\ page_of (page_request l) = None).
Proof.
  assert (Hloop : forall {S Items} mk_req msg key
                    (extract : payload -> option (list Items * Z))
                    (merge : S -> list Items -> S) body st,
    (forall page st w,
        body page st w = page_body srv mk_req msg extract key merge page st w) ->
    (forall status p items n,
        extract p = Some (items, n) ->
        pages_count_of (Response status p) = Some n) ->
    let run := while_has_next fuel body 1 st w in
    exists evs, trace (snd run) = trace w ++ evs
      /\ map fst evs = map mk_req (pages_from 1 (List.length evs))
      /\ (forall st', fst run = Returns st' -> paged_run mk_req 1 evs)).
  { intros S Items mk_req msg key extract merge body st Hbody Hcount. cbv zeta.
    destruct (while_has_next fuel body 1 st w) as [out w'] eqn:Hrun.
    destruct (RunFacts.loop_run srv mk_req msg key extract merge body
                Hbody Hcount fuel 1 st w out w' Hrun)
      as (_ & evs & Htr & Hev & _ & _ & Hret).
    exists evs. split; [exact Htr|]. split.
    - rewrite Hev at 1. apply RunFacts.paged_events_requests.
    - intros st' Hout. now apply (Hret st'). }
  split; [intros; repeat split|].
  split; [|split; [|split]].
  - unfold get_learning_programs.
    eapply Hloop; [apply FetchFacts.programs_shape
                  |apply FetchFacts.programs_count].
  - intros p. unfold get_longread_ids.
    eapply Hloop; [apply FetchFacts.ids_shape
                  |apply FetchFacts.materials_count].
  - intros ids. unfold get_longreads_uuids.
    eapply Hloop; [apply FetchFacts.uuids_shape
                  |apply FetchFacts.titles_count].
  - intros l. destruct (FetchFacts.content_run srv l w) as [Hw _].
    cbv zeta. rewrite Hw. split; reflexivity.
Qed.

(** C4 as it is stated fails for the fourth endpoint: the request of
    [get_longread_content] carries no page number (the ['page'] of its body
    is the uuid of the longread page), and it is the only request of the
    call. *)
Lemma C4_counterexample :
  let run := get_longread_content (Fixtures.host []) (mk_longread 100 "p1")
                                  initial_world in
  map (fun ev => page_of (fst ev)) (trace (snd run)) = [None]
  /\ map (fun ev => req_body (fst ev)) (trace (snd run)) = [BodyPage 100 "p1"]
  /\ fst run = Returns ("## Part" ++ Fixtures.nl ++ "body")%string.
Proof. repeat split. Qed.

(* ================================================================= *)
(** ** Keeping the longreads *)

Module LongreadFacts.

Lemma id_in_In ids id : id_in ids id = true <-> In id ids.
Proof.
  unfold id_in. rewrite existsb_exists. split.
  - intros (y & Hy & E). apply Z.eqb_eq in E. now subst.
  - intros H. exists id. split; [exact H | apply Z.eqb_refl].
Qed.

Lemma In_ordered_materials ss m :
  In m (ordered_materials ss) <-> In m (flat_map sec_materials ss).
Proof.
  unfold ordered_materials, materials_in_order. rewrite !in_flat_map. split.
  - intros (s & Hs & Hm). exists s. split.
    + eapply Permutation_in; [symmetry; apply sorted_perm | exact Hs].
    + eapply Permutation_in; [symmetry; apply sorted_perm | exact Hm].
  - intros (s & Hs & Hm). exists s. split.
    + eapply Permutation_in; [apply sorted_perm | exact Hs].
    + eapply Permutation_in; [apply sorted_perm | exact Hm].
Qed.

Lemma In_filtered p ids m :
  In m (all_materials (filter_longreads p ids))
  <-> In m (all_materials p) /\ In (mat_id m) ids.
Proof.
  unfold all_materials, filter_longreads. simpl.
  rewrite !in_flat_map. split.
  - intros (s' & Hs' & Hm). apply in_map_iff in Hs'.
    destruct Hs' as (s & <- & Hs). simpl in Hm.
    apply filter_In in Hm. destruct Hm as [Hm Hid].
    split; [eauto | now apply id_in_In].
  - intros [(s & Hs & Hm) Hid].
    eexists. split; [apply in_map; exact Hs|].
    simpl. apply filter_In. split; [exact Hm | now apply id_in_In].
Qed.

Lemma In_longread_ids returned id :
  In id (map tm_id (filter is_longread returned))
  <-> exists x, In x returned /\ tm_type x = "longread"%string /\ tm_id x = id.
Proof.
  rewrite in_map_iff. split.
  - intros (x & Hid & Hx). apply filter_In in Hx. destruct Hx as [Hx Ht].
    exists x. repeat split; auto. now apply String.eqb_eq.
  - intros (x & Hx & Ht & Hid). exists x. split; [exact Hid|].
    apply filter_In. split; [exact Hx | now apply String.eqb_eq].
Qed.

End LongreadFacts.

(* ================================================================= *)
(** ** The dictionary of programs *)

Module DictFacts.

Section Dict.
Context {V : Type}.
Implicit Types (d : dict V) (k : Z) (v : V).

Lemma dict_get_set_same d k v : dict_get k (dict_set k v d) = Some v.
Proof.
  induction d as [|[k' v'] d IH]; simpl.
  - now rewrite Z.eqb_refl.
  - destruct (k' =? k) eqn:E; simpl.
    + now rewrite Z.eqb_refl.
    + now rewrite E.
Qed.

Lemma dict_get_set_other d k k' v :
  k' <> k -> dict_get k' (dict_set k v d) = dict_get k' d.
Proof.
  intros Hne. induction d as [|[k0 v0] d IH]; simpl.
  - destruct (Z.eqb_spec k k'); [congruence | reflexivity].
  - destruct (Z.eqb_spec k0 k) as [->|Hk]; simpl.
    + destruct (Z.eqb_spec k k'); [congruence|].
      destruct (Z.eqb_spec k k'); [congruence | reflexivity].
    + now rewrite IH.
Qed.

Lemma dict_set_fresh d k v :
  ~ In k (dict_keys d) -> dict_set k v d = d ++ [(k, v)].
Proof.
  induction d as [|[k' v'] d IH]; simpl; intros Hk; [reflexivity|].
  destruct (Z.eqb_spec k' k) as [->|Hne]; [tauto|].
  rewrite IH by tauto. reflexivity.
Qed.

Lemma dict_keys_set d k v :
  dict_keys (dict_set k v d)
  = if existsb (fun k' => k' =? k) (dict_keys d)
    then dict_keys d else dict_keys d ++ [k].
Proof.
  induction d as [|[k' v'] d IH]; simpl; [reflexivity|].
  destruct (Z.eqb_spec k' k) as [->|Hne]; simpl; [reflexivity|].
  rewrite IH. now destruct (existsb _ (dict_keys d)).
Qed.

Lemma In_keys_set d k v k' :
  In k' (dict_keys (dict_set k v d)) <-> k' = k \/ In k' (dict_keys d).
Proof.
  rewrite dict_keys_set.
  destruct (existsb _ (dict_keys d)) eqn:E.
  - apply existsb_exists in E. destruct E as (x & Hx & Ex).
    apply Z.eqb_eq in Ex. subst x. split; [tauto|].
    intros [->|H]; assumption.
  - rewrite in_app_iff. simpl. split; [|intros [->|H]; auto].
    intros [H|[<-|[]]]; auto.
Qed.

Lemma NoDup_keys_set d k v :
  NoDup (dict_keys d) -> NoDup (dict_keys (dict_set k v d)).
Proof.
  intros Hd. rewrite dict_keys_set.
  destruct (existsb _ (dict_keys d)) eqn:E; [exact Hd|].
  apply NoDup_app; [exact Hd | repeat constructor; auto |].
  intros x Hx [Hk|[]].
  assert (Habs : true = false); [|discriminate].
  rewrite <- E. symmetry. apply existsb_exists.
  exists x. split; [exact Hx | now apply Z.eqb_eq].
Qed.

End Dict.

Lemma find_app {A} (f : A -> bool) (a b : list A) :
  find f (a ++ b) = match find f a with
                    | Some x => Some x
                    | None => find f b
                    end.
Proof.
  induction a as [|x a IH]; simpl; [reflexivity|].
  now destruct (f x).
Qed.

Lemma store_get ps :
  forall d id,
  dict_get id (store_programs d ps)
  = match find (has_id id) (rev ps) with
    | Some p => Some (extract_program p)
    | None => dict_get id d
    end.
Proof.
  induction ps as [|p ps IH]; intros d id; [reflexivity|].
  unfold store_programs in *. simpl fold_left. rewrite IH.
  simpl rev. rewrite find_app.
  destruct (find (has_id id) (rev ps)); [reflexivity|].
  simpl. unfold has_id. destruct (Z.eqb_spec (ap_id p) id) as [->|Hne].
  - apply dict_get_set_same.
  - apply dict_get_set_other. congruence.
Qed.

Lemma store_keys_in ps :
  forall d id,
  In id (dict_keys (store_programs d ps))
  <-> In id (dict_keys d) \/ In id (map ap_id ps).
Proof.
  induction ps as [|p ps IH]; intros d id.
  - simpl. tauto.
  - unfold store_programs in *. simpl fold_left. rewrite IH.
    rewrite In_keys_set. simpl. intuition congruence.
Qed.

Lemma store_keys_nodup ps :
  forall d, NoDup (dict_keys d) -> NoDup (dict_keys (store_programs d ps)).
Proof.
  induction ps as [|p ps IH]; intros d Hd; [exact Hd|].
  unfold store_programs in *. simpl fold_left.
  apply IH. now apply NoDup_keys_set.
Qed.

Lemma store_fresh ps :
  forall d,
  NoDup (map ap_id ps) ->
  (forall p, In p ps -> ~ In (ap_id p) (dict_keys d)) ->
  store_programs d ps = d ++ map program_entry ps.
Proof.
  induction ps as [|p ps IH]; intros d Hnd Hfresh.
  - simpl. now rewrite app_nil_r.
  - unfold store_programs in *. simpl fold_left.
    inversion Hnd as [|? ? Hp Hps]; subst.
    rewrite dict_set_fresh by (apply Hfresh; now left).
    rewrite IH; [simpl; now rewrite <- List.app_assoc | exact Hps |].
    intros q Hq. unfold dict_keys. rewrite map_app, in_app_iff.
    intros [Hin|[Heq|[]]].
    + apply (Hfresh q); [now right | exact Hin].
    + simpl in Heq. apply Hp. rewrite Heq. now apply in_map.
Qed.

End DictFacts.

(** C5 as it is stated fails when two pages hold a program with the same id:
    the ids are unique within each page, and the program of the first page is
    not in the mapping returned. *)
Lemma C5_counterexample :
  let run := get_learning_programs Fixtures.repeating_host "42" 5
                                   initial_world in
  let pages := map (items_of extract_programs) (map snd (trace (snd run))) in
  pages = [[Fixtures.old_seven]; [Fixtures.new_seven]]
  /\ Forall (fun page => NoDup (map ap_id page)) pages
  /\ fst run = Returns [program_entry Fixtures.new_seven]
  /\ ~ In (program_entry Fixtures.old_seven)
          [program_entry Fixtures.new_seven].
Proof.
  cbv zeta. split; [reflexivity|]. split.
  - repeat constructor; simpl; tauto.
  - split; [reflexivity|]. intros [H|[]]. discriminate.
Qed.

(* ================================================================= *)
(** ** What an aborted run leaves on the disk *)

Module DiskFacts.
Import RunFacts FetchFacts DictFacts.

Lemma bind_run {A B} (m : M A) (k : A -> M B) w :
  bind m k w = match m w with
               | (Returns a, w1) => k a w1
               | (SystemExit msg e, w1) => (SystemExit msg e, w1)
               | (Raises e, w1) => (Raises e, w1)
               | (Running, w1) => (Running, w1)
               end.
Proof. reflexivity. Qed.

Lemma ids_disk srv p fuel w out w' :
  get_longread_ids srv p fuel w = (out, w') -> disk w' = disk w.
Proof.
  intros Hrun. unfold get_longread_ids in Hrun.
  now destruct (loop_run srv _ _ _ _ _ _ (ids_shape srv (material_ids p))
                  materials_count fuel 1 [] w out w' Hrun).
Qed.

Lemma uuids_disk srv ids fuel w out w' :
  get_longreads_uuids srv ids fuel w = (out, w') -> disk w' = disk w.
Proof.
  intros Hrun. unfold get_longreads_uuids in Hrun.
  now destruct (loop_run srv _ _ _ _ _ _ (uuids_shape srv ids)
                  titles_count fuel 1 [] w out w' Hrun).
Qed.

Lemma programs_disk srv mid fuel w out w' :
  get_learning_programs srv mid fuel w = (out, w') -> disk w' = disk w.
Proof.
  intros Hrun. unfold get_learning_programs in Hrun.
  now destruct (loop_run srv _ _ _ _ _ _ (programs_shape srv mid)
                  programs_count fuel 1 [] w out w' Hrun).
Qed.

Lemma content_disk srv l w : disk (snd (get_longread_content srv l w)) = disk w.
Proof. destruct (content_run srv l w) as [Hw _]. now rewrite Hw. Qed.

Lemma contents_disk srv longreads :
  forall st w out w',
  for_each longreads
    (fun longreads_content l =>
       bind (get_longread_content srv l) (fun content =>
         ret (longreads_content ++ [mk_content (lr_id l) content])))
    st w = (out, w') ->
  disk w' = disk w.
Proof.
  induction longreads as [|l ls IH]; intros st w out w' Hrun.
  - injection Hrun as <- <-. reflexivity.
  - simpl in Hrun. rewrite !bind_run in Hrun.
    pose proof (content_disk srv l w) as Hd.
    destruct (get_longread_content srv l w) as [[c|m e|e|] w1];
      simpl in Hd; try (injection Hrun as <- <-; exact Hd).
    unfold ret in Hrun. apply IH in Hrun. congruence.
Qed.

Lemma written_paths_app a b :
  written_paths (a ++ b) = written_paths a ++ written_paths b.
Proof. unfold written_paths. apply flat_map_app. Qed.

Lemma last_written_app path a b :
  last_written path (a ++ b)
  = match last_written path b with
    | Some c => Some c
    | None => last_written path a
    end.
Proof.
  induction a as [|[d|q c] a IH]; simpl.
  - now destruct (last_written path b).
  - exact IH.
  - rewrite IH. destruct (last_written path b); [reflexivity|].
    reflexivity.
Qed.

Lemma name_after_set programs id p p' :
  dict_get id programs = Some p -> prog_name p' = prog_name p ->
  forall id', program_name_of (dict_set id p' programs) id'
              = program_name_of programs id'.
Proof.
  intros Hget Hname id'. unfold program_name_of.
  destruct (Z.eq_dec id' id) as [->|Hne].
  - now rewrite dict_get_set_same, Hget.
  - now rewrite dict_get_set_other.
Qed.

Section Main.
Variable srv : server.
Variable MODULE_ID : string.
Variables sanitize_filename markdown_markdown pdfkit_render
  : string -> string.

Local Abbreviation process :=
  (process_program srv sanitize_filename markdown_markdown pdfkit_render).

(** One program: an abort writes nothing, a full pass writes the three
    files and keeps the names of all programs. *)
Lemma process_program_disk fuel programs id w out w' :
  process fuel programs id w = (out, w') ->
  match out with
  | Returns programs' =>
      written_paths (disk w')
      = written_paths (disk w)
        ++ output_paths (sanitize_filename (program_name_of programs id))
      /\ forall id', program_name_of programs' id'
                     = program_name_of programs id'
  | SystemExit _ _ => disk w' = disk w
  | _ => True
  end.
Proof.
  unfold process_program, program_name_of.
  destruct (dict_get id programs) as [p|] eqn:Hget;
    [|intros H; injection H as <- <-; exact I].
  rewrite bind_run.
  destruct (get_longread_ids srv p fuel w) as [[ids|m e|e|] w1] eqn:E1;
    try (intros H; injection H as <- <-; try exact I;
         now apply ids_disk in E1).
  apply ids_disk in E1. rewrite bind_run.
  destruct (get_longreads_uuids srv ids fuel w1)
    as [[longreads|m e|e|] w2] eqn:E2;
    try (intros H; injection H as <- <-; try exact I;
         apply uuids_disk in E2; congruence).
  apply uuids_disk in E2. rewrite bind_run.
  match goal with
  | |- context [for_each longreads ?f ?st w2] =>
      destruct (for_each longreads f st w2)
        as [[contents|m e|e|] w3] eqn:E3
  end;
    try (intros H; injection H as <- <-; try exact I;
         apply contents_disk in E3; congruence).
  apply contents_disk in E3. rewrite bind_run.
  destruct (create_program_content_md
              (sorted sec_order
                      (prog_sections (filter_longreads p ids)))
              contents) as [md|e];
    [|intros H; injection H as <- <-; exact I].
  unfold lift, ret, bind, mkdir, write_file, pdfkit_from_file.
  cbn [disk trace].
  rewrite !last_written_app. cbn [last_written].
  rewrite String.eqb_refl.
  unfold write_file. cbn [disk trace].
  intros H. injection H as <- <-. cbn [disk]. split.
  - rewrite !written_paths_app. cbn.
    rewrite app_nil_r, <- !List.app_assoc. cbn.
    do 2 f_equal. congruence.
  - apply (name_after_set programs id p); [exact Hget | reflexivity].
Qed.

(** The loop over the programs. *)
Lemma for_each_program_disk fuel ks :
  forall programs w out w',
  for_each ks (process fuel) programs w = (out, w') ->
  match out with
  | Returns _ =>
      written_paths (disk w')
      = written_paths (disk w) ++ files_of sanitize_filename programs ks
  | SystemExit _ _ =>
      exists k, (k < List.length ks)%nat
                /\ written_paths (disk w')
                   = written_paths (disk w)
                     ++ files_of sanitize_filename programs (firstn k ks)
  | _ => True
  end.
Proof.
  induction ks as [|id ks IH]; intros programs w out w' Hrun.
  - injection Hrun as <- <-. unfold files_of. simpl. now rewrite app_nil_r.
  - simpl in Hrun. rewrite bind_run in Hrun.
    destruct (process fuel programs id w) as [[programs'|m e|e|] w1] eqn:E1;
      apply process_program_disk in E1.
    + destruct E1 as [Hw1 Hnames].
      assert (Hfiles : forall l, files_of sanitize_filename programs' l
                                 = files_of sanitize_filename programs l).
      { intros l. unfold files_of. apply flat_map_ext.
        intros a. now rewrite Hnames. }
      apply IH in Hrun. destruct out as [a|m e|e|]; try exact I.
      * rewrite Hrun, Hw1, Hfiles, <- List.app_assoc. reflexivity.
      * destruct Hrun as (k & Hk & Hrun).
        exists (Datatypes.S k). split; [simpl; lia|].
        rewrite Hrun, Hw1, Hfiles, <- List.app_assoc. reflexivity.
    + injection Hrun as <- <-. exists O. split; [simpl; lia|].
      rewrite E1. unfold files_of. simpl. now rewrite app_nil_r.
    + injection Hrun as <- <-. exact I.
    + injection Hrun as <- <-. exact I.
Qed.

End Main.

End DiskFacts.

(** C3 as it is stated fails when the failing request comes after a program
    was finished: the run below is aborted in the second program and leaves
    the three files of the first one. *)
Lemma C3_counterexample :
  let run := Fixtures.run_main (Fixtures.host [200]) in
  fst run = SystemExit ids_msg (HTTPError 500)
  /\ written_paths (disk (snd run))
     = [ "output/md/Alpha.md"; "output/html/Alpha.htm";
         "output/pdf/Alpha.pdf" ]%string.
Proof. split; reflexivity. Qed.

(* ================================================================= *)
(** ** More on [shift_headings] *)

Module ShiftMore.
Import Str StrFacts ShiftFacts HeadingFacts.

Lemma replicate_add a b c :
  (replicate a c ++ replicate b c)%string = replicate (a + b) c.
Proof. induction a as [|a IH]; simpl; [reflexivity | now rewrite IH]. Qed.

Lemma extend_empty l : extend_heading_run EmptyString l = l.
Proof.
  unfold extend_heading_run. pose proof (span_hashes_app l) as H.
  destruct (span_hashes l) as [run rest]. simpl in H.
  destruct run; [reflexivity | exact H].
Qed.

(** The run of an extended heading is the old run with the new ['#']. *)
Lemma span_hashes_extended n l c run rest :
  span_hashes l = (String c run, rest) ->
  span_hashes (String c run ++ replicate n hash ++ rest)%string
  = ((String c run ++ replicate n hash)%string, rest).
Proof.
  intros Hs.
  pose proof (span_hashes_rest l) as Hr. rewrite Hs in Hr. simpl in Hr.
  pose proof (span_hashes_run_app l rest Hr) as Hrun.
  rewrite Hs in Hrun. simpl fst in Hrun.
  revert Hrun. generalize (String c run) as r.
  induction r as [|d r IH]; intros Hrun.
  - simpl. now apply span_hashes_all_hashes.
  - simpl in *. destruct (d =? hash)%char; [|discriminate].
    destruct (span_hashes (r ++ rest)%string) as [a b] eqn:E.
    injection Hrun as -> ->. now rewrite (IH eq_refl).
Qed.

Lemma extend_extend a b l :
  extend_heading_run (replicate b hash)
                     (extend_heading_run (replicate a hash) l)
  = extend_heading_run (replicate (a + b) hash) l.
Proof.
  unfold extend_heading_run at 2 3.
  destruct (span_hashes l) as [run rest] eqn:Hs.
  destruct run as [|c run].
  - unfold extend_heading_run. now rewrite Hs.
  - unfold extend_heading_run.
    rewrite (span_hashes_extended a l c run rest Hs).
    rewrite <- replicate_add. simpl. now rewrite !app_assoc.
Qed.

Lemma join_map_id (f : string -> string) md :
  (forall l, In l (split_lines md) -> f l = l) ->
  join_lines (map f (split_lines md)) = md.
Proof.
  intros H. rewrite (map_ext_in f (fun l => l)) by exact H.
  rewrite map_id. apply join_split.
Qed.

End ShiftMore.

(** X1: shifting the headings of a text by [a] and then by [b] levels is
    shifting them by [a + b] levels, for levels that are not negative. *)
Theorem X1_shift_headings_compose (md : string) (a b : Z) :
  0 <= a -> 0 <= b ->
  shift_headings (shift_headings md a) b = shift_headings md (a + b).
Proof.
  intros Ha Hb.
  rewrite (ShiftFacts.shift_headings_lines (shift_headings md a) b).
  unfold extend_heading_runs. rewrite HeadingFacts.split_lines_shift.
  rewrite map_map.
  rewrite (map_ext _ _ (ShiftMore.extend_extend (Z.to_nat a) (Z.to_nat b))).
  rewrite <- Z2Nat.inj_add by assumption.
  now rewrite ShiftFacts.shift_headings_lines.
Qed.

Lemma X1_witness :
  shift_headings (shift_headings ("# a" ++ Fixtures.nl ++ "b")%string 1) 2
  = ("#### a" ++ Fixtures.nl ++ "b")%string.
Proof.
  rewrite (X1_shift_headings_compose _ 1 2); [reflexivity | lia | lia].
Defined.

(** X2: with a level of zero or below, ['#' * level] is empty and
    [shift_headings] returns the text as it is. *)
Theorem X2_shift_headings_no_level (md : string) (level : Z) :
  level <= 0 -> shift_headings md level = md.
Proof.
  intros Hl. rewrite ShiftFacts.shift_headings_lines.
  replace (Z.to_nat level) with O by lia.
  unfold extend_heading_runs. apply ShiftMore.join_map_id.
  intros l _. apply ShiftMore.extend_empty.
Qed.

Lemma X2_witness :
  shift_headings ("# a" ++ Fixtures.nl ++ "## b")%string (-3)
  = ("# a" ++ Fixtures.nl ++ "## b")%string.
Proof. apply X2_shift_headings_no_level. lia. Defined.

(** X3: [shift_headings] keeps the lines of a text apart: the result has as
    many lines, a heading of level [k >= 1] becomes one of level
    [k + level], and a line that is no heading stays none. *)
Theorem X3_shift_headings_levels (md : string) (level : Z) :
  map Str.heading_level (Str.split_lines (shift_headings md level))
  = map (shifted_level (Z.to_nat level))
        (map Str.heading_level (Str.split_lines md)).
Proof.
  rewrite HeadingFacts.split_lines_shift, !map_map.
  apply map_ext. intros l. apply HeadingFacts.heading_level_extend.
Qed.

(** X4: a text none of whose lines starts with ['#'] is returned unchanged
    by [shift_headings], whatever the level. *)
Theorem X4_shift_headings_plain_text (md : string) (level : Z) :
  no_heading_lines md = true -> shift_headings md level = md.
Proof.
  unfold no_heading_lines. rewrite forallb_forall. intros H.
  rewrite ShiftFacts.shift_headings_lines. unfold extend_heading_runs.
  apply ShiftMore.join_map_id. intros l Hl.
  apply ShiftFacts.extend_no_run.
  specialize (H l Hl). apply Nat.eqb_eq in H. unfold Str.heading_level in H.
  destruct (fst (Str.span_hashes l)); [reflexivity | discriminate].
Qed.

Lemma X4_witness :
  shift_headings ("a # b" ++ Fixtures.nl ++ " # c")%string 5
  = ("a # b" ++ Fixtures.nl ++ " # c")%string.
Proof. apply X4_shift_headings_plain_text. reflexivity. Defined.

(* ================================================================= *)
(** ** More on the assembly *)

Module AssemblyMore.
Import AssemblyFacts.

Lemma materials_in_order_app a b :
  materials_in_order (a ++ b) = materials_in_order a ++ materials_in_order b.
Proof. unfold materials_in_order. apply flat_map_app. Qed.

Lemma all_have_content_app a b lcs :
  all_have_content (a ++ b) lcs
  = all_have_content a lcs && all_have_content b lcs.
Proof. unfold all_have_content. apply forallb_app. Qed.

Lemma ordered_have_content ss lcs :
  all_have_content ss lcs = true ->
  forall m, In m (materials_in_order ss) -> has_content lcs (mat_id m) = true.
Proof.
  unfold all_have_content, materials_in_order.
  rewrite forallb_forall. intros H m Hm.
  apply in_flat_map in Hm. destruct Hm as (s & Hs & Hm).
  specialize (H s Hs). rewrite forallb_forall in H. apply H.
  eapply Permutation_in; [symmetry; apply sorted_perm | exact Hm].
Qed.

Lemma next_content_app lcs more id :
  has_content lcs id = true ->
  next_content (lcs ++ more) id = next_content lcs id.
Proof.
  induction lcs as [|x lcs IH]; simpl; [discriminate|].
  destruct (lc_id x =? id); [reflexivity | exact IH].
Qed.

Lemma has_content_app lcs more id :
  has_content (lcs ++ more) id = has_content lcs id || has_content more id.
Proof. unfold has_content. apply existsb_app. Qed.

Lemma all_have_content_more ss lcs more :
  all_have_content ss lcs = true -> all_have_content ss (lcs ++ more) = true.
Proof.
  unfold all_have_content. rewrite !forallb_forall. intros H s Hs.
  specialize (H s Hs). rewrite forallb_forall in *. intros m Hm.
  rewrite has_content_app, (H m Hm). reflexivity.
Qed.

Lemma filter_twice {A} (f : A -> bool) l :
  filter f (filter f l) = filter f l.
Proof.
  induction l as [|x l IH]; simpl; [reflexivity|].
  destruct (f x) eqn:E; simpl; [rewrite E, IH; reflexivity | exact IH].
Qed.

Lemma filter_swap {A} (f g : A -> bool) l :
  filter f (filter g l) = filter g (filter f l).
Proof.
  induction l as [|x l IH]; simpl; [reflexivity|].
  destruct (f x) eqn:Ef, (g x) eqn:Eg; simpl;
    rewrite ?Ef, ?Eg, IH; reflexivity.
Qed.

Lemma filter_all {A} (f : A -> bool) l :
  (forall x, In x l -> f x = true) -> filter f l = l.
Proof.
  induction l as [|x l IH]; simpl; intros H; [reflexivity|].
  rewrite (H x) by now left. rewrite IH; [reflexivity|].
  intros y Hy. apply H. now right.
Qed.

Lemma filter_none {A} (f : A -> bool) l :
  (forall x, In x l -> f x = false) -> filter f l = [].
Proof.
  induction l as [|x l IH]; simpl; intros H; [reflexivity|].
  rewrite (H x) by now left. apply IH. intros y Hy. apply H. now right.
Qed.

End AssemblyMore.

(** X5: the document of a list of sections followed by another is the
    document of the first followed by the document of the second; if either
    part raises, so does the whole. *)
Theorem X5_document_of_appended_sections (a b : list section)
        (longreads_content : list longread_content) :
  create_program_content_md (a ++ b) longreads_content
  = match create_program_content_md a longreads_content,
          create_program_content_md b longreads_content with
    | Ok doc_a, Ok doc_b => Ok (doc_a ++ doc_b)%string
    | Err e, _ => Err e
    | _, Err e => Err e
    end.
Proof.
  rewrite !AssemblyFacts.create_program_content_md_spec.
  rewrite AssemblyMore.all_have_content_app, AssemblyMore.materials_in_order_app.
  destruct (all_have_content a longreads_content),
           (all_have_content b longreads_content); simpl; try reflexivity.
  now rewrite map_app, AssemblyFacts.concat_all_app.
Qed.

(** X6: the text of a material is the first content entry with its id, so
    entries appended to a list that already serves every material (further
    pages of the same longreads among them) leave the document as it is. *)
Theorem X6_first_content_entry_wins (sections : list section)
        (longreads_content more : list longread_content) :
  all_have_content sections longreads_content = true ->
  create_program_content_md sections (longreads_content ++ more)
  = create_program_content_md sections longreads_content.
Proof.
  intros Hall. rewrite !AssemblyFacts.create_program_content_md_spec.
  rewrite (AssemblyMore.all_have_content_more _ _ more Hall), Hall.
  f_equal. f_equal. apply map_ext_in. intros m Hm.
  unfold spec_block, body_of.
  rewrite AssemblyMore.next_content_app; [reflexivity|].
  now apply (AssemblyMore.ordered_have_content sections).
Qed.

Lemma X6_witness :
  create_program_content_md
    (sorted sec_order (prog_sections Fixtures.course))
    (Fixtures.course_content ++ [mk_content 11 "# another page"])
  = Ok Fixtures.course_md.
Proof.
  rewrite X6_first_content_entry_wins; reflexivity.
Defined.

(** X7: when no material of a program has its id among the longread ids,
    [filter_longreads] empties every section and the document is the empty
    string, whatever contents were fetched: nothing is looked up and nothing
    raises. *)
Theorem X7_no_longread_no_text (p : program) (longreads_ids : list Z)
        (longreads_content : list longread_content) :
  (forall m, In m (all_materials p) -> ~ In (mat_id m) longreads_ids) ->
  let kept := filter_longreads p longreads_ids in
  Forall (fun s => sec_materials s = []) (prog_sections kept)
  /\ create_program_content_md (sorted sec_order (prog_sections kept))
                               longreads_content
     = Ok EmptyString.
Proof.
  intros Hnone kept.
  assert (Hempty : Forall (fun s => sec_materials s = [])
                          (prog_sections kept)).
  { unfold kept, filter_longreads. simpl. apply Forall_map, Forall_forall.
    intros s Hs. simpl. apply AssemblyMore.filter_none. intros m Hm.
    destruct (id_in longreads_ids (mat_id m)) eqn:E; [|reflexivity].
    apply LongreadFacts.id_in_In in E. exfalso.
    apply (Hnone m); [|exact E].
    unfold all_materials. apply in_flat_map. eauto. }
  split; [exact Hempty|].
  assert (Hsorted : Forall (fun s => sec_materials s = [])
                           (sorted sec_order (prog_sections kept))).
  { eapply Permutation_Forall; [apply sorted_perm | exact Hempty]. }
  rewrite AssemblyFacts.create_program_content_md_spec.
  clear Hempty. induction Hsorted as [|s ss Hs _ IH]; [reflexivity|].
  unfold all_have_content, materials_in_order in *. simpl.
  rewrite Hs. simpl. exact IH.
Qed.

Lemma X7_witness :
  create_program_content_md
    (sorted sec_order
            (prog_sections (filter_longreads Fixtures.course [7; 100])))
    []
  = Ok EmptyString.
Proof.
  apply (X7_no_longread_no_text Fixtures.course [7; 100] []).
  intros m Hm Hin. simpl in Hm, Hin.
  repeat match goal with
         | H : _ \/ _ |- _ => destruct H as [H|H]
         | H : False |- _ => destruct H
         end; subst; simpl in *; lia.
Defined.

(** X8: [filter_longreads] applied twice with the same ids is
    [filter_longreads] applied once, two filters may be applied in either
    order, and a program all of whose materials are listed is returned as it
    is. *)
Theorem X8_filter_longreads_algebra (p : program) (ids ids' : list Z) :
  filter_longreads (filter_longreads p ids) ids = filter_longreads p ids
  /\ filter_longreads (filter_longreads p ids) ids'
     = filter_longreads (filter_longreads p ids') ids
  /\ ((forall m, In m (all_materials p) -> In (mat_id m) ids) ->
      filter_longreads p ids = p).
Proof.
  unfold filter_longreads. simpl. split; [|split].
  - f_equal. rewrite map_map. apply map_ext. intros s. simpl.
    now rewrite AssemblyMore.filter_twice.
  - f_equal. rewrite !map_map. apply map_ext. intros s. simpl.
    now rewrite AssemblyMore.filter_swap.
  - intros Hall. destruct p as [name sections order]. simpl in *. f_equal.
    rewrite <- (map_id sections) at 2. apply map_ext_in.
    intros s Hs. destruct s as [sid sname sorder materials]. simpl. f_equal.
    apply AssemblyMore.filter_all. intros m Hm.
    apply LongreadFacts.id_in_In, Hall. unfold all_materials. simpl.
    apply in_flat_map. exists (mk_section sid sname sorder materials).
    split; [exact Hs | exact Hm].
Qed.

(* ================================================================= *)
(** ** More on the paginated loops *)

Module LoopMore.
Import RunFacts FetchFacts.

Section Loop.
Context {S Items : Type}.
Variable srv : server.
Variable mk_req : Z -> request.
Variables msg key : string.
Variable extract : payload -> option (list Items * Z).
Variable merge : S -> list Items -> S.
Variable body : Z -> S -> M (S * Z).

Hypothesis body_shape : forall page st w,
  body page st w = page_body srv mk_req msg extract key merge page st w.

(** The loop body runs before the page count is looked at. *)
Lemma loop_single fuel st w items n :
  n <= 1 -> (1 <= fuel)%nat ->
  first_reply srv mk_req extract w items n ->
  while_has_next fuel body 1 st w
  = (Returns (merge st items),
     mk_world (trace w ++ [(mk_req 1, srv (map fst (trace w)) (mk_req 1))])
              (disk w)).
Proof.
  intros Hn Hfuel (status & p & Hr & Hs & Hex).
  destruct fuel as [|fuel]; [lia|].
  cbn [while_has_next]. unfold bind.
  rewrite (body_run srv mk_req msg key extract merge body body_shape).
  rewrite Hr, Hs, Hex.
  assert (Hlt : (1 <? n) = false) by (apply Z.ltb_ge; lia).
  now rewrite Hlt.
Qed.

(** Nothing but the page count ends the loop. *)
Lemma loop_endless :
  always_more srv mk_req extract ->
  forall fuel page st w,
  let run := while_has_next fuel body page st w in
  fst run = Running
  /\ map fst (trace (snd run))
     = map fst (trace w) ++ map mk_req (pages_from page fuel)
  /\ disk (snd run) = disk w.
Proof.
  intros Hsrv. induction fuel as [|fuel IH]; intros page st w; cbv zeta.
  - simpl. now rewrite app_nil_r.
  - cbn [while_has_next pages_from map]. unfold bind.
    rewrite (body_run srv mk_req msg key extract merge body body_shape).
    destruct (Hsrv (map fst (trace w)) page)
      as (status & p & items & n & Hr & Hs & Hex & Hlt).
    rewrite Hr, Hs, Hex.
    apply Z.ltb_lt in Hlt. rewrite Hlt.
    destruct (IH (page + 1) (merge st items)
                 (mk_world (trace w ++ [(mk_req page, Response status p)])
                           (disk w)))
      as (Hout & Htr & Hdisk).
    split; [exact Hout|]. split; [|exact Hdisk].
    rewrite Htr. cbn [trace]. rewrite map_app. cbn [map fst].
    now rewrite <- List.app_assoc.
Qed.

End Loop.

End LoopMore.

(** X9: each paginated loop asks for page 1 before it looks at a page count:
    when the reply to that request reports one page, none, or a negative
    count, the fetch returns the items of that reply after this one
    request. *)
Theorem X9_first_page_is_always_fetched (srv : server) (MODULE_ID : string)
        (fuel : nat) (w : world) (n : Z) :
  n <= 1 -> (1 <= fuel)%nat ->
  (forall items,
      let mk_req := learning_programs_request MODULE_ID in
      first_reply srv mk_req extract_programs w items n ->
      get_learning_programs srv MODULE_ID fuel w
      = (Returns (store_programs [] items),
         mk_world (trace w ++ [(mk_req 1, srv (map fst (trace w)) (mk_req 1))])
                  (disk w)))
  /\ (forall p items,
      let mk_req := materials_request (material_ids p) in
      first_reply srv mk_req extract_materials w items n ->
      get_longread_ids srv p fuel w
      = (Returns (map tm_id (filter is_longread items)),
         mk_world (trace w ++ [(mk_req 1, srv (map fst (trace w)) (mk_req 1))])
                  (disk w)))
  /\ (forall longreads_ids items,
      let mk_req := titles_request longreads_ids in
      first_reply srv mk_req extract_titles w items n ->
      get_longreads_uuids srv longreads_ids fuel w
      = (Returns (map longread_of_title items),
         mk_world (trace w ++ [(mk_req 1, srv (map fst (trace w)) (mk_req 1))])
                  (disk w))).
Proof.
  intros Hn Hfuel. split; [|split].
  - intros items mk_req Hfirst. unfold get_learning_programs.
    exact (LoopMore.loop_single srv mk_req programs_msg "learning_programs"
             extract_programs store_programs _
             (FetchFacts.programs_shape srv MODULE_ID)
             fuel [] w items n Hn Hfuel Hfirst).
  - intros p items mk_req Hfirst. unfold get_longread_ids.
    exact (LoopMore.loop_single srv mk_req ids_msg "materials"
             extract_materials add_ids _
             (FetchFacts.ids_shape srv (material_ids p))
             fuel [] w items n Hn Hfuel Hfirst).
  - intros ids items mk_req Hfirst. unfold get_longreads_uuids.
    exact (LoopMore.loop_single srv mk_req uuids_msg "page_titles"
             extract_titles add_longreads _
             (FetchFacts.uuids_shape srv ids)
             fuel [] w items n Hn Hfuel Hfirst).
Qed.

Lemma X9_witness :
  let run := get_learning_programs MoreFixtures.zero_pages_host "42" 3
                                   initial_world in
  fst run = Returns [program_entry Fixtures.alpha]
  /\ map fst (trace (snd run)) = [learning_programs_request "42" 1].
Proof.
  destruct (X9_first_page_is_always_fetched
              MoreFixtures.zero_pages_host "42" 3 initial_world 0)
    as (Hprograms & _); [lia | lia |].
  cbv zeta. rewrite (Hprograms [Fixtures.alpha]).
  - split; reflexivity.
  - exists 200, (LearningPrograms [Fixtures.alpha] 0). repeat split.
Defined.

(** X10: the loops have no bound of their own. Against a host that reports,
    in every reply, more pages than the page asked for, a fetch is still
    running after any number of iterations: it has asked for one page after
    the other, has not returned and has not touched the disk. *)
Theorem X10_no_bound_on_pages (srv : server) (MODULE_ID : string)
        (fuel : nat) (w : world) :
  (let mk_req := learning_programs_request MODULE_ID in
   always_more srv mk_req extract_programs ->
   let run := get_learning_programs srv MODULE_ID fuel w in
   fst run = Running
   /\ map fst (trace (snd run))
      = map fst (trace w) ++ map mk_req (pages_from 1 fuel)
   /\ disk (snd run) = disk w)
  /\ (forall p,
      let mk_req := materials_request (material_ids p) in
      always_more srv mk_req extract_materials ->
      let run := get_longread_ids srv p fuel w in
      fst run = Running
      /\ map fst (trace (snd run))
         = map fst (trace w) ++ map mk_req (pages_from 1 fuel)
      /\ disk (snd run) = disk w)
  /\ (forall longreads_ids,
      let mk_req := titles_request longreads_ids in
      always_more srv mk_req extract_titles ->
      let run := get_longreads_uuids srv longreads_ids fuel w in
      fst run = Running
      /\ map fst (trace (snd run))
         = map fst (trace w) ++ map mk_req (pages_from 1 fuel)
      /\ disk (snd run) = disk w).
Proof.
  split; [|split].
  - intros mk_req Hsrv. unfold get_learning_programs.
    exact (LoopMore.loop_endless srv mk_req programs_msg "learning_programs"
             extract_programs store_programs _
             (FetchFacts.programs_shape srv MODULE_ID) Hsrv fuel 1 [] w).
  - intros p mk_req Hsrv. unfold get_longread_ids.
    exact (LoopMore.loop_endless srv mk_req ids_msg "materials"
             extract_materials add_ids _
             (FetchFacts.ids_shape srv (material_ids p)) Hsrv fuel 1 [] w).
  - intros ids mk_req Hsrv. unfold get_longreads_uuids.
    exact (LoopMore.loop_endless srv mk_req uuids_msg "page_titles"
             extract_titles add_longreads _
             (FetchFacts.uuids_shape srv ids) Hsrv fuel 1 [] w).
Qed.

Lemma X10_witness :
  let run := get_learning_programs MoreFixtures.endless_host "42" 7
                                   initial_world in
  fst run = Running
  /\ map (fun r => page_of r) (map fst (trace (snd run)))
     = [Some 1; Some 2; Some 3; Some 4; Some 5; Some 6; Some 7].
Proof.
  destruct (X10_no_bound_on_pages MoreFixtures.endless_host "42" 7
                                  initial_world)
    as (Hprograms & _).
  destruct Hprograms as (Hout & Htr & _).
  - intros hist page.
    exists 200, (LearningPrograms [] (page + 1)), [], (page + 1).
    repeat split. lia.
  - cbv zeta. split; [exact Hout|]. rewrite Htr. reflexivity.
Defined.

(* ================================================================= *)
(** ** More on [main] *)

Module MainMore.
Import RunFacts FetchFacts DictFacts DiskFacts.

(** *** Requests stop at the first failure, in any composition *)

Lemma fs_quiet {A} (m : M A) :
  (forall w, trace (snd (m w)) = trace w
             /\ forall msg e, fst (m w) <> SystemExit msg e) ->
  fail_stopping m.
Proof.
  intros H w out w' Hrun. destruct (H w) as [Htr Hout].
  rewrite Hrun in Htr, Hout. simpl in Htr, Hout.
  exists []. split; [now rewrite app_nil_r|].
  destruct out; simpl; try constructor. now destruct (Hout msg e).
Qed.

Lemma fs_ret {A} (a : A) : fail_stopping (ret a).
Proof. apply fs_quiet. intros w. split; [reflexivity | discriminate]. Qed.

Lemma fs_raise {A} e : fail_stopping (@raise A e).
Proof. apply fs_quiet. intros w. split; [reflexivity | discriminate]. Qed.

Lemma fs_lift {A} (r : result A) : fail_stopping (lift r).
Proof. destruct r; [apply fs_ret | apply fs_raise]. Qed.

Lemma fs_mkdir path : fail_stopping (mkdir path).
Proof. apply fs_quiet. intros w. split; [reflexivity | discriminate]. Qed.

Lemma fs_write_file path content : fail_stopping (write_file path content).
Proof. apply fs_quiet. intros w. split; [reflexivity | discriminate]. Qed.

Lemma fs_pdfkit render input output :
  fail_stopping (pdfkit_from_file render input output).
Proof.
  apply fs_quiet. intros w. unfold pdfkit_from_file.
  destruct (last_written input (disk w));
    (split; [reflexivity | discriminate]).
Qed.

Lemma aborts_app {A} (out : outcome A) evs1 evs2 :
  Forall went_through evs1 -> aborts_at_failure out evs2 ->
  aborts_at_failure out (evs1 ++ evs2).
Proof.
  intros H1. destruct out; simpl; try (intros H2; now apply Forall_app).
  intros (pre & ev & -> & Hpre & Hev & He).
  exists (evs1 ++ pre), ev. rewrite List.app_assoc.
  repeat split; auto. now apply Forall_app.
Qed.

Lemma fs_bind {A B} (m : M A) (k : A -> M B) :
  fail_stopping m -> (forall a, fail_stopping (k a)) ->
  fail_stopping (bind m k).
Proof.
  intros Hm Hk w out w' Hrun. rewrite bind_run in Hrun.
  destruct (m w) as [[a|msg e|e|] w1] eqn:E1;
    destruct (Hm w _ w1 E1) as (evs1 & Htr1 & Hab1).
  - destruct (Hk a w1 out w' Hrun) as (evs2 & Htr2 & Hab2).
    exists (evs1 ++ evs2). split.
    + now rewrite Htr2, Htr1, List.app_assoc.
    + now apply aborts_app.
  - injection Hrun as <- <-. exists evs1. split; [exact Htr1 | exact Hab1].
  - injection Hrun as <- <-. exists evs1. split; [exact Htr1 | exact Hab1].
  - injection Hrun as <- <-. exists evs1. split; [exact Htr1 | exact Hab1].
Qed.

Lemma fs_for_each {A S} (body : S -> A -> M S) xs :
  (forall st x, fail_stopping (body st x)) ->
  forall st, fail_stopping (for_each xs body st).
Proof.
  intros Hbody. induction xs as [|x xs IH]; intros st; simpl.
  - apply fs_ret.
  - apply fs_bind; [apply Hbody | exact IH].
Qed.

Lemma fs_loop {S Items} srv mk_req msg key
      (extract : payload -> option (list Items * Z))
      (merge : S -> list Items -> S) body fuel page st :
  (forall page st w,
      body page st w = page_body srv mk_req msg extract key merge page st w) ->
  (forall status p items n,
      extract p = Some (items, n) ->
      pages_count_of (Response status p) = Some n) ->
  fail_stopping (while_has_next fuel body page st).
Proof.
  intros Hbody Hcount w out w' Hrun.
  destruct (loop_run srv mk_req msg key extract merge body Hbody Hcount
              fuel page st w out w' Hrun)
    as (_ & evs & Htr & _ & Hfs & Hmsg & _).
  exists evs. split; [exact Htr|].
  destruct out as [a|m e|e|]; simpl in *; try exact Hfs.
  destruct Hfs as (pre & ev & Heq & Hpre & Hev).
  exists pre, ev. repeat split; auto.
  destruct (Hmsg m e eq_refl) as [_ He]. apply He; [|exact Hev].
  rewrite Heq. apply in_or_app. right. now left.
Qed.

Lemma fs_content srv l : fail_stopping (get_longread_content srv l).
Proof.
  intros w out w' Hrun. destruct (content_run srv l w) as [Hw Hout].
  rewrite Hrun in Hw, Hout. simpl in Hw, Hout. subst w'.
  exists [(page_request l, srv (map fst (trace w)) (page_request l))].
  split; [reflexivity|]. rewrite Hout.
  destruct (srv (map fst (trace w)) (page_request l)) as [d|status p] eqn:Er.
  - exists [], (page_request l, Fails d). repeat split. constructor.
  - destruct (error_status status) eqn:Es.
    + exists [], (page_request l, Response status p).
      repeat split; [constructor | exact Es].
    + assert (Hok : Forall went_through [(page_request l, Response status p)])
        by (repeat constructor; exact Es).
      destruct p; exact Hok.
Qed.

Lemma fs_process srv san mdr pdfr fuel programs id :
  fail_stopping (process_program srv san mdr pdfr fuel programs id).
Proof.
  unfold process_program.
  destruct (dict_get id programs) as [p|]; [|apply fs_raise].
  apply fs_bind.
  { unfold get_longread_ids.
    eapply fs_loop; [apply ids_shape | apply materials_count]. }
  intros ids. apply fs_bind.
  { unfold get_longreads_uuids.
    eapply fs_loop; [apply uuids_shape | apply titles_count]. }
  intros longreads. apply fs_bind.
  { apply fs_for_each. intros st l.
    apply fs_bind; [apply fs_content | intros; apply fs_ret]. }
  intros lcs. cbv zeta.
  apply fs_bind; [apply fs_lift | intros md].
  apply fs_bind; [apply fs_mkdir | intros _].
  apply fs_bind; [apply fs_write_file | intros _].
  apply fs_bind; [apply fs_mkdir | intros _].
  apply fs_bind; [apply fs_write_file | intros _].
  apply fs_bind; [apply fs_mkdir | intros _].
  apply fs_bind; [apply fs_pdfkit | intros _].
  apply fs_ret.
Qed.

Lemma fs_main srv mid san mdr pdfr fuel :
  fail_stopping (main srv mid san mdr pdfr fuel).
Proof.
  unfold main. apply fs_bind.
  { unfold get_learning_programs.
    eapply fs_loop; [apply programs_shape | apply programs_count]. }
  intros programs. apply fs_bind; [|intros; apply fs_ret].
  apply fs_for_each. intros st id. apply fs_process.
Qed.

Lemma aborts_last {A} (out : outcome A) evs pre req r post :
  aborts_at_failure out evs ->
  evs = pre ++ (req, r) :: post -> failed r = true ->
  post = [] /\ exists msg, out = SystemExit msg (exception_of r).
Proof.
  intros Hab -> Hfail.
  assert (Hno : forall l, Forall went_through l -> ~ In (req, r) l).
  { intros l Hl Hin. rewrite Forall_forall in Hl.
    specialize (Hl _ Hin). unfold went_through in Hl. simpl in Hl. congruence. }
  destruct out as [a|m e|e|]; simpl in Hab;
    try (exfalso; apply (Hno _ Hab), in_elt).
  destruct Hab as (pre' & last & Heq & Hpre & Hlast & He).
  destruct post as [|x post].
  - apply app_inj_tail in Heq. destruct Heq as [_ <-].
    split; [reflexivity|]. exists m. now rewrite He.
  - exfalso. apply (Hno pre' Hpre).
    assert (Hin : In (req, r) (removelast (pre ++ (req, r) :: x :: post))).
    { rewrite removelast_app by discriminate. apply in_or_app. right.
      simpl. now left. }
    rewrite Heq, removelast_last in Hin. exact Hin.
Qed.

(** *** The loop over the longreads *)

Lemma fetch_contents_run srv longreads :
  forall st w lcs w',
  for_each longreads
    (fun longreads_content l =>
       bind (get_longread_content srv l) (fun content =>
         ret (longreads_content ++ [mk_content (lr_id l) content])))
    st w = (Returns lcs, w') ->
  disk w' = disk w
  /\ exists new evs,
       lcs = st ++ new
       /\ trace w' = trace w ++ evs
       /\ map lc_id new = map lr_id longreads
       /\ map fst evs = map page_request longreads
       /\ map body_of_reply (map snd evs) = map Some (map lc_content new)
       /\ Forall went_through evs.
Proof.
  induction longreads as [|l ls IH]; intros st w lcs w' Hrun.
  - injection Hrun as <- <-. split; [reflexivity|].
    exists [], []. rewrite !app_nil_r. repeat split. constructor.
  - simpl in Hrun. rewrite !bind_run in Hrun.
    destruct (content_run srv l w) as [Hw Hout].
    destruct (get_longread_content srv l w) as [[c|m e|e|] w1];
      try discriminate.
    simpl in Hw, Hout. unfold ret in Hrun. apply IH in Hrun.
    destruct Hrun as (Hdisk & new & evs & -> & Htr & Hids & Hreqs & Hbodies & Hok).
    subst w1. simpl in Hdisk, Htr. split; [exact Hdisk|].
    exists (mk_content (lr_id l) c :: new),
           ((page_request l, srv (map fst (trace w)) (page_request l)) :: evs).
    split; [now rewrite <- List.app_assoc|].
    split; [now rewrite Htr, <- List.app_assoc|].
    split; [simpl; now rewrite Hids|].
    split; [simpl; now rewrite Hreqs|].
    destruct (srv (map fst (trace w)) (page_request l)) as [d|status p];
      [discriminate|].
    destruct (error_status status) eqn:Es; [discriminate|].
    destruct p; try discriminate. injection Hout as <-.
    split; [simpl; now rewrite Hbodies|].
    constructor; [exact Es | exact Hok].
Qed.

(** *** One program, all the way *)

Lemma process_program_returns srv san mdr pdfr fuel programs id w programs' w' :
  process_program srv san mdr pdfr fuel programs id w = (Returns programs', w') ->
  exists p ids longreads lcs doc w1 w2 w3,
    dict_get id programs = Some p
    /\ get_longread_ids srv p fuel w = (Returns ids, w1)
    /\ get_longreads_uuids srv ids fuel w1 = (Returns longreads, w2)
    /\ fetch_contents srv longreads w2 = (Returns lcs, w3)
    /\ create_program_content_md
         (sorted sec_order (prog_sections (filter_longreads p ids))) lcs
       = Ok doc
    /\ programs' = dict_set id (filter_longreads p ids) programs
    /\ trace w' = trace w3
    /\ disk w' = disk w ++ program_files mdr pdfr (san (prog_name p))
                                         (with_toc doc).
Proof.
  unfold process_program, fetch_contents.
  destruct (dict_get id programs) as [p|] eqn:Hget; [|discriminate].
  rewrite bind_run.
  destruct (get_longread_ids srv p fuel w) as [[ids|m e|e|] w1] eqn:E1;
    try discriminate.
  rewrite bind_run.
  destruct (get_longreads_uuids srv ids fuel w1)
    as [[longreads|m e|e|] w2] eqn:E2; try discriminate.
  rewrite bind_run.
  match goal with
  | |- context [for_each longreads ?f ?st w2] =>
      destruct (for_each longreads f st w2) as [[lcs|m e|e|] w3] eqn:E3
  end; try discriminate.
  rewrite bind_run.
  destruct (create_program_content_md
              (sorted sec_order (prog_sections (filter_longreads p ids))) lcs)
    as [doc|e] eqn:Edoc; [|discriminate].
  unfold lift, ret, bind, mkdir, write_file, pdfkit_from_file.
  cbn [disk trace].
  rewrite !last_written_app. cbn [last_written].
  rewrite String.eqb_refl.
  unfold write_file. cbn [disk trace].
  intros H. injection H as <- <-.
  exists p, ids, longreads, lcs, doc, w1, w2, w3.
  split; [reflexivity|]. split; [exact E1|]. split; [exact E2|].
  split; [exact E3|]. split; [exact Edoc|].
  split; [reflexivity|]. split; [reflexivity|].
  apply ids_disk in E1. apply uuids_disk in E2. apply contents_disk in E3.
  cbn [disk]. rewrite <- !List.app_assoc.
  replace (disk w3) with (disk w) by congruence. reflexivity.
Qed.

Lemma In_keys_get {V} (d : dict V) k v :
  dict_get k d = Some v -> existsb (fun k' => k' =? k) (dict_keys d) = true.
Proof.
  induction d as [|[k' v'] d IH]; simpl; [discriminate|].
  destruct (k' =? k); simpl; [reflexivity | exact IH].
Qed.

End MainMore.

(** X11: in a whole run of [main], whatever the host, a request that fails
    is the last request of the run: [main] ends there with [SystemExit] and
    the exception of that request, and asks nothing more, be it a second try,
    the next page, the next longread or the next program. *)
Theorem X11_main_stops_at_first_failure (srv : server) (MODULE_ID : string)
        (sanitize_filename markdown_markdown pdfkit_render : string -> string)
        (fuel : nat) (w : world) :
  let run := main srv MODULE_ID sanitize_filename markdown_markdown
                  pdfkit_render fuel w in
  exists evs,
    trace (snd run) = trace w ++ evs
    /\ forall pre req r post,
         evs = pre ++ (req, r) :: post -> failed r = true ->
         post = [] /\ exists msg, fst run = SystemExit msg (exception_of r).
Proof.
  cbv zeta.
  destruct (main srv MODULE_ID sanitize_filename markdown_markdown
                 pdfkit_render fuel w) as [out w'] eqn:Hrun.
  destruct (MainMore.fs_main srv MODULE_ID sanitize_filename markdown_markdown
              pdfkit_render fuel w out w' Hrun) as (evs & Htr & Hab).
  exists evs. split; [exact Htr|].
  intros pre req r post Heq Hfail.
  exact (MainMore.aborts_last out evs pre req r post Hab Heq Hfail).
Qed.

(** The run against the fixture host whose longread pages cannot be read:
    the fifth request, the first for a page, is the last. *)
Lemma X11_witness :
  let run := Fixtures.run_main MoreFixtures.unreadable_host in
  List.length (trace (snd run)) = 5%nat
  /\ exists msg, fst run = SystemExit msg (HTTPError 503).
Proof.
  cbv zeta. split; [reflexivity|].
  destruct (X11_main_stops_at_first_failure
              MoreFixtures.unreadable_host "42" Fixtures.plain_name
              Fixtures.to_html Fixtures.to_pdf 5 initial_world)
    as (evs & Htr & Hstop).
  change (trace initial_world ++ evs) with evs in Htr.
  destruct (Hstop (removelast evs)
                  (page_request (mk_longread 100 "p1"))
                  (Response 503 (Page "")) [])
    as [_ Hout].
  - rewrite <- Htr. reflexivity.
  - reflexivity.
  - exact Hout.
Defined.

(** X12: a pass of the loop of [main] that completes for a program has
    fetched the longread ids, the page titles and the pages in this order,
    has assembled the document of the kept longreads from the fetched pages,
    and has done to the disk exactly this: the Markdown file holds
    ['[TOC] \n\n'] and the document, the HTML file the rendering of that
    Markdown, and the PDF file the rendering of that HTML, each after the
    [mkdir] of its directory. *)
Theorem X12_files_of_a_program (srv : server)
        (sanitize_filename markdown_markdown pdfkit_render : string -> string)
        (fuel : nat) (programs programs' : dict program) (program_id : Z)
        (w w' : world) :
  process_program srv sanitize_filename markdown_markdown pdfkit_render
                  fuel programs program_id w
  = (Returns programs', w') ->
  exists p ids longreads lcs doc w1 w2 w3,
    dict_get program_id programs = Some p
    /\ get_longread_ids srv p fuel w = (Returns ids, w1)
    /\ get_longreads_uuids srv ids fuel w1 = (Returns longreads, w2)
    /\ fetch_contents srv longreads w2 = (Returns lcs, w3)
    /\ create_program_content_md
         (sorted sec_order (prog_sections (filter_longreads p ids))) lcs
       = Ok doc
    /\ programs' = dict_set program_id (filter_longreads p ids) programs
    /\ trace w' = trace w3
    /\ disk w'
       = disk w ++ program_files markdown_markdown pdfkit_render
                                 (sanitize_filename (prog_name p))
                                 (with_toc doc).
Proof. apply MainMore.process_program_returns. Qed.

Lemma X12_witness :
  let run := process_program (Fixtures.host []) Fixtures.plain_name
               Fixtures.to_html Fixtures.to_pdf 5
               [program_entry Fixtures.alpha] 1 initial_world in
  exists doc,
    disk (snd run)
    = program_files Fixtures.to_html Fixtures.to_pdf "Alpha" (with_toc doc).
Proof.
  cbv zeta.
  destruct (X12_files_of_a_program
              (Fixtures.host []) Fixtures.plain_name Fixtures.to_html
              Fixtures.to_pdf 5 [program_entry Fixtures.alpha]
              [(1, filter_longreads (extract_program Fixtures.alpha) [100])]
              1 initial_world
              (snd (process_program (Fixtures.host []) Fixtures.plain_name
                      Fixtures.to_html Fixtures.to_pdf 5
                      [program_entry Fixtures.alpha] 1 initial_world))
              eq_refl)
    as (p & ids & longreads & lcs & doc & w1 & w2 & w3
        & Hget & _ & _ & _ & _ & _ & _ & Hdisk).
  injection Hget as <-. exists doc. exact Hdisk.
Defined.

(** X13: assigning [programs[program_id]] inside the loop over [programs]
    does not disturb the loop: after a pass the dictionary has the same ids
    in the same order, the entries of the other programs are untouched and
    every program keeps its name. *)
Theorem X13_loop_keeps_the_programs (srv : server)
        (sanitize_filename markdown_markdown pdfkit_render : string -> string)
        (fuel : nat) (programs programs' : dict program) (program_id : Z)
        (w w' : world) :
  process_program srv sanitize_filename markdown_markdown pdfkit_render
                  fuel programs program_id w
  = (Returns programs', w') ->
  dict_keys programs' = dict_keys programs
  /\ (forall id, id <> program_id ->
                 dict_get id programs' = dict_get id programs)
  /\ (forall id, program_name_of programs' id = program_name_of programs id).
Proof.
  intros Hrun.
  destruct (MainMore.process_program_returns _ _ _ _ _ _ _ _ _ _ Hrun)
    as (p & ids & _ & _ & _ & _ & _ & _ & Hget & _ & _ & _ & _ & -> & _ & _).
  split; [|split].
  - rewrite DictFacts.dict_keys_set.
    now rewrite (MainMore.In_keys_get programs program_id p Hget).
  - intros id Hne. now apply DictFacts.dict_get_set_other.
  - apply (DiskFacts.name_after_set programs program_id p);
      [exact Hget | reflexivity].
Qed.

Lemma X13_witness :
  let run := process_program (Fixtures.host []) Fixtures.plain_name
               Fixtures.to_html Fixtures.to_pdf 5
               [program_entry Fixtures.alpha; program_entry Fixtures.beta] 2
               initial_world in
  let programs' := [ program_entry Fixtures.alpha;
                     (2, filter_longreads (extract_program Fixtures.beta)
                                          [200]) ] in
  fst run = Returns programs'
  /\ dict_keys programs' = [1; 2]
  /\ dict_get 1 programs' = Some (extract_program Fixtures.alpha).
Proof.
  cbv zeta. split; [reflexivity|].
  destruct (X13_loop_keeps_the_programs
              (Fixtures.host []) Fixtures.plain_name Fixtures.to_html
              Fixtures.to_pdf 5
              [program_entry Fixtures.alpha; program_entry Fixtures.beta]
              [ program_entry Fixtures.alpha;
                (2, filter_longreads (extract_program Fixtures.beta) [200]) ]
              2 initial_world
              (snd (process_program (Fixtures.host []) Fixtures.plain_name
                      Fixtures.to_html Fixtures.to_pdf 5
                      [program_entry Fixtures.alpha;
                       program_entry Fixtures.beta] 2 initial_world))
              eq_refl)
    as (Hkeys & Hother & _).
  split; [exact Hkeys|]. rewrite Hother by lia. reflexivity.
Defined.

(** X14: a run of [main] that returns has written, for every program of the
    listing and in the order of the listing, its .md, .htm and .pdf file,
    and no other file: three files per program. *)
Theorem X14_completed_run_writes_every_program (srv : server)
        (MODULE_ID : string)
        (sanitize_filename markdown_markdown pdfkit_render : string -> string)
        (fuel : nat) (w w' : world) :
  main srv MODULE_ID sanitize_filename markdown_markdown pdfkit_render fuel w
  = (Returns tt, w') ->
  exists programs,
    fst (get_learning_programs srv MODULE_ID fuel w) = Returns programs
    /\ written_paths (disk w')
       = written_paths (disk w)
         ++ files_of sanitize_filename programs (dict_keys programs)
    /\ List.length (written_paths (disk w'))
       = (List.length (written_paths (disk w))
          + 3 * List.length programs)%nat.
Proof.
  unfold main. rewrite DiskFacts.bind_run.
  destruct (get_learning_programs srv MODULE_ID fuel w)
    as [[programs|m1 e1|e1|] w1] eqn:E1; try discriminate.
  apply DiskFacts.programs_disk in E1. rewrite DiskFacts.bind_run.
  destruct (for_each (dict_keys programs) _ programs w1)
    as [[programs'|m2 e2|e2|] w2] eqn:E2; try discriminate.
  intros H. injection H as <-.
  apply DiskFacts.for_each_program_disk in E2.
  exists programs. split; [reflexivity|].
  assert (Hfiles : written_paths (disk w2)
                   = written_paths (disk w)
                     ++ files_of sanitize_filename programs
                                 (dict_keys programs))
    by now rewrite E2, E1.
  split; [exact Hfiles|].
  rewrite Hfiles, length_app. f_equal.
  unfold files_of, dict_keys. rewrite <- (length_map fst programs).
  generalize (map fst programs) as ids. clear.
  induction ids as [|id ids IH]; [reflexivity|].
  simpl in *. rewrite IH. lia.
Qed.

Lemma X14_witness :
  let run := Fixtures.run_main (Fixtures.host []) in
  fst run = Returns tt
  /\ written_paths (disk (snd run))
     = [ "output/md/Alpha.md"; "output/html/Alpha.htm"; "output/pdf/Alpha.pdf";
         "output/md/Beta.md"; "output/html/Beta.htm"; "output/pdf/Beta.pdf"
       ]%string.
Proof.
  cbv zeta. split; [reflexivity|].
  destruct (X14_completed_run_writes_every_program
              (Fixtures.host []) "42" Fixtures.plain_name Fixtures.to_html
              Fixtures.to_pdf 5 initial_world
              (snd (Fixtures.run_main (Fixtures.host []))) eq_refl)
    as (programs & Hprograms & Hfiles & _).
  rewrite Hfiles. injection Hprograms as <-. reflexivity.
Defined.

(** X15: the loop of [main] over the longreads asks for every page title
    once, in the order of the titles, and files each page under the id of its
    longread: when it returns, [longreads_content] has one entry per title,
    in that order, holding the text of the reply; a longread of several pages
    has several entries with the same id. *)
Theorem X15_one_entry_per_page_title (srv : server)
        (longreads : list longread) (w w' : world)
        (lcs : list longread_content) :
  fetch_contents srv longreads w = (Returns lcs, w') ->
  disk w' = disk w
  /\ map lc_id lcs = map lr_id longreads
  /\ exists evs,
       trace w' = trace w ++ evs
       /\ map fst evs = map page_request longreads
       /\ map body_of_reply (map snd evs) = map Some (map lc_content lcs).
Proof.
  intros Hrun. unfold fetch_contents in Hrun.
  destruct (MainMore.fetch_contents_run srv longreads [] w lcs w' Hrun)
    as (Hdisk & new & evs & -> & Htr & Hids & Hreqs & Hbodies & _).
  split; [exact Hdisk|]. split; [exact Hids|].
  exists evs. split; [exact Htr|]. split; [exact Hreqs | exact Hbodies].
Qed.

Lemma X15_witness :
  let run := fetch_contents (Fixtures.host [])
               [mk_longread 100 "p1"; mk_longread 100 "p2";
                mk_longread 102 "p1"]
               initial_world in
  List.length (trace (snd run)) = 3%nat
  /\ map lc_id (match fst run with Returns lcs => lcs | _ => [] end)
     = [100; 100; 102].
Proof.
  cbv zeta. split; [reflexivity|].
  destruct (X15_one_entry_per_page_title
              (Fixtures.host [])
              [mk_longread 100 "p1"; mk_longread 100 "p2";
               mk_longread 102 "p1"]
              initial_world
              (snd (fetch_contents (Fixtures.host [])
                      [mk_longread 100 "p1"; mk_longread 100 "p2";
                       mk_longread 102 "p1"] initial_world))
              (match fst (fetch_contents (Fixtures.host [])
                            [mk_longread 100 "p1"; mk_longread 100 "p2";
                             mk_longread 102 "p1"] initial_world) with
               | Returns lcs => lcs
               | _ => []
               end)
              eq_refl)
    as (_ & Hids & _).
  exact Hids.
Defined.

(** X16: when the host lists a material of the program as a longread but
    reports no page title for it, the pass of [main] for that program raises
    [TypeError] in the assembly, after the three fetches and before anything
    is written: the program gets no file. *)
Theorem X16_longread_without_pages_raises (srv : server)
        (sanitize_filename markdown_markdown pdfkit_render : string -> string)
        (fuel : nat) (programs : dict program) (program_id : Z) (p : program)
        (ids : list Z) (longreads : list longread)
        (lcs : list longread_content) (w w1 w2 w3 : world) :
  dict_get program_id programs = Some p ->
  get_longread_ids srv p fuel w = (Returns ids, w1) ->
  get_longreads_uuids srv ids fuel w1 = (Returns longreads, w2) ->
  fetch_contents srv longreads w2 = (Returns lcs, w3) ->
  (exists m, In m (all_materials p) /\ In (mat_id m) ids
             /\ ~ In (mat_id m) (map lr_id longreads)) ->
  process_program srv sanitize_filename markdown_markdown pdfkit_render
                  fuel programs program_id w
  = (Raises TypeError, w3)
  /\ disk w3 = disk w.
Proof.
  intros Hget E1 E2 E3 (m & Hm & Hid & Hnone).
  assert (Hcreate :
    create_program_content_md
      (sorted sec_order (prog_sections (filter_longreads p ids))) lcs
    = Err TypeError).
  { rewrite AssemblyFacts.create_program_content_md_spec,
            AssemblyFacts.all_have_content_sorted.
    destruct (all_have_content _ lcs) eqn:Hall; [|reflexivity].
    exfalso. apply Hnone.
    apply CoverFacts.all_have_content_covered in Hall.
    assert (Hkept : In m (all_materials (filter_longreads p ids)))
      by (apply LongreadFacts.In_filtered; split; assumption).
    unfold all_materials in Hkept. apply in_flat_map in Hkept.
    destruct Hkept as (s & Hs & Hms).
    destruct (Hall s m Hs Hms) as (x & Hx & Hxid).
    destruct (MainMore.fetch_contents_run srv longreads [] w2 lcs w3 E3)
      as (_ & new & evs & -> & _ & Hids & _).
    simpl in Hx. rewrite <- Hids, <- Hxid. now apply in_map. }
  split.
  - unfold process_program. rewrite Hget.
    rewrite DiskFacts.bind_run, E1, DiskFacts.bind_run, E2, DiskFacts.bind_run.
    unfold fetch_contents in E3. rewrite E3.
    rewrite DiskFacts.bind_run, Hcreate. reflexivity.
  - apply DiskFacts.ids_disk in E1. apply DiskFacts.uuids_disk in E2.
    apply DiskFacts.contents_disk in E3. congruence.
Qed.

Lemma X16_witness :
  let run := process_program MoreFixtures.pageless_host Fixtures.plain_name
               Fixtures.to_html Fixtures.to_pdf 5
               [program_entry Fixtures.alpha] 1 initial_world in
  fst run = Raises TypeError /\ disk (snd run) = [].
Proof.
  cbv zeta.
  pose (w1 := snd (get_longread_ids MoreFixtures.pageless_host
                     (extract_program Fixtures.alpha) 5 initial_world)).
  pose (w2 := snd (get_longreads_uuids MoreFixtures.pageless_host [100] 5 w1)).
  destruct (X16_longread_without_pages_raises
              MoreFixtures.pageless_host Fixtures.plain_name Fixtures.to_html
              Fixtures.to_pdf 5 [program_entry Fixtures.alpha] 1
              (extract_program Fixtures.alpha) [100] [] []
              initial_world w1 w2 w2)
    as [Hrun Hdisk]; try reflexivity.
  - exists (mk_material 100 "Welcome" 1).
    split; [simpl; auto|]. split; [simpl; auto | simpl; tauto].
  - rewrite Hrun. split; [reflexivity | exact Hdisk].
Defined.

(* ================================================================= *)
(** ** More on the order of the document *)

Module OrderMore.

Section Unique.
Context {A : Type} (key : A -> Z).

(** Two ascending arrangements of the same elements, whose keys are all
    different, are the same list. *)
Lemma sorted_unique (l1 : list A) :
  forall l2,
  Permutation l1 l2 -> NoDup (map key l1) ->
  StronglySorted (key_le key) l1 -> StronglySorted (key_le key) l2 ->
  l1 = l2.
Proof.
  induction l1 as [|x l1 IH]; intros l2 Hperm Hnd Hs1 Hs2.
  - apply Permutation_nil in Hperm. now subst.
  - destruct l2 as [|y l2];
      [symmetry in Hperm; now apply Permutation_nil in Hperm|].
    inversion Hs1 as [|? ? Hs1' Hx]; subst.
    inversion Hs2 as [|? ? Hs2' Hy]; subst.
    inversion Hnd as [|? ? Hxk Hnd']; subst.
    assert (Hxy : x = y).
    { assert (Hin_x : In x (y :: l2))
        by (eapply Permutation_in; [exact Hperm | now left]).
      assert (Hin_y : In y (x :: l1))
        by (eapply Permutation_in; [symmetry; exact Hperm | now left]).
      destruct Hin_x as [->|Hin_x]; [reflexivity|].
      destruct Hin_y as [->|Hin_y]; [reflexivity|].
      rewrite Forall_forall in Hx, Hy.
      specialize (Hx y Hin_y). specialize (Hy x Hin_x).
      unfold key_le in Hx, Hy. exfalso. apply Hxk.
      replace (key x) with (key y) by lia. now apply in_map. }
    subst y. f_equal. apply IH; auto.
    now apply Permutation_cons_inv in Hperm.
Qed.

Lemma sorted_of_permutation (l l' : list A) :
  Permutation l l' -> NoDup (map key l) -> sorted key l = sorted key l'.
Proof.
  intros Hperm Hnd. apply sorted_unique.
  - rewrite <- (sorted_perm key l), <- (sorted_perm key l'). exact Hperm.
  - eapply Permutation_NoDup; [|exact Hnd].
    apply Permutation_map, sorted_perm.
  - apply sorted_sorted.
  - apply sorted_sorted.
Qed.

End Unique.

End OrderMore.

(** X18: the document depends on the ['order'] fields and not on the order
    in which the API lists things: for sections whose orders are all
    different, any rearrangement of the list of sections gives the same
    document, and so does any rearrangement of the materials of a section
    whose orders are all different. *)
Theorem X18_listing_order_does_not_matter
        (longreads_content : list longread_content) :
  (forall sections sections',
      Permutation sections sections' ->
      NoDup (map sec_order sections) ->
      create_program_content_md (sorted sec_order sections) longreads_content
      = create_program_content_md (sorted sec_order sections')
                                  longreads_content)
  /\ (forall s materials',
      Permutation (sec_materials s) materials' ->
      NoDup (map mat_order (sec_materials s)) ->
      create_program_content_md [s] longreads_content
      = create_program_content_md
          [mk_section (sec_id s) (sec_name s) (sec_order s) materials']
          longreads_content).
Proof.
  split.
  - intros ss ss' Hperm Hnd.
    now rewrite (OrderMore.sorted_of_permutation sec_order ss ss' Hperm Hnd).
  - intros s materials' Hperm Hnd.
    unfold create_program_content_md. simpl.
    now rewrite (OrderMore.sorted_of_permutation mat_order _ _ Hperm Hnd).
Qed.

(** The sections of the fixture course, listed the other way round. *)
Lemma X18_witness :
  create_program_content_md
    (sorted sec_order (rev (prog_sections Fixtures.course)))
    Fixtures.course_content
  = Ok Fixtures.course_md.
Proof.
  destruct (X18_listing_order_does_not_matter Fixtures.course_content)
    as [Hsections _].
  rewrite <- (Hsections (prog_sections Fixtures.course)
                        (rev (prog_sections Fixtures.course))).
  - reflexivity.
  - apply Permutation_rev.
  - simpl. repeat constructor; simpl; intuition lia.
Defined.

(* ================================================================= *)
(** ** [get_config_data] *)

Module ConfigFacts.

Example get_folds_the_name :
  ConfigFixtures.get ConfigFixtures.plain "e-queo" "AUTH_TOKEN" = Ok "tok".
Proof. reflexivity. Qed.

Example get_missing_option :
  ConfigFixtures.get ConfigFixtures.plain "e-queo" "nope"
  = Err (KeyError "nope").
Proof. reflexivity. Qed.

Example get_missing_section :
  ConfigFixtures.get ConfigFixtures.plain "other" "auth_token"
  = Err (Exception "Section other not found in the config.ini file").
Proof. reflexivity. Qed.

Example get_default_section :
  ConfigFixtures.get ConfigFixtures.inherited "DEFAULT" "auth_token"
  = Err (Exception "Section DEFAULT not found in the config.ini file").
Proof. reflexivity. Qed.

Example get_escaped_percent :
  ConfigFixtures.get ConfigFixtures.percents "e-queo" "rate" = Ok "100%".
Proof. reflexivity. Qed.

Example get_reference :
  ConfigFixtures.get ConfigFixtures.percents "e-queo" "path" = Ok "dir/x%y".
Proof. reflexivity. Qed.

Example get_self_reference :
  ConfigFixtures.get ConfigFixtures.percents "e-queo" "self"
  = Err (InterpolationError InterpolationDepthError).
Proof. reflexivity. Qed.

Example get_first_error :
  ConfigFixtures.get ConfigFixtures.percents "e-queo" "lost"
  = Err (InterpolationError (InterpolationMissingOptionError "zz"))
  /\ ConfigFixtures.get ConfigFixtures.percents "e-queo" "bare"
     = Err (InterpolationError InterpolationSyntaxError).
Proof. split; reflexivity. Qed.

Example get_bad_references :
  ConfigFixtures.get ConfigFixtures.percents "e-queo" "empty"
  = Err (InterpolationError InterpolationSyntaxError)
  /\ ConfigFixtures.get ConfigFixtures.percents "e-queo" "open"
     = Err (InterpolationError InterpolationSyntaxError)
  /\ ConfigFixtures.get ConfigFixtures.percents "e-queo" "kind"
     = Err (InterpolationError InterpolationSyntaxError).
Proof. repeat split; reflexivity. Qed.

Example get_ten_deep :
  ConfigFixtures.get ConfigFixtures.chain "s" "a3" = Ok "end%"
  /\ ConfigFixtures.get ConfigFixtures.chain "s" "a2"
     = Err (InterpolationError InterpolationDepthError).
Proof. split; reflexivity. Qed.

End ConfigFacts.

Module ConfigProofs.

Lemma assoc_In {V} k (v : V) l : assoc k l = Some v -> In (k, v) l.
Proof.
  induction l as [|[k' v'] l IH]; simpl; [discriminate|].
  destruct (String.eqb_spec k' k) as [->|Hne].
  - intros H. injection H as <-. now left.
  - intros H. right. now apply IH.
Qed.

Lemma assoc_None {V} k (l : list (string * V)) :
  assoc k l = None <-> ~ In k (map fst l).
Proof.
  induction l as [|[k' v'] l IH]; simpl; [tauto|].
  destruct (String.eqb_spec k' k) as [->|Hne].
  - split; [discriminate | tauto].
  - rewrite IH. tauto.
Qed.

Lemma distinct_NoDup names : distinct names = true -> NoDup names.
Proof.
  induction names as [|x names IH]; simpl; [constructor|].
  intros H. apply andb_true_iff in H. destruct H as [Hx Hrest].
  constructor; [|now apply IH].
  intros Hin. apply negb_true_iff in Hx.
  assert (Hex : existsb (String.eqb x) names = true).
  { apply existsb_exists. exists x. split; [exact Hin | apply String.eqb_refl]. }
  congruence.
Qed.

Lemma In_assoc {V} k (v : V) l :
  NoDup (map fst l) -> In (k, v) l -> assoc k l = Some v.
Proof.
  induction l as [|[k' v'] l IH]; simpl; intros Hnd Hin; [contradiction|].
  inversion Hnd as [|? ? Hk Hnd']; subst.
  destruct Hin as [Heq|Hin].
  - injection Heq as -> ->. now rewrite String.eqb_refl.
  - destruct (String.eqb_spec k' k) as [->|Hne]; [|now apply IH].
    exfalso. apply Hk. change k with (fst (k, v)). now apply in_map.
Qed.

Lemma has_section_In c section :
  NoDup (map fst (cfg_sections c)) ->
  has_section c section = true
  <-> section <> "DEFAULT"%string /\ In section (map fst (cfg_sections c)).
Proof.
  intros _. unfold has_section.
  destruct (String.eqb_spec section "DEFAULT") as [->|Hne]; simpl.
  - split; [discriminate | tauto].
  - destruct (assoc section (cfg_sections c)) as [opts|] eqn:E.
    + split; [|reflexivity]. intros _. split; [exact Hne|].
      apply assoc_In in E. change section with (fst (section, opts)).
      now apply in_map.
    + apply assoc_None in E. split; [discriminate | tauto].
Qed.

Lemma chain_lookup_stored c section opts key raw :
  NoDup (map fst (cfg_sections c)) ->
  NoDup (map fst opts) -> NoDup (map fst (cfg_defaults c)) ->
  In (section, opts) (cfg_sections c) ->
  stored key raw opts (cfg_defaults c) ->
  chain_lookup c section key = Some raw.
Proof.
  intros Hs Ho Hd Hin Hstored. unfold chain_lookup. cbv zeta.
  unfold options in *.
  rewrite (In_assoc section opts _ Hs Hin).
  destruct Hstored as [Hraw|[Hnone Hraw]].
  - now rewrite (In_assoc key raw _ Ho Hraw).
  - apply assoc_None in Hnone. rewrite Hnone. now apply In_assoc.
Qed.

Section Interpolation.
Variable optionxform : string -> string.

Lemma loop_percent_free deeper map raw :
  percent_free raw ->
  interpolate_loop optionxform deeper map InText raw = Ok raw.
Proof.
  unfold percent_free. induction raw as [|c raw IH]; simpl; intros H;
    [reflexivity|].
  destruct (Ascii.eqb_spec c "%") as [->|Hne]; [tauto|].
  rewrite IH by tauto. reflexivity.
Qed.

Lemma loop_from_interpolation deeper map :
  (forall v, from_interpolation (deeper v)) ->
  forall rest mode,
  from_interpolation (interpolate_loop optionxform deeper map mode rest).
Proof.
  intros Hdeeper.
  assert (Hsyntax : from_interpolation
                      (Err (InterpolationError InterpolationSyntaxError)))
    by (right; eauto).
  assert (Hbind : forall r (f : string -> string),
            from_interpolation r ->
            from_interpolation (result_bind r (fun out => Ok (f out)))).
  { intros r f [[v ->]|[e ->]]; [left | right]; simpl; eauto. }
  induction rest as [|c rest IH]; intros mode; simpl.
  - destruct mode; try exact Hsyntax. left. eauto.
  - destruct mode as [| |name|name].
    + destruct (c =? "%")%char; [apply IH | apply Hbind, IH].
    + destruct (c =? "%")%char; [apply Hbind, IH|].
      destruct (c =? "(")%char; [apply IH | exact Hsyntax].
    + destruct (c =? ")")%char; [|apply IH].
      destruct name; [exact Hsyntax | apply IH].
    + destruct (c =? "s")%char; [|exact Hsyntax].
      destruct (map (optionxform name)) as [v|]; [|right; eauto].
      assert (Hv : from_interpolation
                     (if Str.contains "%" v then deeper v else Ok v))
        by (destruct (Str.contains "%" v); [apply Hdeeper | left; eauto]).
      destruct Hv as [[out ->]|[e ->]]; [|right; simpl; eauto].
      simpl. apply Hbind, IH.
Qed.

Lemma some_from_interpolation budget map :
  forall rest,
  from_interpolation (interpolate_some optionxform budget map rest).
Proof.
  induction budget as [|budget IH]; intros rest; simpl.
  - right. eauto.
  - now apply loop_from_interpolation.
Qed.

Lemma getitem_never_exception c section name msg :
  config_getitem optionxform c section name <> Err (Exception msg).
Proof.
  unfold config_getitem.
  destruct (negb (section =? "DEFAULT")%string && negb (has_section c section));
    [discriminate|].
  destruct (chain_lookup c section (optionxform name)) as [value|];
    [|discriminate].
  destruct (some_from_interpolation MAX_INTERPOLATION_DEPTH
              (chain_lookup c section) value) as [[v ->]|[e ->]];
    discriminate.
Qed.

End Interpolation.

End ConfigProofs.

(** C10 (as amended): [get_config_data] raises its [Exception] ('Section ..
    not found in the .. file') exactly when [has_section] fails, that is
    when the section is [DEFAULT] or the file has no such section. When the
    section is there, the option is looked up under the name in the form
    [optionxform] gives it, in the section and then in [[DEFAULT]]: a value
    found without ['%'] is returned as it is stored, a value with ['%'] is
    returned interpolated or raises an [InterpolationError]; when the name
    is in neither place the [KeyError] of the lookup propagates. In none of
    these cases is the [Exception] raised. *)
Theorem C10_get_config_data (optionxform : string -> string)
        (read : string -> config) (filename section name : string) :
  config_of_dicts (read filename) = true ->
  let c := read filename in
  let result := get_config_data optionxform read filename section name in
  let key := optionxform name in
  (forall msg,
      result = Err (Exception msg)
      <-> msg = ("Section " ++ section ++ " not found in the "
                 ++ filename ++ " file")%string
          /\ (section = "DEFAULT"%string
              \/ ~ In section (map fst (cfg_sections c))))
  /\ (forall opts,
        section <> "DEFAULT"%string -> In (section, opts) (cfg_sections c) ->
        (forall raw, stored key raw opts (cfg_defaults c) ->
                     percent_free raw -> result = Ok raw)
        /\ (forall raw, stored key raw opts (cfg_defaults c) ->
                        from_interpolation result)
        /\ (~ In key (map fst opts) ->
            ~ In key (map fst (cfg_defaults c)) ->
            result = Err (KeyError name))).
Proof.
  intros Hdicts c result key.
  unfold config_of_dicts in Hdicts. fold c in Hdicts.
  apply andb_true_iff in Hdicts. destruct Hdicts as [Hdicts Hoptions].
  apply andb_true_iff in Hdicts. destruct Hdicts as [Hdefaults Hsections].
  apply ConfigProofs.distinct_NoDup in Hdefaults, Hsections.
  rewrite forallb_forall in Hoptions.
  pose proof (ConfigProofs.has_section_In c section Hsections) as Hhas.
  unfold result, get_config_data. fold c.
  split.
  - intros msg. destruct (has_section c section) eqn:E.
    + split.
      * intros H. exfalso.
        destruct (config_getitem optionxform c section name) as [v|e] eqn:Eg;
          [discriminate|].
        simpl in H. injection H as ->.
        exact (ConfigProofs.getitem_never_exception _ _ _ _ _ Eg).
      * intros [_ Hno]. destruct (proj1 Hhas eq_refl) as [Hne Hin]. tauto.
    + split.
      * intros H. injection H as <-. split; [reflexivity|].
        destruct (String.eqb_spec section "DEFAULT") as [->|Hne];
          [now left|]. right. intros Hin.
        assert (Habs : false = true) by (apply Hhas; tauto). discriminate.
      * intros [-> _]. reflexivity.
  - intros opts Hne Hin.
    assert (Hsec : has_section c section = true).
    { apply Hhas. split; [exact Hne|].
      change section with (fst (section, opts)). now apply in_map. }
    assert (Hopts : NoDup (map fst opts)).
    { apply ConfigProofs.distinct_NoDup. exact (Hoptions _ Hin). }
    rewrite Hsec. unfold config_getitem. rewrite Hsec.
    rewrite andb_false_r.
    split; [|split].
    + intros raw Hstored Hfree. fold key.
      rewrite (ConfigProofs.chain_lookup_stored c section opts key raw)
        by assumption.
      unfold MAX_INTERPOLATION_DEPTH. simpl interpolate_some.
      now rewrite ConfigProofs.loop_percent_free.
    + intros raw Hstored. fold key.
      rewrite (ConfigProofs.chain_lookup_stored c section opts key raw)
        by assumption.
      destruct (ConfigProofs.some_from_interpolation optionxform
                  MAX_INTERPOLATION_DEPTH (chain_lookup c section) raw)
        as [[v ->]|[e ->]]; [left | right]; simpl; eauto.
    + intros Hnone Hnodefault. fold key. unfold chain_lookup. cbv zeta.
      unfold options in *.
      rewrite (ConfigProofs.In_assoc section opts _ Hsections Hin).
      apply ConfigProofs.assoc_None in Hnone, Hnodefault.
      now rewrite Hnone, Hnodefault.
Qed.

(** The token asked for in capitals, and an option that is nowhere. *)
Lemma C10_witness :
  ConfigFixtures.get ConfigFixtures.plain "e-queo" "AUTH_TOKEN" = Ok "tok"
  /\ ConfigFixtures.get ConfigFixtures.plain "e-queo" "nope"
     = Err (KeyError "nope").
Proof.
  split.
  - destruct (C10_get_config_data ConfigFixtures.lower
                (fun _ => ConfigFixtures.plain) "config.ini" "e-queo"
                "AUTH_TOKEN" eq_refl) as [_ Hfound].
    destruct (Hfound [ ("auth_token", "tok"); ("module_id", "42") ]%string)
      as (Hvalue & _ & _); [discriminate | simpl; auto |].
    apply (Hvalue "tok"%string).
    + left. simpl. auto.
    + unfold percent_free. simpl. intuition discriminate.
  - destruct (C10_get_config_data ConfigFixtures.lower
                (fun _ => ConfigFixtures.plain) "config.ini" "e-queo"
                "nope" eq_refl) as [_ Hfound].
    destruct (Hfound [ ("auth_token", "tok"); ("module_id", "42") ]%string)
      as (_ & _ & Hmissing); [discriminate | simpl; auto |].
    apply Hmissing; simpl; intuition discriminate.
Defined.

(** C10 as it is stated fails in two ways. A name that is absent from the
    section but present under [[DEFAULT]] raises no [KeyError]: its default
    is returned. And a stored value with a stray ['%'] is not returned: the
    interpolation raises. *)
Lemma C10_counterexample :
  (In ("e-queo", [ ("module_id", "42") ])%string
      (cfg_sections ConfigFixtures.inherited)
   /\ ~ In "auth_token"%string (map fst [ ("module_id", "42") ]%string)
   /\ ConfigFixtures.get ConfigFixtures.inherited "e-queo" "auth_token"
      = Ok "tok")
  /\ (exists opts,
        In ("e-queo"%string, opts) (cfg_sections ConfigFixtures.percents)
        /\ In ("auth_token", "ab%cd")%string opts
        /\ ConfigFixtures.get ConfigFixtures.percents "e-queo" "auth_token"
           = Err (InterpolationError InterpolationSyntaxError)).
Proof.
  split.
  - split; [simpl; auto|]. split; [|reflexivity].
    simpl. intuition discriminate.
  - eexists. split; [simpl; left; reflexivity|].
    split; [simpl; auto | reflexivity].
Qed.

(* ================================================================= *)
(** ** The document is the one the specification words *)

Module SpecFacts.
Import StrFacts.

Lemma lines_split s : Spec.lines s = Str.split_lines s.
Proof.
  induction s as [|c s IH]; [reflexivity|].
  simpl. change Str.newline with "010"%char. now rewrite IH.
Qed.

Lemma unlines_join ls : Spec.unlines ls = Str.join_lines ls.
Proof.
  induction ls as [|l ls IH]; [reflexivity|].
  simpl. rewrite IH. reflexivity.
Qed.

Lemma after_run_span rest :
  Spec.after_run rest
  = (fst (Str.span_hashes rest) ++ "#" ++ snd (Str.span_hashes rest))%string.
Proof.
  induction rest as [|c rest IH]; [reflexivity|].
  simpl. change Str.hash with "#"%char.
  destruct (c =? "#")%char; [|reflexivity].
  rewrite IH. destruct (Str.span_hashes rest) as [run after]. reflexivity.
Qed.

Lemma extend_line_run line :
  Spec.extend_line line
  = extend_heading_run (Str.replicate 1 Str.hash) line.
Proof.
  unfold extend_heading_run. destruct line as [|c rest]; [reflexivity|].
  simpl. change Str.hash with "#"%char.
  destruct (c =? "#")%char; [|reflexivity].
  rewrite after_run_span.
  destruct (Str.span_hashes rest) as [run after]. reflexivity.
Qed.

Lemma body_first longreads_content m :
  Spec.body longreads_content m = body_of longreads_content m.
Proof.
  unfold Spec.body, body_of.
  induction longreads_content as [|x lcs IH]; [reflexivity|].
  simpl. destruct (lc_id x =? mat_id m); [reflexivity | exact IH].
Qed.

Lemma block_spec longreads_content m :
  Spec.block longreads_content m = spec_block longreads_content m.
Proof.
  unfold Spec.block, spec_block, extend_heading_runs.
  rewrite body_first, lines_split, unlines_join.
  rewrite (map_ext _ _ extend_line_run).
  reflexivity.
Qed.

Lemma concat_empty parts :
  String.concat EmptyString parts = Str.concat_all parts.
Proof.
  induction parts as [|p parts IH]; [reflexivity|].
  simpl. rewrite IH. destruct parts; simpl; [now rewrite app_empty_r|].
  reflexivity.
Qed.

Lemma document_spec sections longreads_content :
  Spec.document sections longreads_content
  = spec_document sections longreads_content.
Proof.
  unfold Spec.document, spec_document.
  rewrite concat_empty. f_equal. apply map_ext, block_spec.
Qed.

End SpecFacts.

(** C1: the document assembled for a program is the concatenation, over its
    sections in ascending ['order'] and over the materials of each section in
    ascending ['order'], of the blocks ['# ' + name + '\n\n\n' + body + '\n'],
    where body is the longread text of the material (the first content entry
    with its id) with the leading run of ['#'] of every line extended by
    exactly one ['#']. The sections and the materials the document runs over
    are the given ones, rearranged in ascending order, those with the same
    ['order'] in the order they were given; a document is assembled exactly
    when every material has a content entry. *)
Theorem C1_document_is_ordered_concatenation (p : program)
        (longreads_content : list longread_content) :
  let sections := sorted sec_order (prog_sections p) in
  (Permutation (prog_sections p) sections
   /\ StronglySorted (key_le sec_order) sections
   /\ forall k, filter (fun s => sec_order s =? k) sections
                = filter (fun s => sec_order s =? k) (prog_sections p))
  /\ (forall s, Permutation (sec_materials s)
                            (sorted mat_order (sec_materials s))
                /\ StronglySorted (key_le mat_order)
                                  (sorted mat_order (sec_materials s))
                /\ forall k,
                     filter (fun m => mat_order m =? k)
                            (sorted mat_order (sec_materials s))
                     = filter (fun m => mat_order m =? k) (sec_materials s))
  /\ (forall doc,
        create_program_content_md sections longreads_content = Ok doc
        <-> covered (prog_sections p) longreads_content
            /\ doc = Spec.document (prog_sections p) longreads_content).
Proof.
  cbv zeta. split; [|split].
  - split; [apply sorted_perm|].
    split; [apply sorted_sorted | intros k; apply sorted_stable].
  - intros s. split; [apply sorted_perm|].
    split; [apply sorted_sorted | intros k; apply sorted_stable].
  - intros doc.
    rewrite AssemblyFacts.create_program_content_md_spec,
            AssemblyFacts.all_have_content_sorted.
    rewrite <- CoverFacts.all_have_content_covered.
    rewrite SpecFacts.document_spec.
    unfold spec_document, ordered_materials.
    destruct (all_have_content (prog_sections p) longreads_content).
    + split.
      * intros H. injection H as <-. split; reflexivity.
      * intros [_ ->]. reflexivity.
    + split; [discriminate | intros [H _]; discriminate].
Qed.

(** The handbook: sections and materials come out in ascending order, the
    second page of the longread with two pages is not in the document, and
    every heading of a body has one ['#'] more. *)
Lemma C1_witness :
  create_program_content_md
    (sorted sec_order (prog_sections MoreFixtures.handbook))
    MoreFixtures.handbook_content
  = Ok MoreFixtures.handbook_md.
Proof.
  destruct (C1_document_is_ordered_concatenation
              MoreFixtures.handbook MoreFixtures.handbook_content)
    as (_ & _ & Hdoc).
  apply Hdoc. split; [|reflexivity].
  apply CoverFacts.all_have_content_covered. reflexivity.
Defined.

(* ================================================================= *)
(** ** A host that serves its pages makes the fetch return *)

Module ServedFacts.
Import RunFacts FetchFacts.

Section Served.
Context {S Items : Type}.
Variable srv : server.
Variable mk_req : Z -> request.
Variables msg key : string.
Variable extract : payload -> option (list Items * Z).
Variable merge : S -> list Items -> S.
Variable body : Z -> S -> M (S * Z).

Hypothesis body_shape : forall page st w,
  body page st w = page_body srv mk_req msg extract key merge page st w.

(** With the pages served and a budget of as many iterations, the loop
    returns the pages merged in their order, after one request per page. *)
Lemma loop_served count :
  forall fuel page st w pages,
  served_pages srv mk_req extract (map fst (trace w)) page count = Some pages ->
  (count <= fuel)%nat ->
  let evs := paged_events srv mk_req (map fst (trace w)) page count in
  while_has_next fuel body page st w
  = (Returns (fold_left merge pages st), mk_world (trace w ++ evs) (disk w))
  /\ pages = map (items_of extract) (map snd evs)
  /\ List.length pages = count.
Proof.
  induction count as [|count IH]; intros fuel page st w pages Hserved Hfuel;
    [discriminate|].
  destruct fuel as [|fuel]; [lia|].
  cbv zeta. cbn [served_pages] in Hserved.
  cbn [while_has_next paged_events map snd]. unfold bind.
  rewrite (body_run srv mk_req msg key extract merge body body_shape).
  destruct (srv (map fst (trace w)) (mk_req page)) as [d|status p] eqn:Er;
    [discriminate|].
  destruct (error_status status) eqn:Es; [discriminate|].
  destruct (extract p) as [[items n]|] eqn:Ex; [|discriminate].
  assert (Hitems : items_of extract (Response status p) = items)
    by (simpl; now rewrite Ex).
  destruct (page <? n) eqn:Hn.
  - destruct (served_pages srv mk_req extract
                (map fst (trace w) ++ [mk_req page]) (page + 1) count)
      as [rest|] eqn:Hrest; [|discriminate].
    injection Hserved as <-.
    destruct (IH fuel (page + 1) (merge st items)
                 (mk_world (trace w ++ [(mk_req page, Response status p)])
                           (disk w)) rest)
      as (Hrun & Hpages & Hlen).
    + cbn [trace]. rewrite map_app. exact Hrest.
    + lia.
    + cbn [trace disk] in Hrun, Hpages. rewrite map_app in Hrun, Hpages.
      cbn [map fst] in Hrun, Hpages.
      rewrite Hrun, <- List.app_assoc. split; [reflexivity|].
      split; [|simpl; now rewrite Hlen].
      cbn [map]. now rewrite Hitems, <- Hpages.
  - destruct count as [|count]; [|discriminate].
    injection Hserved as <-. unfold ret. cbn [paged_events map].
    split; [reflexivity|]. split; [now rewrite Hitems | reflexivity].
Qed.

End Served.

Lemma store_pages pages :
  forall programs,
  fold_left store_programs pages programs
  = store_programs programs (List.concat pages).
Proof.
  induction pages as [|page pages IH]; intros programs; [reflexivity|].
  simpl. rewrite IH. unfold store_programs. now rewrite fold_left_app.
Qed.

Lemma add_ids_pages pages :
  forall ids,
  fold_left add_ids pages ids
  = ids ++ map tm_id (filter is_longread (List.concat pages)).
Proof.
  induction pages as [|page pages IH]; intros ids; simpl.
  - now rewrite app_nil_r.
  - rewrite IH. unfold add_ids.
    now rewrite filter_app, map_app, List.app_assoc.
Qed.

Lemma ids_page_by_page (pages : list (list typed_material)) :
  map tm_id (filter is_longread (List.concat pages))
  = flat_map (fun page => map tm_id (filter is_longread page)) pages.
Proof.
  induction pages as [|page pages IH]; [reflexivity|].
  simpl. now rewrite filter_app, map_app, IH.
Qed.

End ServedFacts.

(** C5 (as amended): for every sequence of learning-programs pages that the
    host serves, [get_learning_programs] returns, given a budget of as many
    iterations, a mapping with one entry per program id that appears on any
    page: the entry of an id holds the program with that id that was fetched
    last, reduced to its name, its order and its sections (id, name, order,
    and materials with id, name, order). When the program ids are unique
    across all pages, and not within each page only, the mapping holds every
    fetched program, in page order. *)
Theorem C5_programs_are_keyed_by_id (srv : server) (MODULE_ID : string)
        (fuel : nat) (w : world) (count : nat)
        (pages : list (list api_program)) :
  served_pages srv (learning_programs_request MODULE_ID) extract_programs
               (map fst (trace w)) 1 count
  = Some pages ->
  (count <= fuel)%nat ->
  let fetched := List.concat pages in
  let evs := paged_events srv (learning_programs_request MODULE_ID)
                          (map fst (trace w)) 1 count in
  exists programs,
    get_learning_programs srv MODULE_ID fuel w
    = (Returns programs, mk_world (trace w ++ evs) (disk w))
    /\ pages = map (items_of extract_programs) (map snd evs)
    /\ NoDup (dict_keys programs)
    /\ (forall id, In id (dict_keys programs) <-> In id (map ap_id fetched))
    /\ (forall id,
          dict_get id programs
          = option_map extract_program (find (has_id id) (rev fetched)))
    /\ (NoDup (map ap_id fetched) -> programs = map program_entry fetched)
    /\ (forall p,
          extract_program p
          = mk_program (ap_name p)
              (map (fun s =>
                      mk_section (as_id s) (as_name s) (as_order s)
                        (map (fun m => mk_material (am_id m) (am_name m)
                                                   (am_order m))
                             (as_materials s)))
                   (ap_sections p))
              (ap_order p)).
Proof.
  intros Hserved Hfuel fetched evs.
  destruct (ServedFacts.loop_served srv (learning_programs_request MODULE_ID)
              programs_msg "learning_programs" extract_programs store_programs
              _ (FetchFacts.programs_shape srv MODULE_ID)
              count fuel 1 [] w pages Hserved Hfuel)
    as (Hrun & Hpages & _).
  rewrite ServedFacts.store_pages in Hrun.
  exists (store_programs [] fetched).
  split; [exact Hrun|]. split; [exact Hpages|].
  split; [apply DictFacts.store_keys_nodup; constructor|].
  split; [intros id; rewrite DictFacts.store_keys_in; simpl; tauto|].
  split.
  - intros id. rewrite DictFacts.store_get. now destruct (find _ _).
  - split; [|reflexivity].
    intros Hnd. now rewrite DictFacts.store_fresh by auto.
Qed.

(** The two programs of the fixture host have different ids: both are kept,
    in page order. *)
Lemma C5_witness :
  get_learning_programs (Fixtures.host []) "42" 5 initial_world
  = (Returns [ program_entry Fixtures.alpha; program_entry Fixtures.beta ],
     mk_world (paged_events (Fixtures.host [])
                            (learning_programs_request "42") [] 1 2) []).
Proof.
  destruct (C5_programs_are_keyed_by_id
              (Fixtures.host []) "42" 5 initial_world 2
              [[Fixtures.alpha]; [Fixtures.beta]] eq_refl)
    as (programs & Hrun & _ & _ & _ & _ & Hall & _); [lia|].
  rewrite Hrun. rewrite Hall; [reflexivity|].
  simpl. repeat constructor; simpl; intuition lia.
Defined.

(** C7: for the pages of materials that the host serves, [get_longread_ids]
    returns, given a budget of as many iterations, the ids of the returned
    materials whose ['type'] is ['longread'], in the order of the replies;
    [filter_longreads] leaves the program and its sections as they are but
    for the materials of each section, of which it keeps those whose id is in
    that list; so every material of the assembled document has the id of a
    material the host returned as a longread. *)
Theorem C7_only_longreads_contribute (srv : server) (p : program)
        (fuel : nat) (w : world) (count : nat)
        (pages : list (list typed_material)) :
  served_pages srv (materials_request (material_ids p)) extract_materials
               (map fst (trace w)) 1 count
  = Some pages ->
  (count <= fuel)%nat ->
  let returned := List.concat pages in
  let evs := paged_events srv (materials_request (material_ids p))
                          (map fst (trace w)) 1 count in
  exists longreads_ids,
    get_longread_ids srv p fuel w
    = (Returns longreads_ids, mk_world (trace w ++ evs) (disk w))
    /\ pages = map (items_of extract_materials) (map snd evs)
    /\ longreads_ids
       = flat_map (fun page => map tm_id (filter is_longread page)) pages
    /\ (forall id,
          In id longreads_ids
          <-> exists x, In x returned /\ tm_type x = "longread"%string
                        /\ tm_id x = id)
    /\ let kept := filter_longreads p longreads_ids in
       prog_name kept = prog_name p
       /\ prog_order kept = prog_order p
       /\ map (fun s => (sec_id s, sec_name s, sec_order s)) (prog_sections kept)
          = map (fun s => (sec_id s, sec_name s, sec_order s)) (prog_sections p)
       /\ map sec_materials (prog_sections kept)
          = map (fun s => filter (fun m => id_in longreads_ids (mat_id m))
                                 (sec_materials s))
                (prog_sections p)
       /\ (forall m, In m (ordered_materials (prog_sections kept))
                     <-> In m (all_materials p) /\ In (mat_id m) longreads_ids)
       /\ (forall m, In m (ordered_materials (prog_sections kept)) ->
                     exists x, In x returned
                               /\ tm_type x = "longread"%string
                               /\ tm_id x = mat_id m).
Proof.
  intros Hserved Hfuel returned evs.
  destruct (ServedFacts.loop_served srv (materials_request (material_ids p))
              ids_msg "materials" extract_materials add_ids
              _ (FetchFacts.ids_shape srv (material_ids p))
              count fuel 1 [] w pages Hserved Hfuel)
    as (Hrun & Hpages & _).
  rewrite ServedFacts.add_ids_pages in Hrun. simpl app in Hrun.
  exists (map tm_id (filter is_longread returned)).
  split; [exact Hrun|]. split; [exact Hpages|].
  split; [apply ServedFacts.ids_page_by_page|].
  split; [intros id; apply LongreadFacts.In_longread_ids|].
  cbv zeta.
  assert (Hin : forall m,
    In m (ordered_materials
            (prog_sections
               (filter_longreads p (map tm_id (filter is_longread returned)))))
    <-> In m (all_materials p)
        /\ In (mat_id m) (map tm_id (filter is_longread returned))).
  { intros m. rewrite LongreadFacts.In_ordered_materials.
    apply LongreadFacts.In_filtered. }
  split; [reflexivity|]. split; [reflexivity|].
  split; [unfold filter_longreads; simpl; now rewrite map_map|].
  split; [unfold filter_longreads; simpl; now rewrite map_map|].
  split; [exact Hin|].
  intros m Hm. apply Hin in Hm. destruct Hm as [_ Hm].
  now apply LongreadFacts.In_longread_ids.
Qed.

(** Of the two materials of the fixture program only the longread stays. *)
Lemma C7_witness :
  let p := extract_program Fixtures.alpha in
  fst (get_longread_ids (Fixtures.host []) p 5 initial_world) = Returns [100]
  /\ map mat_name (all_materials p) = ["Welcome"; "Quiz"]%string
  /\ map mat_name (ordered_materials (prog_sections (filter_longreads p [100])))
     = ["Welcome"]%string.
Proof.
  cbv zeta.
  destruct (C7_only_longreads_contribute
              (Fixtures.host []) (extract_program Fixtures.alpha) 5
              initial_world 1
              [[mk_typed_material 100 "longread"; mk_typed_material 101 "test"]]
              eq_refl)
    as (ids & Hrun & _ & Hids & _); [lia|].
  rewrite Hrun, Hids. repeat split.
Defined.

(* ================================================================= *)
(** ** Where an aborted run stopped *)

Module AbortFacts.
Import RunFacts FetchFacts DictFacts DiskFacts MainMore.

(** A loop that exits did so in the pass of one of its elements, after a
    full pass for each element before it. *)
Lemma for_each_exits {A S} (body : S -> A -> M S) xs :
  forall st w msg e w',
  for_each xs body st w = (SystemExit msg e, w') ->
  exists done failing rest st_k w_k,
    xs = done ++ failing :: rest
    /\ for_each done body st w = (Returns st_k, w_k)
    /\ body st_k failing w_k = (SystemExit msg e, w').
Proof.
  induction xs as [|x xs IH]; intros st w msg e w' Hrun; [discriminate|].
  simpl in Hrun. rewrite bind_run in Hrun.
  destruct (body st x w) as [[st1|m1 e1|e1|] w1] eqn:E1; try discriminate.
  - destruct (IH st1 w1 msg e w' Hrun)
      as (done & failing & rest & st_k & w_k & -> & Hdone & Hfail).
    exists (x :: done), failing, rest, st_k, w_k.
    split; [reflexivity|]. split; [|exact Hfail].
    simpl. rewrite bind_run, E1. exact Hdone.
  - injection Hrun as <- <- <-.
    exists [], x, xs, st, w. repeat split. exact E1.
Qed.

Lemma fs_programs srv mid fuel :
  fail_stopping (get_learning_programs srv mid fuel).
Proof.
  unfold get_learning_programs.
  eapply fs_loop; [apply programs_shape | apply programs_count].
Qed.

End AbortFacts.

(** C3 (as amended): a run that an HTTP failure aborts ends with the failed
    request, every request before it having gone through, and exits with the
    exception of that failure. Either the failure is in the listing of the
    programs and nothing is written; or the programs were listed, the
    program ids split into those processed in full before the failing
    request, the one in whose processing the request failed, and the later
    ones, and the files written are the three files (.md, .htm, .pdf) of
    each program processed in full, in their order: none for the program
    being processed nor for a later one, and none at all when the failure
    is in the first program. *)
Theorem C3_abort_keeps_finished_programs (srv : server) (MODULE_ID : string)
        (sanitize_filename markdown_markdown pdfkit_render : string -> string)
        (fuel : nat) (w w' : world) (msg : string) (e : request_exception) :
  main srv MODULE_ID sanitize_filename markdown_markdown pdfkit_render fuel w
  = (SystemExit msg e, w') ->
  exists evs req r,
    trace w' = trace w ++ evs ++ [(req, r)]
    /\ Forall went_through evs
    /\ failed r = true
    /\ e = exception_of r
    /\ ((get_learning_programs srv MODULE_ID fuel w = (SystemExit msg e, w')
         /\ disk w' = disk w)
        \/ exists programs w0 done failing rest programs_k w_k before during,
             get_learning_programs srv MODULE_ID fuel w
             = (Returns programs, w0)
             /\ dict_keys programs = done ++ failing :: rest
             /\ for_each done
                  (process_program srv sanitize_filename markdown_markdown
                                   pdfkit_render fuel)
                  programs w0
                = (Returns programs_k, w_k)
             /\ process_program srv sanitize_filename markdown_markdown
                                pdfkit_render fuel programs_k failing w_k
                = (SystemExit msg e, w')
             /\ trace w_k = trace w ++ before
             /\ evs = before ++ during
             /\ written_paths (disk w')
                = written_paths (disk w)
                  ++ files_of sanitize_filename programs done
             /\ (done = [] -> disk w' = disk w)).
Proof.
  unfold main. rewrite DiskFacts.bind_run.
  destruct (get_learning_programs srv MODULE_ID fuel w)
    as [[programs|m1 e1|e1|] w0] eqn:E1; try discriminate.
  - rewrite DiskFacts.bind_run.
    destruct (for_each (dict_keys programs) _ programs w0)
      as [[programs'|m2 e2|e2|] w2] eqn:E2; try discriminate.
    intros H. injection H as <- <- <-.
    destruct (AbortFacts.for_each_exits _ _ _ _ _ _ _ E2)
      as (done & failing & rest & programs_k & w_k & Hkeys & Hdone & Hfail).
    destruct (AbortFacts.fs_programs srv MODULE_ID fuel w _ _ E1)
      as (evs0 & Htr0 & Hok0).
    destruct (MainMore.fs_for_each _ done
                (fun st id => MainMore.fs_process srv sanitize_filename
                                markdown_markdown pdfkit_render fuel st id)
                programs w0 _ _ Hdone)
      as (evs1 & Htr1 & Hok1).
    destruct (MainMore.fs_process srv sanitize_filename markdown_markdown
                pdfkit_render fuel programs_k failing w_k _ _ Hfail)
      as (evs2 & Htr2 & (pre & [req r] & -> & Hpre & Hev & He)).
    simpl in Hok0, Hok1, Hev, He.
    exists (evs0 ++ evs1 ++ pre), req, r.
    split; [rewrite Htr2, Htr1, Htr0, <- !List.app_assoc; reflexivity|].
    split; [repeat (apply Forall_app; split); assumption|].
    split; [exact Hev|]. split; [exact He|].
    right.
    exists programs, w0, done, failing, rest, programs_k, w_k,
           (evs0 ++ evs1), pre.
    split; [reflexivity|]. split; [exact Hkeys|].
    split; [exact Hdone|]. split; [exact Hfail|].
    split; [rewrite Htr1, Htr0, <- List.app_assoc; reflexivity|].
    split; [now rewrite <- List.app_assoc|].
    pose proof (DiskFacts.programs_disk _ _ _ _ _ _ E1) as Hd0.
    pose proof (DiskFacts.process_program_disk _ _ _ _ _ _ _ _ _ _ Hfail)
      as Hd2.
    simpl in Hd2.
    split.
    + apply DiskFacts.for_each_program_disk in Hdone.
      now rewrite Hd2, Hdone, Hd0.
    + intros ->. injection Hdone as _ <-. now rewrite Hd2.
  - intros H. injection H as <- <- <-.
    destruct (AbortFacts.fs_programs srv MODULE_ID fuel w _ _ E1)
      as (evs0 & Htr0 & (pre & [req r] & -> & Hpre & Hev & He)).
    simpl in Hev, He.
    exists pre, req, r.
    split; [exact Htr0|]. split; [exact Hpre|].
    split; [exact Hev|]. split; [exact He|].
    left. split; [reflexivity|].
    now apply DiskFacts.programs_disk in E1.
Qed.

(** The fixture host fails in the second program: the run ends with the
    failed request, and the files of the first program are what is
    written. *)
Lemma C3_witness :
  let run := Fixtures.run_main (Fixtures.host [200]) in
  let process :=
    process_program (Fixtures.host [200]) Fixtures.plain_name
                    Fixtures.to_html Fixtures.to_pdf 5 in
  fst run = SystemExit ids_msg (HTTPError 500)
  /\ written_paths (disk (snd run))
     = [ "output/md/Alpha.md"; "output/html/Alpha.htm";
         "output/pdf/Alpha.pdf" ]%string
  /\ exists evs req r,
       trace (snd run) = trace initial_world ++ evs ++ [(req, r)]
       /\ Forall went_through evs
       /\ failed r = true
       /\ HTTPError 500 = exception_of r
       /\ ((get_learning_programs (Fixtures.host [200]) "42" 5 initial_world
            = (SystemExit ids_msg (HTTPError 500), snd run)
            /\ disk (snd run) = disk initial_world)
           \/ exists programs w0 done failing rest programs_k w_k
                     before during,
                get_learning_programs (Fixtures.host [200]) "42" 5
                                      initial_world
                = (Returns programs, w0)
                /\ dict_keys programs = done ++ failing :: rest
                /\ for_each done process programs w0
                   = (Returns programs_k, w_k)
                /\ process programs_k failing w_k
                   = (SystemExit ids_msg (HTTPError 500), snd run)
                /\ trace w_k = trace initial_world ++ before
                /\ evs = before ++ during
                /\ written_paths (disk (snd run))
                   = written_paths (disk initial_world)
                     ++ files_of Fixtures.plain_name programs done
                /\ (done = [] -> disk (snd run) = disk initial_world)).
Proof.
  cbv zeta. split; [reflexivity|]. split; [reflexivity|].
  apply (C3_abort_keeps_finished_programs
           (Fixtures.host [200]) "42" Fixtures.plain_name Fixtures.to_html
           Fixtures.to_pdf 5 initial_world
           (snd (Fixtures.run_main (Fixtures.host [200])))
           ids_msg (HTTPError 500)).
  reflexivity.
Defined.
